(** * AIWebPage: the agent core (decision, execution, state, resolution)

    A shallow embedding of
      - src/lib/agent/schemas.ts   (the decision shapes),
      - src/lib/agent/index.ts     (normalizeDecision, makeDecision,
                                    resolveComponentId, executeRegenerate,
                                    executeUpdate, runAgent),
      - src/lib/agent/tools.ts     (createComponent, updateComponent,
                                    composeScreen, findComponentByName),
      - src/lib/agent/prompts.ts   (formatStateForDecision),
      - src/lib/state/index.ts     (the session store),
    followed by the properties of the specification that concern them.

    Conventions of the embedding.
      - A JS string is a [string]; the text handled here (keyword tables,
        identifiers, unit names) is ASCII, and [toLowerCase]/[toUpperCase]
        act on the ASCII letters.
      - An optional field [f?: T] is an [option T]; [undefined] is [None].
      - A JS [Map] whose iteration order is observed (the unit mapping) is an
        insertion-ordered association list; the session store, whose order is
        never observed, is a [gmap].
      - [new Date()] and [uuidv4()] read two external streams, indexed by the
        number of readings made so far, which the world state counts.
      - The external services (reasoning, content generation) are inputs:
        the reasoning service is a function of the submitted conversation,
        each generation call of a batch has its own outcome, and the order
        in which the calls of a batch settle is a schedule.
      - Console output is left out; so are image generation and its cache,
        which the functions above do not call. *)

From Stdlib Require Import String Ascii List Bool Arith Lia DecimalString.
From stdpp Require Import gmap strings.
Import ListNotations.
Open Scope string_scope.
Open Scope list_scope.
Open Scope nat_scope.

(* ===================================================================== *)
(** ** JavaScript string primitives *)
(* ===================================================================== *)

Module Js.

Definition lowerChar (c : ascii) : ascii :=
  let n := nat_of_ascii c in
  if ((65 <=? n) && (n <=? 90))%nat then ascii_of_nat (n + 32) else c.

Definition upperChar (c : ascii) : ascii :=
  let n := nat_of_ascii c in
  if ((97 <=? n) && (n <=? 122))%nat then ascii_of_nat (n - 32) else c.

(** [s.toLowerCase()] *)
Fixpoint toLowerCase (s : string) : string :=
  match s with
  | EmptyString => EmptyString
  | String c r => String (lowerChar c) (toLowerCase r)
  end.

(** [s.toUpperCase()] *)
Fixpoint toUpperCase (s : string) : string :=
  match s with
  | EmptyString => EmptyString
  | String c r => String (upperChar c) (toUpperCase r)
  end.

(** [s.startsWith(p)] *)
Fixpoint startsWith (s p : string) : bool :=
  match p, s with
  | EmptyString, _ => true
  | String _ _, EmptyString => false
  | String a p', String b s' => Ascii.eqb a b && startsWith s' p'
  end.

(** [s.includes(kw)]: some suffix of [s] starts with [kw]. *)
Fixpoint includes (s kw : string) : bool :=
  startsWith s kw ||
  match s with
  | EmptyString => false
  | String _ r => includes r kw
  end.

(** [a || b] on strings: the empty string is falsy. *)
Definition orElse (a b : string) : string :=
  if String.eqb a "" then b else a.

(** [xs.join(sep)] *)
Fixpoint join (sep : string) (xs : list string) : string :=
  match xs with
  | [] => ""
  | [x] => x
  | x :: r => x +:+ sep +:+ join sep r
  end.

(** [arr.includes(x)] on an array of strings. *)
Definition arrIncludes (xs : list string) (x : string) : bool :=
  existsb (String.eqb x) xs.

(** [arr.slice(-n)]: the last [n] elements (all of them when fewer). *)
Definition sliceLast {A} (n : nat) (xs : list A) : list A :=
  skipn (List.length xs - n) xs.

(** The characters of [/[0-9a-f-]/i]. *)
Definition isHexOrDash (c : ascii) : bool :=
  let n := nat_of_ascii c in
  (((48 <=? n) && (n <=? 57)) || ((97 <=? n) && (n <=? 102))
   || ((65 <=? n) && (n <=? 70)) || (n =? 45))%nat.

Fixpoint allChars (p : ascii -> bool) (s : string) : bool :=
  match s with
  | EmptyString => true
  | String c r => p c && allChars p r
  end.

(** [s.match(/^[0-9a-f-]{36}$/i)] is not null. *)
Definition matchesUuid (s : string) : bool :=
  (String.length s =? 36)%nat && allChars isHexOrDash s.

End Js.

(* ===================================================================== *)
(** ** schemas.ts: the decision shapes *)
(* ===================================================================== *)

Record ComponentUpdate := {
  componentId : string;
  changeDescription : string
}.

Record NewComponentSpec := {
  name : string;
  description : string;
  requirements : string;
  styleHints : option string
}.

Inductive ScreenLayout :=
| stack | sidebar_left | sidebar_right | holy_grail | grid_2 | grid_3.

Record LayoutSpec := {
  type : ScreenLayout;
  sidebarComponent : option string;
  headerComponent : option string;
  footerComponent : option string
}.

Inductive Action := REGENERATE_SCREEN | UPDATE_COMPONENTS.

Record AgentDecision := {
  action : Action;
  rationale : string;
  createBranch : option bool;
  updates : option (list ComponentUpdate);
  newComponents : option (list NewComponentSpec);
  screenOrder : option (list string);
  regenerateSpecs : option (list NewComponentSpec);
  layout : option LayoutSpec
}.

Definition isRegenerate (a : Action) : bool :=
  match a with REGENERATE_SCREEN => true | UPDATE_COMPONENTS => false end.

(** [!xs || xs.length === 0] *)
Definition absentOrEmpty {A} (xs : option (list A)) : bool :=
  match xs with
  | None | Some [] => true
  | Some (_ :: _) => false
  end.

(** [xs || []] *)
Definition orNil {A} (xs : option (list A)) : list A :=
  match xs with
  | None => []
  | Some l => l
  end.

(** [!!b] on an optional boolean. *)
Definition truthy (b : option bool) : bool :=
  match b with
  | Some true => true
  | _ => false
  end.

(* ===================================================================== *)
(** ** index.ts: normalizeDecision *)
(* ===================================================================== *)

Definition branchKeywords : list string :=
  [ "new version"; "another version"; "different version"; "create a version";
    "branch"; "create a branch";
    "copy"; "duplicate"; "clone";
    "variant"; "alternative";
    "keep the original"; "without changing the original";
    "try a different"; "experiment with";
    "make a copy"; "create a copy" ].

Definition explicitRegenKeywords : list string :=
  [ "delete everything"; "start over"; "start fresh"; "completely new";
    "new page"; "different page"; "replace everything"; "from scratch";
    "completely different"; "total redesign"; "create a new"; "build a new" ].

(** First block: specs the model put into [newComponents] are moved to
    [regenerateSpecs]. *)
Definition repairMisplacedSpecs (decision : AgentDecision) : AgentDecision :=
  if isRegenerate (action decision)
     && absentOrEmpty (regenerateSpecs decision)
     && negb (absentOrEmpty (newComponents decision))
  then {| action := action decision;
          rationale := rationale decision;
          createBranch := createBranch decision;
          updates := updates decision;
          newComponents := Some [];
          screenOrder := screenOrder decision;
          regenerateSpecs := newComponents decision;
          layout := layout decision |}
  else decision.

Definition hasBranchingIntent (userPrompt rationaleText : string) : bool :=
  let promptLC := Js.toLowerCase userPrompt in
  let rationaleLC := Js.toLowerCase rationaleText in
  existsb (fun kw => Js.includes promptLC kw || Js.includes rationaleLC kw)
          branchKeywords.

(** Second block: branching detection. *)
Definition detectBranching (decision : AgentDecision)
    (hasExistingComponents : bool) (userPrompt : string) : AgentDecision :=
  if hasExistingComponents
     && hasBranchingIntent userPrompt (rationale decision)
     && negb (truthy (createBranch decision))
  then {| action := action decision;
          rationale := rationale decision;
          createBranch := Some true;
          updates := updates decision;
          newComponents := newComponents decision;
          screenOrder := screenOrder decision;
          regenerateSpecs := regenerateSpecs decision;
          layout := layout decision |}
  else decision.

Definition isExplicitRegen (rationaleText : string) : bool :=
  let rationaleLC := Js.toLowerCase rationaleText in
  existsb (fun kw => Js.includes rationaleLC kw) explicitRegenKeywords.

Definition protectedRationale (r : string) : string :=
  "[PROTECTED] " +:+ r +:+
  ". Adding new components while preserving existing ones.".

(** Third block: regeneration protection. *)
Definition regenerationGuard (decision : AgentDecision)
    (hasExistingComponents : bool) : AgentDecision :=
  if hasExistingComponents && isRegenerate (action decision)
     && isExplicitRegen (rationale decision)
  then decision
  else if hasExistingComponents && isRegenerate (action decision)
          && negb (isExplicitRegen (rationale decision))
  then
    let specs := orNil (regenerateSpecs decision) in
    let existingNames := orNil (screenOrder decision) in
    let newNames := map name specs in
    let combinedOrder :=
      existingNames ++
      List.filter (fun n => negb (Js.arrIncludes existingNames n)) newNames in
    {| action := UPDATE_COMPONENTS;
       rationale := protectedRationale (rationale decision);
       createBranch := createBranch decision;
       newComponents := Some specs;
       updates := Some (orNil (updates decision));
       screenOrder :=
         if (0 <? List.length combinedOrder)%nat then Some combinedOrder else None;
       regenerateSpecs := None;
       layout := layout decision |}
  else decision.

Definition normalizeDecision (decision : AgentDecision)
    (hasExistingComponents : bool) (userPrompt : string) : AgentDecision :=
  let decision := repairMisplacedSpecs decision in
  let decision := detectBranching decision hasExistingComponents userPrompt in
  regenerationGuard decision hasExistingComponents.

(* ===================================================================== *)
(** ** The data model *)
(* ===================================================================== *)

(** A JS [Map] with string keys, in insertion order: [set] on a key that is
    present replaces the value in place, on a new key it appends. *)
Module JsMap.
Section Ops.
Context {V : Type}.

Fixpoint get (k : string) (m : list (string * V)) : option V :=
  match m with
  | [] => None
  | (k', v) :: r => if String.eqb k' k then Some v else get k r
  end.

Definition has (k : string) (m : list (string * V)) : bool :=
  match get k m with Some _ => true | None => false end.

Fixpoint set (k : string) (v : V) (m : list (string * V))
  : list (string * V) :=
  match m with
  | [] => [(k, v)]
  | (k', v') :: r =>
      if String.eqb k' k then (k, v) :: r else (k', v') :: set k v r
  end.

Definition values (m : list (string * V)) : list V := map snd m.

Definition size (m : list (string * V)) : nat := List.length m.
End Ops.
End JsMap.

(** src/lib/types.ts, which declares Component, Screen, Message,
    DecisionHistoryEntry, SessionState, SerializedSessionState and
    ToolResult, is not among the sources.  The records below have the fields
    of the spec's data model, under the names that the object literals of
    state/index.ts and agent/tools.ts give them.  A [Date] is a number of
    milliseconds. *)

Module Component.
(** Modelled from the spec: the type Component of src/lib/types.ts, which is
    missing: a content unit, with its identifier, name, description, body
    and time of last update. *)
Record t := {
  id : string;
  name : string;
  description : string;
  html : string;
  lastUpdatedAt : nat
}.
End Component.

Module LayoutConfig.
(** Modelled from the spec: the type of Screen.layoutConfig of src/lib/types.ts,
    which is missing: the role bindings of a composition. *)
Record t := {
  sidebarComponentId : option string;
  headerComponentId : option string;
  footerComponentId : option string;
  mainComponentIds : option (list string)
}.
End LayoutConfig.

Module Screen.
(** Modelled from the spec: the type Screen of src/lib/types.ts, which is missing:
    a composition, its ordered identifiers, layout tag and role bindings. *)
Record t := {
  componentIds : list string;
  layout : ScreenLayout;
  layoutConfig : option LayoutConfig.t
}.
End Screen.

(** Modelled from the spec: the roles of a Message, of src/lib/types.ts,
    which is missing; they are those [addMessage] accepts. *)
Inductive Role := user | assistant | system.

Module Message.
(** Modelled from the spec: the type Message of src/lib/types.ts, which is
    missing: role, text and timestamp. *)
Record t := {
  role : Role;
  content : string;
  timestamp : nat
}.
End Message.

Module DecisionHistoryEntry.
(** Modelled from the spec: the type DecisionHistoryEntry of
    src/lib/types.ts, which is missing: one applied decision. *)
Record t := {
  id : string;
  prompt : string;
  decision : AgentDecision;
  timestamp : nat;
  componentsAffected : list string
}.
End DecisionHistoryEntry.

Module SessionState.
(** Modelled from the spec: the type SessionState of src/lib/types.ts, which is
    missing: identifier, message log, unit mapping, composition or none,
    audit log and the two timestamps. *)
Record t := {
  id : string;
  messages : list Message.t;
  components : list (string * Component.t);
  screen : option Screen.t;
  decisionHistory : list DecisionHistoryEntry.t;
  createdAt : nat;
  lastActivityAt : nat
}.

Definition setMessages (s : t) (m : list Message.t) : t :=
  {| id := id s; messages := m; components := components s;
     screen := screen s; decisionHistory := decisionHistory s;
     createdAt := createdAt s; lastActivityAt := lastActivityAt s |}.

Definition setComponents (s : t) (c : list (string * Component.t)) : t :=
  {| id := id s; messages := messages s; components := c;
     screen := screen s; decisionHistory := decisionHistory s;
     createdAt := createdAt s; lastActivityAt := lastActivityAt s |}.

Definition setScreen (s : t) (sc : option Screen.t) : t :=
  {| id := id s; messages := messages s; components := components s;
     screen := sc; decisionHistory := decisionHistory s;
     createdAt := createdAt s; lastActivityAt := lastActivityAt s |}.

Definition setDecisionHistory (s : t) (h : list DecisionHistoryEntry.t) : t :=
  {| id := id s; messages := messages s; components := components s;
     screen := screen s; decisionHistory := h;
     createdAt := createdAt s; lastActivityAt := lastActivityAt s |}.

Definition setLastActivityAt (s : t) (d : nat) : t :=
  {| id := id s; messages := messages s; components := components s;
     screen := screen s; decisionHistory := decisionHistory s;
     createdAt := createdAt s; lastActivityAt := d |}.
End SessionState.

Module SerializedSessionState.
(** Modelled from the spec: the type SerializedSessionState of
    src/lib/types.ts, which is missing: a session with its unit mapping as
    an array. *)
Record t := {
  id : string;
  messages : list Message.t;
  components : list Component.t;
  screen : option Screen.t;
  decisionHistory : list DecisionHistoryEntry.t
}.
End SerializedSessionState.

(** Modelled from the spec: what the [data] of a ToolResult can be; the
    field is untyped in the source and holds one of these. *)
Inductive ToolData :=
| DataComponent (c : Component.t)
| DataComponents (cs : list Component.t)
| DataScreen (s : Screen.t)
| DataText (s : string).

Module ToolResult.
(** Modelled from the spec: the type ToolResult of src/lib/types.ts, which is
    missing: a success flag with data or an error message. *)
Record t := {
  success : bool;
  data : option ToolData;
  error : option string
}.

Definition ok (d : ToolData) : t :=
  {| success := true; data := Some d; error := None |}.
Definition fail (e : string) : t :=
  {| success := false; data := None; error := Some e |}.
End ToolResult.

(* ===================================================================== *)
(** ** The world: the session store and the two external streams *)
(* ===================================================================== *)

Record World := {
  sessions : gmap string SessionState.t;
  datesRead : nat;
  uuidsDrawn : nat
}.

(** What the process reads from outside: the clock ([new Date()], by reading
    number) and the identifier generator ([uuidv4()], by draw number). *)
Record Env := {
  clock : nat -> nat;
  uuidv4 : nat -> string
}.

(** Stateful code: a function of the world returning a value and the next
    world. *)
Definition St (A : Type) : Type := World -> A * World.

Definition ret {A} (a : A) : St A := fun w => (a, w).

Definition bind {A B} (m : St A) (k : A -> St B) : St B :=
  fun w => let (a, w') := m w in k a w'.

Declare Scope st_scope.
Delimit Scope st_scope with st.
Notation "x <- m ;; k" := (bind m (fun x => k))
  (at level 100, m at next level, right associativity) : st_scope.
Notation "m ;;; k" := (bind m (fun _ => k))
  (at level 100, right associativity) : st_scope.
Open Scope st_scope.

Definition putSession (sid : string) (s : SessionState.t) : St unit :=
  fun w => (tt, {| sessions := <[sid := s]> (sessions w);
                   datesRead := datesRead w;
                   uuidsDrawn := uuidsDrawn w |}).

Definition newDate (E : Env) : St nat :=
  fun w => (clock E (datesRead w),
            {| sessions := sessions w;
               datesRead := S (datesRead w);
               uuidsDrawn := uuidsDrawn w |}).

Definition drawUuid (E : Env) : St string :=
  fun w => (uuidv4 E (uuidsDrawn w),
            {| sessions := sessions w;
               datesRead := datesRead w;
               uuidsDrawn := S (uuidsDrawn w) |}).

(* ===================================================================== *)
(** ** state/index.ts *)
(* ===================================================================== *)

Definition getSession (w : World) (sessionId : string)
  : option SessionState.t :=
  sessions w !! sessionId.

Definition createSession (E : Env) : St SessionState.t :=
  id <- drawUuid E ;;
  now <- newDate E ;;
  let session :=
    {| SessionState.id := id;
       SessionState.messages := [];
       SessionState.components := [];
       SessionState.screen := None;
       SessionState.decisionHistory := [];
       SessionState.createdAt := now;
       SessionState.lastActivityAt := now |} in
  putSession id session ;;;
  ret session.

Definition getOrCreateSession (E : Env) (sessionId : option string)
  : St SessionState.t :=
  fun w =>
    match sessionId with
    | Some sid =>
        match (if String.eqb sid "" then None else sessions w !! sid) with
        | Some session =>
            (now <- newDate E ;;
             let session := SessionState.setLastActivityAt session now in
             putSession sid session ;;;
             ret session) w
        | None => createSession E w
        end
    | None => createSession E w
    end.

Definition addMessage (E : Env) (sessionId : string) (role : Role)
    (content : string) : St (option Message.t) :=
  fun w =>
    match sessions w !! sessionId with
    | None => (None, w)
    | Some session =>
        (stamp <- newDate E ;;
         let message := {| Message.role := role;
                           Message.content := content;
                           Message.timestamp := stamp |} in
         now <- newDate E ;;
         putSession sessionId
           (SessionState.setLastActivityAt
              (SessionState.setMessages session
                 (SessionState.messages session ++ [message])) now) ;;;
         ret (Some message)) w
    end.

Definition upsertComponent (E : Env) (sessionId : string)
    (component : Component.t) : St bool :=
  fun w =>
    match sessions w !! sessionId with
    | None => (false, w)
    | Some session =>
        (now <- newDate E ;;
         putSession sessionId
           (SessionState.setLastActivityAt
              (SessionState.setComponents session
                 (JsMap.set (Component.id component) component
                    (SessionState.components session))) now) ;;;
         ret true) w
    end.

Definition getComponent (w : World) (sessionId componentId : string)
  : option Component.t :=
  match sessions w !! sessionId with
  | None => None
  | Some session => JsMap.get componentId (SessionState.components session)
  end.

Definition updateScreen (E : Env) (sessionId : string) (screen : Screen.t)
  : St bool :=
  fun w =>
    match sessions w !! sessionId with
    | None => (false, w)
    | Some session =>
        (now <- newDate E ;;
         putSession sessionId
           (SessionState.setLastActivityAt
              (SessionState.setScreen session (Some screen)) now) ;;;
         ret true) w
    end.

Definition addDecisionToHistory (E : Env) (sessionId prompt : string)
    (decision : AgentDecision) (componentsAffected : list string)
  : St (option DecisionHistoryEntry.t) :=
  fun w =>
    match sessions w !! sessionId with
    | None => (None, w)
    | Some session =>
        (id <- drawUuid E ;;
         stamp <- newDate E ;;
         let entry :=
           {| DecisionHistoryEntry.id := id;
              DecisionHistoryEntry.prompt := prompt;
              DecisionHistoryEntry.decision := decision;
              DecisionHistoryEntry.timestamp := stamp;
              DecisionHistoryEntry.componentsAffected := componentsAffected |} in
         now <- newDate E ;;
         putSession sessionId
           (SessionState.setLastActivityAt
              (SessionState.setDecisionHistory session
                 (SessionState.decisionHistory session ++ [entry])) now) ;;;
         ret (Some entry)) w
    end.

Definition serializeSession (session : SessionState.t)
  : SerializedSessionState.t :=
  {| SerializedSessionState.id := SessionState.id session;
     SerializedSessionState.messages := SessionState.messages session;
     SerializedSessionState.components :=
       JsMap.values (SessionState.components session);
     SerializedSessionState.screen := SessionState.screen session;
     SerializedSessionState.decisionHistory :=
       SessionState.decisionHistory session |}.

(* ===================================================================== *)
(** ** tools.ts *)
(* ===================================================================== *)

(** What one call of [generateComponentHtml] comes to: it throws (service
    error, no content, JSON that does not parse or does not validate), or it
    returns the body, image placeholders already processed, and a
    description. *)
Inductive GenOutcome :=
| GenError (message : string)
| GenOk (html description : string).

(** An [async] tool call runs up to its only [await] when it is called, and
    the rest when the generation call settles.  [Pending] is the call at its
    [await] (or already returned, when it returned before it). *)
Inductive Pending :=
| Settled (r : ToolResult.t)
| AwaitCreate (sessionId name description : string) (out : GenOutcome)
| AwaitUpdate (sessionId : string) (existing : Component.t) (out : GenOutcome).

Definition createComponentStart (sessionId name description : string)
    (requirements : string) (styleHints : option string) (out : GenOutcome)
  : Pending :=
  AwaitCreate sessionId name description out.

Definition updateComponentStart (w : World) (sessionId componentId : string)
    (changeRequest : string) (styleHints : option string) (out : GenOutcome)
  : Pending :=
  match getComponent w sessionId componentId with
  | None =>
      Settled (ToolResult.fail ("Component " +:+ componentId +:+ " not found"))
  | Some existing => AwaitUpdate sessionId existing out
  end.

(** The part of a tool call after its [await]. *)
Definition resume (E : Env) (p : Pending) : St ToolResult.t :=
  match p with
  | Settled r => ret r
  | AwaitCreate sessionId name description out =>
      match out with
      | GenError message => ret (ToolResult.fail message)
      | GenOk html updatedDesc =>
          id <- drawUuid E ;;
          now <- newDate E ;;
          let component :=
            {| Component.id := id;
               Component.name := name;
               Component.description := Js.orElse updatedDesc description;
               Component.html := html;
               Component.lastUpdatedAt := now |} in
          success <- upsertComponent E sessionId component ;;
          if negb success
          then ret (ToolResult.fail "Failed to save component to session")
          else ret (ToolResult.ok (DataComponent component))
      end
  | AwaitUpdate sessionId existing out =>
      match out with
      | GenError message => ret (ToolResult.fail message)
      | GenOk html description =>
          now <- newDate E ;;
          let updated :=
            {| Component.id := Component.id existing;
               Component.name := Component.name existing;
               Component.description :=
                 Js.orElse description (Component.description existing);
               Component.html := html;
               Component.lastUpdatedAt := now |} in
          success <- upsertComponent E sessionId updated ;;
          if negb success
          then ret (ToolResult.fail "Failed to save updated component")
          else ret (ToolResult.ok (DataComponent updated))
      end
  end.

(** [await createComponent(...)] on its own. *)
Definition createComponent (E : Env) (sessionId name description : string)
    (requirements : string) (styleHints : option string) (out : GenOutcome)
  : St ToolResult.t :=
  resume E (createComponentStart sessionId name description requirements
              styleHints out).

(** [await updateComponent(...)] on its own. *)
Definition updateComponent (E : Env) (sessionId componentId : string)
    (changeRequest : string) (styleHints : option string) (out : GenOutcome)
  : St ToolResult.t :=
  fun w =>
    resume E (updateComponentStart w sessionId componentId changeRequest
                styleHints out) w.

Definition composeScreen (E : Env) (sessionId : string)
    (componentIds : list string) (layout : option ScreenLayout)
    (layoutConfig : option LayoutConfig.t) : St ToolResult.t :=
  fun w =>
    let layout := match layout with Some l => l | None => stack end in
    match getSession w sessionId with
    | None => (ToolResult.fail "Session not found", w)
    | Some session =>
        match List.find
                (fun id => negb (JsMap.has id (SessionState.components session)))
                componentIds with
        | Some id =>
            (ToolResult.fail ("Component " +:+ id +:+ " not found"), w)
        | None =>
            let screen := {| Screen.componentIds := componentIds;
                             Screen.layout := layout;
                             Screen.layoutConfig := layoutConfig |} in
            (success <- updateScreen E sessionId screen ;;
             if negb success
             then ret (ToolResult.fail "Failed to update screen")
             else ret (ToolResult.ok (DataScreen screen))) w
        end
    end.

Definition dquote : string := String (ascii_of_nat 34) EmptyString.

Definition findComponentByName (w : World) (sessionId nameQuery : string)
  : ToolResult.t :=
  match getSession w sessionId with
  | None => ToolResult.fail "Session not found"
  | Some session =>
      let query := Js.toLowerCase nameQuery in
      let matches :=
        List.filter
          (fun c => Js.includes (Js.toLowerCase (Component.name c)) query)
          (JsMap.values (SessionState.components session)) in
      if List.length matches =? 0
      then ToolResult.fail
             ("No component found matching " +:+ dquote +:+ nameQuery
              +:+ dquote)
      else ToolResult.ok (DataComponents matches)
  end.

(* ===================================================================== *)
(** ** index.ts: reference resolution *)
(* ===================================================================== *)

Definition resolveComponentId (w : World) (sessionId reference : string)
  : option string :=
  if Js.matchesUuid reference then Some reference
  else
    let result := findComponentByName w sessionId reference in
    match ToolResult.success result, ToolResult.data result with
    | true, Some (DataComponents (c :: _)) => Some (Component.id c)
    | _, _ => None
    end.

Definition resolveComponentIdFromList (components : list Component.t)
    (name : string) : option string :=
  option_map Component.id
    (List.find
       (fun c => String.eqb (Js.toLowerCase (Component.name c))
                            (Js.toLowerCase name))
       components).

(* ===================================================================== *)
(** ** index.ts: batches of tool calls ([Promise.all]) *)
(* ===================================================================== *)

(** [sched] lists the calls of the batch, by position, in the order in which
    they settle.  A position out of range or already settled is passed over;
    the calls [sched] leaves out settle after it in call order, so that every
    list is a legal order and every order is some list.  Each result is
    stored at the position of its call. *)
Fixpoint settle (E : Env) (ps : list Pending) (sched : list nat)
    (slots : list (option ToolResult.t)) : St (list (option ToolResult.t)) :=
  match sched with
  | [] => ret slots
  | i :: rest =>
      match ps !! i, slots !! i with
      | Some p, Some None =>
          r <- resume E p ;;
          settle E ps rest (<[i := Some r]> slots)
      | _, _ => settle E ps rest slots
      end
  end.

Definition settleAll (E : Env) (ps : list Pending) (sched : list nat)
  : St (list ToolResult.t) :=
  slots <- settle E ps (sched ++ seq 0 (List.length ps))
             (replicate (List.length ps) None) ;;
  ret (omap (fun slot => slot) slots).

(** [value ? value : undefined] on an optional string. *)
Definition truthyString (s : option string) : option string :=
  match s with
  | Some v => if String.eqb v "" then None else Some v
  | None => None
  end.

Definition createdComponent (r : ToolResult.t) : option Component.t :=
  if negb (ToolResult.success r) then None
  else match ToolResult.data r with
       | Some (DataComponent c) => Some c
       | _ => None
       end.

Module RegenerateResult.
Record t := {
  components : list Component.t;
  error : option string
}.
End RegenerateResult.

Definition errorText (e : option string) : string :=
  match e with Some m => m | None => "undefined" end.

(** The role bindings of a regenerated screen: the names of the layout
    specification, looked up among the units just created. *)
Definition regenerateLayoutConfig (layout : option LayoutSpec)
    (createdComponents : list Component.t) : option LayoutConfig.t :=
  match layout with
  | Some l =>
      let binding := fun ref =>
        match truthyString ref with
        | Some n => resolveComponentIdFromList createdComponents n
        | None => None
        end in
      Some {| LayoutConfig.sidebarComponentId := binding (sidebarComponent l);
              LayoutConfig.headerComponentId := binding (headerComponent l);
              LayoutConfig.footerComponentId := binding (footerComponent l);
              LayoutConfig.mainComponentIds := None |}
  | None => None
  end.

(** [gen i] is the outcome of the generation call of the batch's call [i]. *)
Definition executeRegenerate (E : Env) (sessionId : string)
    (specs : list NewComponentSpec) (layout : option LayoutSpec)
    (gen : nat -> GenOutcome) (sched : list nat) : St RegenerateResult.t :=
  let calls :=
    imap (fun i spec =>
            createComponentStart sessionId (name spec) (description spec)
              (requirements spec) (styleHints spec) (gen i)) specs in
  results <- settleAll E calls sched ;;
  let createdComponents := omap createdComponent results in
  if List.length createdComponents =? 0
  then ret {| RegenerateResult.components := [];
              RegenerateResult.error := Some "Failed to create any components" |}
  else
    let componentIds := map Component.id createdComponents in
    let layoutType := match layout with Some l => type l | None => stack end in
    let layoutConfig := regenerateLayoutConfig layout createdComponents in
    screenResult <- composeScreen E sessionId componentIds (Some layoutType)
                      layoutConfig ;;
    if negb (ToolResult.success screenResult)
    then ret {| RegenerateResult.components := createdComponents;
                RegenerateResult.error :=
                  Some ("Failed to compose screen: "
                        +:+ errorText (ToolResult.error screenResult)) |}
    else ret {| RegenerateResult.components := createdComponents;
                RegenerateResult.error := None |}.

(** [gen i] is the outcome of the generation call of the batch's call [i];
    the update calls come first, the creation calls after them. *)
Definition executeUpdate (E : Env) (sessionId : string)
    (decision : AgentDecision) (gen : nat -> GenOutcome) (sched : list nat)
  : St (option string) :=
  fun w =>
    match getSession w sessionId with
    | None => (Some "Session not found", w)
    | Some session =>
        let targets :=
          omap (fun update =>
                  match truthyString
                          (resolveComponentId w sessionId (componentId update))
                  with
                  | Some id => Some (id, changeDescription update)
                  | None => None
                  end)
               (orNil (updates decision)) in
        let updateOps :=
          imap (fun i target =>
                  updateComponentStart w sessionId (fst target) (snd target)
                    None (gen i)) targets in
        let createOps :=
          imap (fun j spec =>
                  createComponentStart sessionId (name spec) (description spec)
                    (requirements spec) (styleHints spec)
                    (gen (List.length updateOps + j)))
               (orNil (newComponents decision)) in
        (results <- settleAll E (updateOps ++ createOps) sched ;;
         let createResults := skipn (List.length updateOps) results in
         let newComponents := omap createdComponent createResults in
         fun w' =>
           (* the object [session], as the batch left it *)
           let session := match getSession w' sessionId with
                          | Some s => s
                          | None => session
                          end in
           let allComponents :=
             JsMap.values (SessionState.components session) ++ newComponents in
           let layoutType :=
             match layout decision with
             | Some l => type l
             | None => match SessionState.screen session with
                       | Some sc => Screen.layout sc
                       | None => stack
                       end
             end in
           let current := match SessionState.screen session with
                          | Some sc => Screen.layoutConfig sc
                          | None => None
                          end in
           let layoutConfig :=
             match layout decision with
             | Some l =>
                 let binding := fun ref (kept : LayoutConfig.t -> option string) =>
                   match truthyString ref with
                   | Some n => resolveComponentIdFromList allComponents n
                   | None => match current with
                             | Some cfg => kept cfg
                             | None => None
                             end
                   end in
                 Some {| LayoutConfig.sidebarComponentId :=
                           binding (sidebarComponent l)
                                LayoutConfig.sidebarComponentId;
                         LayoutConfig.headerComponentId :=
                           binding (headerComponent l)
                                LayoutConfig.headerComponentId;
                         LayoutConfig.footerComponentId :=
                           binding (footerComponent l)
                                LayoutConfig.footerComponentId;
                         LayoutConfig.mainComponentIds := None |}
             | None => current
             end in
           let newIds := map Component.id newComponents in
           (if negb (absentOrEmpty (screenOrder decision))
            then
              let orderedIds :=
                omap (fun nameOrId =>
                        match List.find
                                (fun c =>
                                   String.eqb
                                     (Js.toLowerCase (Component.name c))
                                     (Js.toLowerCase nameOrId))
                                newComponents with
                        | Some newComp => Some (Component.id newComp)
                        | None =>
                            truthyString
                              (resolveComponentId w' sessionId nameOrId)
                        end)
                     (orNil (screenOrder decision)) in
              if 0 <? List.length orderedIds
              then composeScreen E sessionId orderedIds (Some layoutType)
                     layoutConfig ;;;
                   ret None
              else ret None
            else
              match newComponents, SessionState.screen session with
              | _ :: _, Some sc =>
                  composeScreen E sessionId (Screen.componentIds sc ++ newIds)
                    (Some layoutType) layoutConfig ;;;
                  ret None
              | _ :: _, None =>
                  composeScreen E sessionId newIds (Some layoutType)
                    layoutConfig ;;;
                  ret None
              | [], Some sc =>
                  match layout decision with
                  | Some _ =>
                      composeScreen E sessionId (Screen.componentIds sc)
                        (Some layoutType) layoutConfig ;;;
                      ret None
                  | None => ret None
                  end
              | [], None => ret None
              end) w') w
    end.

Definition getComponentsAffected (decision : AgentDecision) : list string :=
  map componentId (orNil (updates decision))
  ++ map name (orNil (newComponents decision))
  ++ map name (orNil (regenerateSpecs decision)).

Definition formatAssistantResponse (decision : AgentDecision) : string :=
  if isRegenerate (action decision)
  then
    let componentNames :=
      Js.join ", " (map name (orNil (regenerateSpecs decision))) in
    "Created a new screen with components: " +:+ componentNames +:+ ". "
    +:+ rationale decision
  else
    let parts :=
      (if absentOrEmpty (updates decision) then []
       else ["Updated: "
             +:+ Js.join ", " (map componentId (orNil (updates decision)))])
      ++ (if absentOrEmpty (newComponents decision) then []
          else ["Added: "
                +:+ Js.join ", " (map name (orNil (newComponents decision)))])
      ++ (if absentOrEmpty (screenOrder decision) then []
          else ["Reordered screen"]) in
    if 0 <? List.length parts
    then Js.join ". " parts +:+ ". " +:+ rationale decision
    else rationale decision.

(* ===================================================================== *)
(** ** prompts.ts: formatStateForDecision *)
(* ===================================================================== *)

Definition nl : string := String (ascii_of_nat 10) EmptyString.

(** U+2192 (rightwards arrow) and U+26A0 U+FE0F (warning sign), in UTF-8. *)
Definition arrow : string :=
  String (ascii_of_nat 226) (String (ascii_of_nat 134)
    (String (ascii_of_nat 146) EmptyString)).
Definition warningSign : string :=
  String (ascii_of_nat 226) (String (ascii_of_nat 154)
    (String (ascii_of_nat 160) (String (ascii_of_nat 239)
      (String (ascii_of_nat 184) (String (ascii_of_nat 143) EmptyString))))).

Definition decimal (n : nat) : string :=
  DecimalString.NilEmpty.string_of_uint (Nat.to_uint n).

Definition roleText (r : Role) : string :=
  match r with
  | user => "user"
  | assistant => "assistant"
  | system => "system"
  end.

Definition layoutText (l : ScreenLayout) : string :=
  match l with
  | stack => "stack"
  | sidebar_left => "sidebar-left"
  | sidebar_right => "sidebar-right"
  | holy_grail => "holy-grail"
  | grid_2 => "grid-2"
  | grid_3 => "grid-3"
  end.

Definition componentLine (i : nat) (c : Component.t) : string :=
  decimal (i + 1) +:+ ". " +:+ dquote +:+ Component.name c +:+ dquote
  +:+ " - " +:+ Component.description c.

Definition messageLine (m : Role * string) : string :=
  Js.toUpperCase (roleText (fst m)) +:+ ": " +:+ snd m.

Definition stateSection (components : list Component.t)
    (screenOrderNames : list string) (currentLayout : option string)
  : string :=
  if 0 <? List.length components
  then
    "## CURRENT STATE (YOU HAVE EXISTING COMPONENTS!)" +:+ nl
    +:+ "    " +:+ nl
    +:+ "EXISTING COMPONENTS (" +:+ decimal (List.length components) +:+ "):"
    +:+ nl
    +:+ Js.join nl (imap componentLine components) +:+ nl
    +:+ nl
    +:+ "CURRENT SCREEN ORDER: "
    +:+ Js.join (" " +:+ arrow +:+ " ") screenOrderNames +:+ nl
    +:+ "CURRENT LAYOUT: "
    +:+ Js.orElse (match currentLayout with Some l => l | None => "" end)
                  "stack" +:+ nl
    +:+ nl
    +:+ warningSign
    +:+ " IMPORTANT: Since components exist, you should use UPDATE_COMPONENTS unless the user explicitly wants to start over."
    +:+ nl
  else
    "## CURRENT STATE" +:+ nl
    +:+ "No components exist yet. Use REGENERATE_SCREEN to create the initial page."
    +:+ nl.

Definition conversationSection (messageHistory : list (Role * string))
  : string :=
  if 0 <? List.length messageHistory
  then
    nl +:+ "## RECENT CONVERSATION" +:+ nl
    +:+ Js.join nl (map messageLine (Js.sliceLast 6 messageHistory)) +:+ nl
  else "".

Definition requestSection (userPrompt : string) (hasComponents : bool)
  : string :=
  nl +:+ "## USER'S NEW REQUEST" +:+ nl
  +:+ dquote +:+ userPrompt +:+ dquote +:+ nl
  +:+ nl
  +:+ "## YOUR DECISION" +:+ nl
  +:+ "Analyze the request and return the appropriate JSON response." +:+ nl
  +:+ (if hasComponents
       then "Remember: UPDATE existing components, do NOT regenerate unless explicitly asked!"
       else "") +:+ nl
  +:+ nl
  +:+ "IMPORTANT: Always specify the " +:+ dquote +:+ "layout" +:+ dquote
  +:+ " field based on the type of page:" +:+ nl
  +:+ "- Dashboards/admin panels " +:+ arrow +:+ " " +:+ dquote
  +:+ "sidebar-left" +:+ dquote +:+ " or " +:+ dquote +:+ "holy-grail"
  +:+ dquote +:+ nl
  +:+ "- Landing pages/blogs " +:+ arrow +:+ " " +:+ dquote +:+ "stack"
  +:+ dquote +:+ nl
  +:+ "- Comparison pages " +:+ arrow +:+ " " +:+ dquote +:+ "grid-2"
  +:+ dquote +:+ " or " +:+ dquote +:+ "grid-3" +:+ dquote.

Definition formatStateForDecision (userPrompt : string)
    (messageHistory : list (Role * string)) (components : list Component.t)
    (screenOrderNames : list string) (currentLayout : option string)
  : string :=
  stateSection components screenOrderNames currentLayout
  +:+ conversationSection messageHistory
  +:+ requestSection userPrompt (0 <? List.length components).

Definition JSON_CORRECTION_PROMPT : string :=
  "Your previous response was not valid JSON. " +:+ nl
  +:+ "Please provide ONLY a valid JSON object matching the schema." +:+ nl
  +:+ "No markdown, no explanation - just the JSON object.".

(* ===================================================================== *)
(** ** index.ts: makeDecision *)
(* ===================================================================== *)

(** One call of the reasoning service: it throws, or it answers with a
    content that may be missing. *)
Inductive Reply :=
| ServiceError (message : string)
| Content (content : option string).

(** [JSON.parse] followed by [AgentDecisionSchema.parse]. *)
Inductive Parsed :=
| ParseError (message : string)
| Validated (decision : AgentDecision).

(** The reasoning side of the process: the service, as a function of the
    conversation submitted to it; the parser and validator of its answers;
    and DECISION_SYSTEM_PROMPT, the fixed text of prompts.ts that opens
    every conversation. *)
Record Reasoning := {
  reasoningRequest : list (Role * string) -> Reply;
  parseDecision : string -> Parsed;
  DECISION_SYSTEM_PROMPT : string
}.

(** A computation that may throw. *)
Inductive Outcome (A : Type) :=
| Threw (message : string)
| Returned (a : A).
Arguments Threw {A} message.
Arguments Returned {A} a.

(** [session.screen?.componentIds.map(id => components.get(id)?.name || id)
    || []] *)
Definition screenOrderNames (session : SessionState.t) : list string :=
  match SessionState.screen session with
  | Some sc =>
      map (fun id =>
             match JsMap.get id (SessionState.components session) with
             | Some comp => Js.orElse (Component.name comp) id
             | None => id
             end)
          (Screen.componentIds sc)
  | None => []
  end.

(** The [userMessage] that [makeDecision] builds for the reasoning service. *)
Definition decisionContext (session : SessionState.t) (userPrompt : string)
  : string :=
  let components := JsMap.values (SessionState.components session) in
  let messageHistory :=
    map (fun m => (Message.role m, Message.content m))
        (Js.sliceLast 10 (SessionState.messages session)) in
  formatStateForDecision userPrompt messageHistory components
    (screenOrderNames session) None.

(** [!content] *)
Definition noContent (content : option string) : bool :=
  match truthyString content with Some _ => false | None => true end.

Definition makeDecision (R : Reasoning) (w : World)
    (userPrompt sessionId : string) : Outcome AgentDecision :=
  match getSession w sessionId with
  | None => Threw "Session not found"
  | Some session =>
      let components := JsMap.values (SessionState.components session) in
      let hasExistingComponents := 0 <? List.length components in
      let userMessage := decisionContext session userPrompt in
      match reasoningRequest R
              [ (system, DECISION_SYSTEM_PROMPT R); (user, userMessage) ] with
      | ServiceError message => Threw message
      | Content content =>
          match truthyString content with
          | None => Threw "No content in decision response"
          | Some content =>
              match parseDecision R content with
              | Validated validated =>
                  Returned (normalizeDecision validated hasExistingComponents
                              userPrompt)
              | ParseError _ =>
                  match reasoningRequest R
                          [ (system, DECISION_SYSTEM_PROMPT R);
                            (user, userMessage);
                            (assistant, content);
                            (user, JSON_CORRECTION_PROMPT) ] with
                  | ServiceError message => Threw message
                  | Content content =>
                      match truthyString content with
                      | None => Threw "No content in retry response"
                      | Some content =>
                          match parseDecision R content with
                          | Validated validated =>
                              Returned (normalizeDecision validated
                                          hasExistingComponents userPrompt)
                          | ParseError message =>
                              Threw ("Failed to parse agent decision after retry: "
                                     +:+ message)
                          end
                      end
                  end
              end
          end
      end
  end.

(* ===================================================================== *)
(** ** index.ts: runAgent *)
(* ===================================================================== *)

Module AgentResult.
Record t := {
  success : bool;
  session : SerializedSessionState.t;
  rationale : option string;
  error : option string;
  decision : option AgentDecision
}.
End AgentResult.

Definition emptySerializedSession : SerializedSessionState.t :=
  {| SerializedSessionState.id := "";
     SerializedSessionState.messages := [];
     SerializedSessionState.components := [];
     SerializedSessionState.screen := None;
     SerializedSessionState.decisionHistory := [] |}.

(** The object [session], as it is in world [w]. *)
Definition live (w : World) (session : SessionState.t) : SessionState.t :=
  match getSession w (SessionState.id session) with
  | Some s => s
  | None => session
  end.

(** [session.components.clear(); session.screen = null] *)
Definition clearForRegeneration (session : SessionState.t) : St unit :=
  fun w =>
    putSession (SessionState.id session)
      (SessionState.setScreen
         (SessionState.setComponents (live w session) []) None) w.

Definition failure (w : World) (session : SessionState.t)
    (rationaleText : string) (message : string) : AgentResult.t :=
  {| AgentResult.success := false;
     AgentResult.session := serializeSession (live w session);
     AgentResult.rationale := Some rationaleText;
     AgentResult.error := Some message;
     AgentResult.decision := None |}.

(** The tail of [runAgent], after a successful execution. *)
Definition recordDecision (E : Env) (session : SessionState.t)
    (prompt : string) (decision : AgentDecision) : St AgentResult.t :=
  let actualSessionId := SessionState.id session in
  let assistantMessage := formatAssistantResponse decision in
  addMessage E actualSessionId assistant assistantMessage ;;;
  let componentsAffected := getComponentsAffected decision in
  addDecisionToHistory E actualSessionId prompt decision componentsAffected ;;;
  fun w =>
    ({| AgentResult.success := true;
        AgentResult.session := serializeSession (live w session);
        AgentResult.rationale := Some (rationale decision);
        AgentResult.error := None;
        AgentResult.decision := Some decision |}, w).

Definition runAgent (E : Env) (R : Reasoning) (prompt : string)
    (sessionId : option string) (gen : nat -> GenOutcome) (sched : list nat)
  : St AgentResult.t :=
  session <- getOrCreateSession E sessionId ;;
  let actualSessionId := SessionState.id session in
  addMessage E actualSessionId user prompt ;;;
  fun w =>
    match makeDecision R w prompt actualSessionId with
    | Threw message =>
        (* the [catch] block *)
        let found := match truthyString sessionId with
                     | Some sid => getSession w sid
                     | None => None
                     end in
        ({| AgentResult.success := false;
            AgentResult.session :=
              match found with
              | Some s => serializeSession s
              | None => emptySerializedSession
              end;
            AgentResult.rationale := None;
            AgentResult.error := Some message;
            AgentResult.decision := None |}, w)
    | Returned decision =>
        if isRegenerate (action decision)
        then
          if absentOrEmpty (regenerateSpecs decision)
          then
            ({| AgentResult.success := false;
                AgentResult.session := serializeSession (live w session);
                AgentResult.rationale := None;
                AgentResult.error := Some "REGENERATE_SCREEN requires regenerateSpecs";
                AgentResult.decision := None |}, w)
          else
            (clearForRegeneration session ;;;
             result <- executeRegenerate E actualSessionId
                         (orNil (regenerateSpecs decision)) (layout decision)
                         gen sched ;;
             match truthyString (RegenerateResult.error result) with
             | Some message =>
                 fun w' => (failure w' session (rationale decision) message, w')
             | None => recordDecision E session prompt decision
             end) w
        else
          (result <- executeUpdate E actualSessionId decision gen sched ;;
           match truthyString result with
           | Some message =>
               fun w' => (failure w' session (rationale decision) message, w')
           | None => recordDecision E session prompt decision
           end) w
    end.

From Stdlib Require DecimalNat.

(* ===================================================================== *)
(** ** state/index.ts: the rest of the store *)
(* ===================================================================== *)

Definition resetSession (E : Env) (sessionId : string) : St bool :=
  fun w =>
    match sessions w !! sessionId with
    | None => (false, w)
    | Some session =>
        (now <- newDate E ;;
         putSession sessionId
           {| SessionState.id := SessionState.id session;
              SessionState.messages := [];
              SessionState.components := [];
              SessionState.screen := None;
              SessionState.decisionHistory := [];
              SessionState.createdAt := SessionState.createdAt session;
              SessionState.lastActivityAt := now |} ;;;
         ret true) w
    end.

(** [sessions.delete(sessionId)]: true when the key was present. *)
Definition deleteSession (sessionId : string) : St bool :=
  fun w =>
    (match sessions w !! sessionId with Some _ => true | None => false end,
     {| sessions := delete sessionId (sessions w);
        datesRead := datesRead w;
        uuidsDrawn := uuidsDrawn w |}).

(** The [{ id, name, description }] objects of [listComponents]. *)
Module ComponentInfo.
Record t := {
  id : string;
  name : string;
  description : string
}.
End ComponentInfo.

Definition listComponents (w : World) (sessionId : string)
  : list ComponentInfo.t :=
  match sessions w !! sessionId with
  | None => []
  | Some session =>
      map (fun c => {| ComponentInfo.id := Component.id c;
                       ComponentInfo.name := Component.name c;
                       ComponentInfo.description := Component.description c |})
          (JsMap.values (SessionState.components session))
  end.

Definition getScreenComponents (w : World) (sessionId : string)
  : list Component.t :=
  match sessions w !! sessionId with
  | None => []
  | Some session =>
      match SessionState.screen session with
      | None => []
      | Some sc =>
          omap (fun id => JsMap.get id (SessionState.components session))
               (Screen.componentIds sc)
      end
  end.

(* ===================================================================== *)
(** ** index.ts: getRenderedScreen; tools.ts: resetSessionTool *)
(* ===================================================================== *)

Definition getRenderedScreen (w : World) (sessionId : string) : string :=
  let components := getScreenComponents w sessionId in
  if List.length components =? 0 then ""
  else Js.join (nl +:+ nl) (map Component.html components).

Definition resetSessionTool (E : Env) (sessionId : string)
  : St ToolResult.t :=
  success <- resetSession E sessionId ;;
  ret {| ToolResult.success := success;
         ToolResult.data :=
           Some (DataText (if success then "Session reset"
                           else "Failed to reset session"));
         ToolResult.error := None |}.

(* ===================================================================== *)
(** ** tools.ts: generateImage and its cache *)
(* ===================================================================== *)

Inductive ImageSize := size_1024x1024 | size_1792x1024 | size_1024x1792.

Definition sizeText (s : ImageSize) : string :=
  match s with
  | size_1024x1024 => "1024x1024"
  | size_1792x1024 => "1792x1024"
  | size_1024x1792 => "1024x1792"
  end.

(** One call of [images.generate]: it throws, or it answers with a URL that
    may be missing. *)
Inductive ImageReply :=
| ImageError (message : string)
| ImageUrl (url : option string).

(** The image side of the process: the service, as a function of the prompt
    submitted and of the size, and [encodeURIComponent]. *)
Record Imaging := {
  imagesGenerate : string -> ImageSize -> ImageReply;
  encodeURIComponent : string -> string
}.

(** [s.split(' ')]: the pieces between the spaces. *)
Fixpoint splitSpaces (s : string) : list string :=
  match s with
  | EmptyString => [EmptyString]
  | String c r =>
      if Ascii.eqb c " " then EmptyString :: splitSpaces r
      else match splitSpaces r with
           | piece :: rest => String c piece :: rest
           | [] => [String c EmptyString]
           end
  end.

Definition imagePrompt (prompt : string) : string :=
  "Professional, high-quality image for a modern website. Style: clean, polished, commercial-grade. Subject: "
  +:+ prompt
  +:+ ". Requirements: No text, no watermarks, no logos, photorealistic or high-quality illustration style.".

Definition fallbackImage (I : Imaging) (prompt : string) : string :=
  "https://source.unsplash.com/800x600/?"
  +:+ encodeURIComponent I (Js.join "," (firstn 3 (splitSpaces prompt))).

(** [imageCache] is a module-level [Map]; it is threaded here. *)
Definition generateImage (I : Imaging) (prompt : string)
    (size : option ImageSize) (imageCache : gmap string string)
  : string * gmap string string :=
  let size := match size with Some s => s | None => size_1024x1024 end in
  let cacheKey := prompt +:+ "-" +:+ sizeText size in
  match imageCache !! cacheKey with
  | Some url => (url, imageCache)
  | None =>
      match imagesGenerate I (imagePrompt prompt) size with
      | ImageUrl url =>
          match truthyString url with
          | Some imageUrl => (imageUrl, <[cacheKey := imageUrl]> imageCache)
          | None => (fallbackImage I prompt, imageCache)
          end
      | ImageError _ => (fallbackImage I prompt, imageCache)
      end
  end.

(* ===================================================================== *)
(** ** The API routes: generate, reset, screen, generate-image *)
(* ===================================================================== *)

(** The [session] of a response: a serialized session, or the literal
    [{ id, messages: [], components: [], screen: null }]. *)
Inductive ResponseSession :=
| Serialized (s : SerializedSessionState.t)
| Blank (id : string).

(** Modelled from the spec: the type GenerateResponse of src/lib/types.ts,
    which is missing; the fields are those of the object literals of the
    routes, with the HTTP status beside them. *)
Module GenerateResponse.
Record t := {
  status : nat;
  success : bool;
  session : ResponseSession;
  error : option string;
  agentRationale : option string;
  agentDecision : option AgentDecision
}.
End GenerateResponse.

(** What [await request.json()] and the destructuring of the body come to:
    they throw, or they give the fields.  A field that is absent or, for the
    prompt, not a string, is [None]. *)
Inductive GenerateRequest :=
| MalformedGenerate (message : string)
| GenerateBody (prompt : option string) (sessionId : option string).

Definition errorResponse (status : nat) (message : string)
  : GenerateResponse.t :=
  {| GenerateResponse.status := status;
     GenerateResponse.success := false;
     GenerateResponse.session := Blank "";
     GenerateResponse.error := Some message;
     GenerateResponse.agentRationale := None;
     GenerateResponse.agentDecision := None |}.

(** POST /api/generate.  [trim] is [String.prototype.trim]. *)
Definition generateRoute (trim : string -> string) (E : Env) (R : Reasoning)
    (request : GenerateRequest) (gen : nat -> GenOutcome) (sched : list nat)
  : St GenerateResponse.t :=
  match request with
  | MalformedGenerate message => ret (errorResponse 500 message)
  | GenerateBody prompt sessionId =>
      match truthyString prompt with
      | None => ret (errorResponse 400 "Prompt is required")
      | Some prompt =>
          if String.length (trim prompt) =? 0
          then ret (errorResponse 400 "Prompt is required")
          else
            result <- runAgent E R (trim prompt) sessionId gen sched ;;
            ret {| GenerateResponse.status := 200;
                   GenerateResponse.success := AgentResult.success result;
                   GenerateResponse.session :=
                     Serialized (AgentResult.session result);
                   GenerateResponse.error := AgentResult.error result;
                   GenerateResponse.agentRationale :=
                     AgentResult.rationale result;
                   GenerateResponse.agentDecision :=
                     AgentResult.decision result |}
      end
  end.

Inductive ResetRequest :=
| MalformedReset (message : string)
| ResetBody (sessionId : option string).

(** POST /api/reset. *)
Definition resetRoute (E : Env) (request : ResetRequest)
  : St GenerateResponse.t :=
  match request with
  | MalformedReset message => ret (errorResponse 500 message)
  | ResetBody sessionId =>
      match truthyString sessionId with
      | None => ret (errorResponse 400 "Session ID is required")
      | Some sessionId =>
          success <- resetSession E sessionId ;;
          if negb success
          then ret (errorResponse 404 "Session not found")
          else
            fun w =>
              ({| GenerateResponse.status := 200;
                  GenerateResponse.success := true;
                  GenerateResponse.session :=
                    match getSession w sessionId with
                    | Some session => Serialized (serializeSession session)
                    | None => Blank sessionId
                    end;
                  GenerateResponse.error := None;
                  GenerateResponse.agentRationale := None;
                  GenerateResponse.agentDecision := None |}, w)
      end
  end.

(** GET /api/screen: the status and, when it is 200, the HTML. *)
Definition screenRoute (w : World) (sessionId : option string)
  : nat * option string :=
  match truthyString sessionId with
  | None => (400, None)
  | Some sessionId => (200, Some (getRenderedScreen w sessionId))
  end.


Module ImageResponse.
Record t := {
  status : nat;
  success : option bool;
  imageUrl : option string;
  error : option string
}.
End ImageResponse.


(* ===================================================================== *)
(** ** app/page.tsx: generateFrameName *)
(* ===================================================================== *)

Definition framePatterns : list (list string * string) :=
  [ (["dashboard"; "analytics"; "admin"], "Dashboard");
    (["landing"; "saas"; "startup"], "Landing Page");
    (["product"; "ecommerce"; "shop"; "store"], "Product Page");
    (["portfolio"; "personal"; "profile"], "Portfolio");
    (["blog"; "article"; "post"], "Blog");
    (["pricing"; "plans"; "subscription"], "Pricing Page");
    (["sneaker"; "shoe"; "footwear"], "Sneaker Store");
    (["contact"; "form"], "Contact Page");
    (["about"; "team"], "About Page") ].

Definition frameStopWords : list string :=
  ["a"; "an"; "the"; "create"; "build"; "make"; "design"; "with"; "for";
   "and"].

(** [w.charAt(0).toUpperCase() + w.slice(1).toLowerCase()] *)
Definition capitalize (w : string) : string :=
  match w with
  | EmptyString => EmptyString
  | String c r => String (Js.upperChar c) (Js.toLowerCase r)
  end.

Definition generateFrameName (prompt : string)
    (decision : option AgentDecision) : string :=
  let promptLower := Js.toLowerCase prompt in
  match List.find
          (fun pattern =>
             existsb (fun k => Js.includes promptLower k) (fst pattern))
          framePatterns with
  | Some pattern => snd pattern
  | None =>
      let inferred :=
        match decision with
        | Some d =>
            match regenerateSpecs d with
            | Some (first :: _) =>
                let firstComp := name first in
                if Js.includes (Js.toLowerCase firstComp) "hero"
                then Some "Landing Page"
                else if Js.includes (Js.toLowerCase firstComp) "sidebar"
                then Some "Dashboard"
                else if Js.includes (Js.toLowerCase firstComp) "gallery"
                then Some "Gallery Page"
                else None
            | _ => None
            end
        | None => None
        end in
      match inferred with
      | Some frameName => frameName
      | None =>
          let words :=
            firstn 2
              (List.filter
                 (fun w => negb (Js.arrIncludes frameStopWords
                                   (Js.toLowerCase w))
                           && (2 <? String.length w))
                 (splitSpaces prompt)) in
          if List.length words =? 0 then "New Design"
          else Js.join " " (map capitalize words)
      end
  end.

(* ===================================================================== *)
(** * Worked data and auxiliary definitions *)
(* ===================================================================== *)

(** ** A page with a header and a footer *)

Definition headerUnit : Component.t :=
  {| Component.id := "11111111-1111-4111-8111-111111111111";
     Component.name := "Header";
     Component.description := "Top navigation";
     Component.html := "<header>Acme</header>";
     Component.lastUpdatedAt := 1000 |}.

Definition footerUnit : Component.t :=
  {| Component.id := "22222222-2222-4222-8222-222222222222";
     Component.name := "Footer";
     Component.description := "Legal links";
     Component.html := "<footer>2024</footer>";
     Component.lastUpdatedAt := 1001 |}.

Definition pageSession : SessionState.t :=
  {| SessionState.id := "aaaaaaaa-aaaa-4aaa-8aaa-aaaaaaaaaaaa";
     SessionState.messages :=
       [ {| Message.role := user; Message.content := "Build a landing page";
            Message.timestamp := 900 |} ];
     SessionState.components :=
       [ (Component.id headerUnit, headerUnit);
         (Component.id footerUnit, footerUnit) ];
     SessionState.screen :=
       Some {| Screen.componentIds :=
                 [Component.id headerUnit; Component.id footerUnit];
               Screen.layout := grid_2;
               Screen.layoutConfig := None |};
     SessionState.decisionHistory := [];
     SessionState.createdAt := 800;
     SessionState.lastActivityAt := 1001 |}.

Definition pageWorld : World :=
  {| sessions := {[ SessionState.id pageSession := pageSession ]};
     datesRead := 7;
     uuidsDrawn := 3 |}.

Definition heroSpec : NewComponentSpec :=
  {| name := "Hero"; description := "Headline and call to action";
     requirements := "Large title, one button"; styleHints := None |}.

Definition pricingSpec : NewComponentSpec :=
  {| name := "Pricing"; description := "Three plans";
     requirements := "Monthly and yearly prices"; styleHints := Some "cards" |}.

(** A regeneration the rationale does not justify. *)
Definition refreshDecision : AgentDecision :=
  {| action := REGENERATE_SCREEN;
     rationale := "Let's refresh the page";
     createBranch := None;
     updates := None;
     newComponents := None;
     screenOrder := None;
     regenerateSpecs := Some [heroSpec; pricingSpec];
     layout := None |}.

(** The same, with the specs in the wrong field. *)
Definition misplacedDecision : AgentDecision :=
  {| action := REGENERATE_SCREEN;
     rationale := "Let's refresh the page";
     createBranch := None;
     updates := None;
     newComponents := Some [heroSpec];
     screenOrder := None;
     regenerateSpecs := None;
     layout := None |}.

(** A regeneration the rationale asks for. *)
Definition scratchDecision : AgentDecision :=
  {| action := REGENERATE_SCREEN;
     rationale := "The user wants to start from scratch";
     createBranch := None;
     updates := None;
     newComponents := None;
     screenOrder := None;
     regenerateSpecs := Some [heroSpec];
     layout := None |}.

(** The same page with a second unit whose name also contains header,
    inserted after the first. *)
Definition headerSectionUnit : Component.t :=
  {| Component.id := "33333333-3333-4333-8333-333333333333";
     Component.name := "Header Section";
     Component.description := "Banner under the navigation";
     Component.html := "<section>Welcome</section>";
     Component.lastUpdatedAt := 1002 |}.

Definition twoHeadersSession : SessionState.t :=
  SessionState.setComponents pageSession
    [ (Component.id headerUnit, headerUnit);
      (Component.id headerSectionUnit, headerSectionUnit) ].

Definition twoHeadersWorld : World :=
  {| sessions := {[ SessionState.id twoHeadersSession := twoHeadersSession ]};
     datesRead := 7;
     uuidsDrawn := 3 |}.

(** A clock that advances by one millisecond per reading, and identifiers
    that differ in their last digits. *)
Definition demoEnv : Env :=
  {| clock := fun n => 2000 + n;
     uuidv4 := fun n => "99999999-9999-4999-8999-9999999999" +:+ decimal (10 + n) |}.

(** Role bindings that name a unit the page does not have. *)
Definition danglingBindings : LayoutConfig.t :=
  {| LayoutConfig.sidebarComponentId := None;
     LayoutConfig.headerComponentId :=
       Some "44444444-4444-4444-8444-444444444444";
     LayoutConfig.footerComponentId := None;
     LayoutConfig.mainComponentIds := None |}.

(** A batch of three calls on the page: a creation that succeeds, a
    creation whose generation fails, an update of the header. *)
Definition mixedBatch : list Pending :=
  [ AwaitCreate (SessionState.id pageSession) "Hero" "Headline"
      (GenOk "<section>Hero</section>" "");
    AwaitCreate (SessionState.id pageSession) "Pricing" "Three plans"
      (GenError "429 rate limit");
    AwaitUpdate (SessionState.id pageSession) headerUnit
      (GenOk "<header>Acme, darker</header>" "Dark navigation") ].

(** Five specifications, of which the second and the fourth fail. *)
Definition fiveSpecs : list NewComponentSpec :=
  [ heroSpec; pricingSpec;
    {| name := "Features"; description := "Feature grid";
       requirements := "Six tiles"; styleHints := None |};
    {| name := "Team"; description := "Team photos";
       requirements := "Four people"; styleHints := None |};
    {| name := "Footer"; description := "Legal links";
       requirements := "Copyright"; styleHints := None |} ].

Definition twoOfFiveFail (i : nat) : GenOutcome :=
  match i with
  | 1 => GenError "429 rate limit"
  | 3 => GenError "Unexpected token < in JSON"
  | _ => GenOk ("<section>" +:+ decimal i +:+ "</section>") ""
  end.

Definition allFail (i : nat) : GenOutcome := GenError "503 unavailable".

(** A reasoning service whose answers never parse. *)
Definition garbledReasoning : Reasoning :=
  {| reasoningRequest := fun _ => Content (Some "Sure! Here is the JSON you asked for");
     parseDecision := fun _ => ParseError "Unexpected token S in JSON at position 0";
     DECISION_SYSTEM_PROMPT := "You are an AI agent that helps users build web pages." |}.

(** A reasoning service that asks for a regeneration from scratch. *)
Definition scratchReasoning : Reasoning :=
  {| reasoningRequest := fun _ => Content (Some "{...}");
     parseDecision := fun _ => Validated scratchDecision;
     DECISION_SYSTEM_PROMPT := "You are an AI agent that helps users build web pages." |}.

(** ** Auxiliary definitions *)

(** The specs a regeneration carries once the misplaced ones are moved. *)
Definition effectiveSpecs (d : AgentDecision) : list NewComponentSpec :=
  if absentOrEmpty (regenerateSpecs d) then orNil (newComponents d)
  else orNil (regenerateSpecs d).


(** A text contains, whatever its case, a phrase of a vocabulary of
    lower-case phrases. *)
Definition containsPhrase (vocabulary : list string) (text : string) : Prop :=
  exists kw, In kw vocabulary /\ Js.includes (Js.toLowerCase text) kw = true.

(** The first unit, in the order of the mapping, whose name contains the
    reference, whatever the case of either. *)
Definition firstNameMatch (components : list (string * Component.t))
    (reference : string) : option Component.t :=
  List.find
    (fun c => Js.includes (Js.toLowerCase (Component.name c))
                          (Js.toLowerCase reference))
    (JsMap.values components).

(** The identifiers and names of a unit mapping, in its order. *)
Definition namesById (components : list (string * Component.t))
  : list (string * string) :=
  map (fun c => (Component.id c, Component.name c)) (JsMap.values components).

(** Every identifier of a list is a key of the unit mapping. *)
Definition allExist (components : list (string * Component.t))
    (ids : list string) : bool :=
  forallb (fun id => JsMap.has id components) ids.

(** The sessions of a world other than [sid] are those of another world. *)
Definition othersUnchanged (sid : string) (w w' : World) : Prop :=
  forall other, other <> sid -> getSession w' other = getSession w other.

(** The slots of a batch under way: one per call, and every result already
    stored stands in relation [Q] to its call. *)
Definition slotsOk (ps : list Pending)
    (Q : Pending -> ToolResult.t -> World -> Prop)
    (slots : list (option ToolResult.t)) (w : World) : Prop :=
  List.length slots = List.length ps
  /\ forall i p r, ps !! i = Some p -> slots !! i = Some (Some r) -> Q p r w.

(** The sessions of [w0] are still there in [w]. *)
Definition sessionsKept (w0 w : World) : Prop :=
  forall sid, is_Some (getSession w0 sid) -> is_Some (getSession w sid).

(** The unit mapping of session [sid] has an entry under the identifier of
    [c]. *)
Definition stored (w : World) (sid : string) (c : Component.t) : Prop :=
  exists s, getSession w sid = Some s
            /\ JsMap.has (Component.id c) (SessionState.components s) = true.

(** What a call of a batch started in world [w0] comes to, seen from a later
    world [w]: a call whose generation fails returns that failure; a call
    whose generation succeeds, on a session that exists, returns the unit
    with the generated body, and the unit is in the mapping. *)
Definition settledAs (w0 : World) (p : Pending) (r : ToolResult.t)
    (w : World) : Prop :=
  match p with
  | Settled r0 => r = r0
  | AwaitCreate sid n d out =>
      match out with
      | GenError m => r = ToolResult.fail m
      | GenOk h ud =>
          is_Some (getSession w0 sid) ->
          exists c, r = ToolResult.ok (DataComponent c)
                    /\ Component.name c = n
                    /\ Component.description c = Js.orElse ud d
                    /\ Component.html c = h
                    /\ stored w sid c
      end
  | AwaitUpdate sid existing out =>
      match out with
      | GenError m => r = ToolResult.fail m
      | GenOk h ud =>
          is_Some (getSession w0 sid) ->
          exists c, r = ToolResult.ok (DataComponent c)
                    /\ Component.id c = Component.id existing
                    /\ Component.name c = Component.name existing
                    /\ Component.description c
                       = Js.orElse ud (Component.description existing)
                    /\ Component.html c = h
                    /\ stored w sid c
      end
  end.

(** What is generated for a unit: its name, description and body. *)
Definition unitContent (c : Component.t) : string * string * string :=
  (Component.name c, Component.description c, Component.html c).

Definition generatedContent (spec : NewComponentSpec) (out : GenOutcome)
  : option (string * string * string) :=
  match out with
  | GenOk h ud => Some (name spec, Js.orElse ud (description spec), h)
  | GenError _ => None
  end.

(** The contents generated for a list of specifications: those of the specs
    whose generation succeeds, in the order of the specifications. *)
Definition generated (specs : list NewComponentSpec) (gen : nat -> GenOutcome)
  : list (string * string * string) :=
  omap (fun x => x) (imap (fun i spec => generatedContent spec (gen i)) specs).

(** The calls of a regeneration batch. *)
Definition regenerateCalls (sid : string) (specs : list NewComponentSpec)
    (gen : nat -> GenOutcome) : list Pending :=
  imap (fun i spec =>
          createComponentStart sid (name spec) (description spec)
            (requirements spec) (styleHints spec) (gen i)) specs.

(** The session [runAgent] works on, and the world once the prompt is in its
    message log: the first two steps of [runAgent]. *)
Definition sessionOf (E : Env) (sessionId : option string) (w : World)
  : SessionState.t :=
  fst (getOrCreateSession E sessionId w).

Definition promptLogged (E : Env) (prompt : string)
    (sessionId : option string) (w : World) : World :=
  snd (addMessage E (SessionState.id (sessionOf E sessionId w)) user prompt
         (snd (getOrCreateSession E sessionId w))).

(** The decision phase of [runAgent]. *)
Definition decisionOf (E : Env) (R : Reasoning) (prompt : string)
    (sessionId : option string) (w : World) : Outcome AgentDecision :=
  makeDecision R (promptLogged E prompt sessionId w) prompt
    (SessionState.id (sessionOf E sessionId w)).

(** Two sessions hold the same design: units, composition, audit log. *)
Definition sameDesign (a b : SessionState.t) : Prop :=
  SessionState.components a = SessionState.components b
  /\ SessionState.screen a = SessionState.screen b
  /\ SessionState.decisionHistory a = SessionState.decisionHistory b.

(** [sessionId] names a session of the store, kept under its own
    identifier. *)
Definition names (w : World) (sessionId : option string)
    (s : SessionState.t) : Prop :=
  exists sid, sessionId = Some sid /\ sid <> ""
              /\ getSession w sid = Some s /\ SessionState.id s = sid.

(** [sessionId] names no session of the store. *)
Definition namesNone (w : World) (sessionId : option string) : Prop :=
  match sessionId with
  | None => True
  | Some sid => sid = "" \/ getSession w sid = None
  end.

(** A session with the layout tag of its composition replaced. *)
Definition withLayout (session : SessionState.t) (l : ScreenLayout)
  : SessionState.t :=
  SessionState.setScreen session
    (option_map
       (fun sc => {| Screen.componentIds := Screen.componentIds sc;
                     Screen.layout := l;
                     Screen.layoutConfig := Screen.layoutConfig sc |})
       (SessionState.screen session)).

(** A unit without its body, and a session whose units have none. *)
Definition withoutBody (c : Component.t) : Component.t :=
  {| Component.id := Component.id c;
     Component.name := Component.name c;
     Component.description := Component.description c;
     Component.html := "";
     Component.lastUpdatedAt := Component.lastUpdatedAt c |}.

Definition withoutBodies (session : SessionState.t) : SessionState.t :=
  SessionState.setComponents session
    (map (fun kc => (fst kc, withoutBody (snd kc)))
       (SessionState.components session)).

(** The line of the decision context that tells the layout. *)
Definition layoutLine (l : ScreenLayout) : string :=
  "CURRENT LAYOUT: " +:+ layoutText l +:+ nl.

(** The unit [c] is what the mapping of session [sid] holds under its
    identifier. *)
Definition held (w : World) (sid : string) (c : Component.t) : Prop :=
  exists s, getSession w sid = Some s
            /\ JsMap.get (Component.id c) (SessionState.components s) = Some c.

(** A unit returned by a call carries an identifier already drawn, and is
    held by the mapping. *)
Definition returnedHeld (E : Env) (sid : string) (r : ToolResult.t)
    (w : World) : Prop :=
  forall c, createdComponent r = Some c ->
    (exists k, k < uuidsDrawn w /\ Component.id c = uuidv4 E k)
    /\ held w sid c.

(** What [runAgent] does of a regeneration once the session is cleared: the
    batch, then the report. *)
Definition regenerationPhase (E : Env) (session : SessionState.t)
    (prompt : string) (d : AgentDecision) (gen : nat -> GenOutcome)
    (sched : list nat) : St AgentResult.t :=
  fun w =>
    let out := executeRegenerate E (SessionState.id session)
                 (orNil (regenerateSpecs d)) (layout d) gen sched w in
    match truthyString (RegenerateResult.error (fst out)) with
    | Some message =>
        (failure (snd out) session (rationale d) message, snd out)
    | None => recordDecision E session prompt d (snd out)
    end.

(* ===================================================================== *)
(** * Auxiliary definitions for the properties of the rest of the code *)
(* ===================================================================== *)

(** The keys of a mapping, in its order. *)
Definition keysOf {V} (m : list (string * V)) : list string := map fst m.

(** No key occurs twice, as in a JS [Map]. *)
Fixpoint distinctKeys (ks : list string) : bool :=
  match ks with
  | [] => true
  | k :: r => negb (Js.arrIncludes r k) && distinctKeys r
  end.

(** Every unit is stored under its own identifier. *)
Definition keyedById (components : list (string * Component.t)) : bool :=
  forallb (fun kc => String.eqb (Component.id (snd kc)) (fst kc)) components.

(** A role binding, when there is one, names a unit of the mapping. *)
Definition bindingOk (components : list (string * Component.t))
    (binding : option string) : bool :=
  match binding with
  | Some id => JsMap.has id components
  | None => true
  end.

Definition configOk (components : list (string * Component.t))
    (cfg : option LayoutConfig.t) : bool :=
  match cfg with
  | None => true
  | Some c =>
      bindingOk components (LayoutConfig.sidebarComponentId c)
      && bindingOk components (LayoutConfig.headerComponentId c)
      && bindingOk components (LayoutConfig.footerComponentId c)
  end.

(** The composition refers to units of the mapping only: the ordered list
    and the three role bindings. *)
Definition screenOk (components : list (string * Component.t))
    (screen : option Screen.t) : bool :=
  match screen with
  | None => true
  | Some sc =>
      allExist components (Screen.componentIds sc)
      && configOk components (Screen.layoutConfig sc)
  end.

(** A well-formed session: kept under its own identifier, its units under
    theirs, without duplicate keys, and a composition that refers to its
    units only. *)
Definition sessionOk (sid : string) (s : SessionState.t) : bool :=
  String.eqb (SessionState.id s) sid
  && keyedById (SessionState.components s)
  && distinctKeys (keysOf (SessionState.components s))
  && screenOk (SessionState.components s) (SessionState.screen s).

Definition storeOk (w : World) : Prop :=
  map_Forall (fun sid s => sessionOk sid s = true) (sessions w).

(** The session after [upsertComponent]. *)
Definition upsertInto (s : SessionState.t) (c : Component.t) (now : nat)
  : SessionState.t :=
  SessionState.setLastActivityAt
    (SessionState.setComponents s
       (JsMap.set (Component.id c) c (SessionState.components s))) now.

(** Session [sid] exists and satisfies [F]. *)
Definition sessionHas (sid : string) (F : SessionState.t -> Prop)
    (w : World) : Prop :=
  exists s, getSession w sid = Some s /\ F s.

(** The session a call of a batch works on, if it awaits a generation. *)
Definition targets (sid : string) (p : Pending) : Prop :=
  match p with
  | Settled _ => True
  | AwaitCreate sid' _ _ _ => sid' = sid
  | AwaitUpdate sid' _ _ => sid' = sid
  end.

(** What a call stores when its generation succeeds: a unit with a drawn
    identifier and the name of the specification, or the unit it updates
    with its identifier and name. *)
Definition mayStore (E : Env) (p : Pending) (c : Component.t) : Prop :=
  match p with
  | Settled _ => False
  | AwaitCreate _ n _ _ =>
      Component.name c = n /\ exists k, Component.id c = uuidv4 E k
  | AwaitUpdate _ existing _ =>
      Component.id c = Component.id existing
      /\ Component.name c = Component.name existing
  end.

(** The parts of [executeUpdate]: the references that resolve, the calls of
    its batch, the layout and role bindings it composes with, and the
    ordered list it composes, if it composes at all. *)
Definition updateTargets (w : World) (sid : string) (d : AgentDecision)
  : list (string * string) :=
  omap (fun update =>
          match truthyString (resolveComponentId w sid (componentId update))
          with
          | Some id => Some (id, changeDescription update)
          | None => None
          end)
       (orNil (updates d)).

Definition updateOps (w : World) (sid : string) (d : AgentDecision)
    (gen : nat -> GenOutcome) : list Pending :=
  imap (fun i target =>
          updateComponentStart w sid (fst target) (snd target) None (gen i))
       (updateTargets w sid d).

Definition createOps (w : World) (sid : string) (d : AgentDecision)
    (gen : nat -> GenOutcome) : list Pending :=
  imap (fun j spec =>
          createComponentStart sid (name spec) (description spec)
            (requirements spec) (styleHints spec)
            (gen (List.length (updateOps w sid d gen) + j)))
       (orNil (newComponents d)).

Definition updateLayoutType (d : AgentDecision) (session : SessionState.t)
  : ScreenLayout :=
  match layout d with
  | Some l => type l
  | None => match SessionState.screen session with
            | Some sc => Screen.layout sc
            | None => stack
            end
  end.

Definition currentConfig (session : SessionState.t) : option LayoutConfig.t :=
  match SessionState.screen session with
  | Some sc => Screen.layoutConfig sc
  | None => None
  end.

Definition updateBinding (session : SessionState.t)
    (allComponents : list Component.t) (ref : option string)
    (kept : LayoutConfig.t -> option string) : option string :=
  match truthyString ref with
  | Some n => resolveComponentIdFromList allComponents n
  | None => match currentConfig session with
            | Some cfg => kept cfg
            | None => None
            end
  end.

Definition updateLayoutConfig (d : AgentDecision) (session : SessionState.t)
    (allComponents : list Component.t) : option LayoutConfig.t :=
  match layout d with
  | Some l =>
      Some {| LayoutConfig.sidebarComponentId :=
                updateBinding session allComponents (sidebarComponent l)
                  LayoutConfig.sidebarComponentId;
              LayoutConfig.headerComponentId :=
                updateBinding session allComponents (headerComponent l)
                  LayoutConfig.headerComponentId;
              LayoutConfig.footerComponentId :=
                updateBinding session allComponents (footerComponent l)
                  LayoutConfig.footerComponentId;
              LayoutConfig.mainComponentIds := None |}
  | None => currentConfig session
  end.

Definition updateOrder (w : World) (sid : string) (d : AgentDecision)
    (news : list Component.t) : list string :=
  omap (fun nameOrId =>
          match List.find
                  (fun c => String.eqb (Js.toLowerCase (Component.name c))
                                       (Js.toLowerCase nameOrId))
                  news with
          | Some newComp => Some (Component.id newComp)
          | None => truthyString (resolveComponentId w sid nameOrId)
          end)
       (orNil (screenOrder d)).

Definition updateComposition (w : World) (sid : string) (d : AgentDecision)
    (session : SessionState.t) (news : list Component.t)
  : option (list string) :=
  if negb (absentOrEmpty (screenOrder d))
  then
    let orderedIds := updateOrder w sid d news in
    if 0 <? List.length orderedIds then Some orderedIds else None
  else
    match news, SessionState.screen session with
    | _ :: _, Some sc =>
        Some (Screen.componentIds sc ++ map Component.id news)
    | _ :: _, None => Some (map Component.id news)
    | [], Some sc =>
        match layout d with
        | Some _ => Some (Screen.componentIds sc)
        | None => None
        end
    | [], None => None
    end.

(** The units [executeUpdate] has created, given the results of its batch. *)
Definition updateCreated (w : World) (sid : string) (d : AgentDecision)
    (gen : nat -> GenOutcome) (results : list ToolResult.t)
  : list Component.t :=
  omap createdComponent
    (skipn (List.length (updateOps w sid d gen)) results).

(** What the batch of [executeUpdate] may store: a unit under a drawn
    identifier, or a unit the session had when the batch started, under its
    identifier and with its name. *)
Definition updateStores (E : Env) (w : World) (sid : string)
    (c : Component.t) : Prop :=
  (exists k, Component.id c = uuidv4 E k)
  \/ (exists cid existing,
        getComponent w sid cid = Some existing
        /\ Component.id c = Component.id existing
        /\ Component.name c = Component.name existing).

(** A predicate on sessions that [composeScreen] keeps: it does not depend
    on the composition nor on the time of last activity. *)
Definition screenBlind (F : SessionState.t -> Prop) : Prop :=
  forall s sc now,
    F s -> F (SessionState.setLastActivityAt (SessionState.setScreen s sc) now).

(** Two sessions have the same identity and logs: what the execution of a
    decision leaves alone. *)
Definition sameLogs (a b : SessionState.t) : Prop :=
  SessionState.id a = SessionState.id b
  /\ SessionState.createdAt a = SessionState.createdAt b
  /\ SessionState.messages a = SessionState.messages b
  /\ SessionState.decisionHistory a = SessionState.decisionHistory b.

(** The keys of the units of [a] are still keys of [b], at the same
    positions: [b] has the units of [a], possibly rewritten in place, and
    possibly more after them. *)
Definition unitsKept (a b : SessionState.t) : Prop :=
  keysOf (SessionState.components a)
    `prefix_of` keysOf (SessionState.components b).

(** What a message says, and who says it. *)
Definition said (m : Message.t) : Role * string :=
  (Message.role m, Message.content m).

(** What an entry of the audit log records. *)
Definition recorded (e : DecisionHistoryEntry.t)
  : string * AgentDecision * list string :=
  (DecisionHistoryEntry.prompt e, DecisionHistoryEntry.decision e,
   DecisionHistoryEntry.componentsAffected e).

(** The result of a request that succeeds with decision [d], session [s]
    being the session when it ends. *)
Definition succeeded (d : AgentDecision) (s : SessionState.t)
  : AgentResult.t :=
  {| AgentResult.success := true;
     AgentResult.session := serializeSession s;
     AgentResult.rationale := Some (rationale d);
     AgentResult.error := None;
     AgentResult.decision := Some d |}.

(** ** More worked data *)

(** An incremental update of the page: a darker header, and a hero section
    after the existing units. *)
Definition darkerDecision : AgentDecision :=
  {| action := UPDATE_COMPONENTS;
     rationale := "Darken the header and add a hero section";
     createBranch := None;
     updates := Some [ {| componentId := "Header";
                          changeDescription := "Use a dark background" |} ];
     newComponents := Some [heroSpec];
     screenOrder := None;
     regenerateSpecs := None;
     layout := None |}.

(** A reasoning service that asks for that update. *)
Definition darkerReasoning : Reasoning :=
  {| reasoningRequest := fun _ => Content (Some "{...}");
     parseDecision := fun _ => Validated darkerDecision;
     DECISION_SYSTEM_PROMPT := "You are an AI agent that helps users build web pages." |}.

(** An update of a unit the page does not have. *)
Definition sidebarDecision : AgentDecision :=
  {| action := UPDATE_COMPONENTS;
     rationale := "Make the sidebar narrower";
     createBranch := None;
     updates := Some [ {| componentId := "Sidebar";
                          changeDescription := "Narrower" |} ];
     newComponents := None;
     screenOrder := None;
     regenerateSpecs := None;
     layout := None |}.

(** A regeneration from scratch that carries no specification. *)
Definition bareScratchDecision : AgentDecision :=
  {| action := REGENERATE_SCREEN;
     rationale := "The user wants to start from scratch";
     createBranch := None;
     updates := None;
     newComponents := None;
     screenOrder := None;
     regenerateSpecs := None;
     layout := None |}.

Definition bareScratchReasoning : Reasoning :=
  {| reasoningRequest := fun _ => Content (Some "{...}");
     parseDecision := fun _ => Validated bareScratchDecision;
     DECISION_SYSTEM_PROMPT := "You are an AI agent that helps users build web pages." |}.

(** Generations that all succeed. *)
Definition allSucceed (i : nat) : GenOutcome :=
  GenOk ("<section>" +:+ decimal i +:+ "</section>") "".

(** Every unit of [a] is still in [b], under its key, with its identifier
    and its name. *)
Definition identitiesKept (a b : SessionState.t) : Prop :=
  forall k c,
    JsMap.get k (SessionState.components a) = Some c ->
    exists c', JsMap.get k (SessionState.components b) = Some c'
               /\ Component.id c' = Component.id c
               /\ Component.name c' = Component.name c.

(** The key of the image cache. *)
Definition cacheKey (prompt : string) (size : option ImageSize) : string :=
  prompt +:+ "-" +:+ sizeText (default size_1024x1024 size).

(** An image service that answers one prompt only, and another that is
    down. *)
Definition demoImaging : Imaging :=
  {| imagesGenerate := fun p _ =>
       if String.eqb p (imagePrompt "mountain lake at dawn")
       then ImageUrl (Some "https://images.example/lake.png")
       else ImageUrl None;
     encodeURIComponent := fun s => s |}.

Definition downImaging : Imaging :=
  {| imagesGenerate := fun _ _ => ImageError "503 unavailable";
     encodeURIComponent := fun s => s |}.

(** The session a reset leaves, as the routes serialize it. *)
Definition blankSerialized (id : string) : SerializedSessionState.t :=
  {| SerializedSessionState.id := id;
     SerializedSessionState.messages := [];
     SerializedSessionState.components := [];
     SerializedSessionState.screen := None;
     SerializedSessionState.decisionHistory := [] |}.

(** The ordered list of a composition, empty when there is none. *)
Definition composedIds (s : SessionState.t) : list string :=
  match SessionState.screen s with
  | Some sc => Screen.componentIds sc
  | None => []
  end.

(** A change of layout and nothing else. *)
Definition gridDecision : AgentDecision :=
  {| action := UPDATE_COMPONENTS;
     rationale := "Show the sections in three columns";
     createBranch := None;
     updates := None;
     newComponents := None;
     screenOrder := None;
     regenerateSpecs := None;
     layout := Some {| type := grid_3;
                       sidebarComponent := None;
                       headerComponent := None;
                       footerComponent := None |} |}.

(** The role bindings of a composition, none when it has no configuration. *)
Definition boundRoles (sc : Screen.t)
  : option string * option string * option string :=
  match Screen.layoutConfig sc with
  | Some cfg => (LayoutConfig.sidebarComponentId cfg,
                 LayoutConfig.headerComponentId cfg,
                 LayoutConfig.footerComponentId cfg)
  | None => (None, None, None)
  end.

(* ===================================================================== *)
(** * Properties *)
(* ===================================================================== *)

(** The session just written under a key is the one found there. *)
Ltac session_here := unfold getSession; cbn; apply lookup_insert_eq.

(** ** normalizeDecision, block by block *)

Lemma repairMisplacedSpecs_action d :
  action (repairMisplacedSpecs d) = action d.
Proof. unfold repairMisplacedSpecs. now destruct (_ && _). Qed.

Lemma repairMisplacedSpecs_rationale d :
  rationale (repairMisplacedSpecs d) = rationale d.
Proof. unfold repairMisplacedSpecs. now destruct (_ && _). Qed.

Lemma repairMisplacedSpecs_createBranch d :
  createBranch (repairMisplacedSpecs d) = createBranch d.
Proof. unfold repairMisplacedSpecs. now destruct (_ && _). Qed.

Lemma repairMisplacedSpecs_id d :
  absentOrEmpty (regenerateSpecs d) = false
  \/ absentOrEmpty (newComponents d) = true ->
  repairMisplacedSpecs d = d.
Proof.
  unfold repairMisplacedSpecs. intros [H | H]; rewrite H;
    now rewrite ?andb_false_r.
Qed.

Lemma detectBranching_action d h p :
  action (detectBranching d h p) = action d.
Proof. unfold detectBranching. now destruct (_ && _). Qed.

Lemma detectBranching_rationale d h p :
  rationale (detectBranching d h p) = rationale d.
Proof. unfold detectBranching. now destruct (_ && _). Qed.

Lemma detectBranching_regenerateSpecs d h p :
  regenerateSpecs (detectBranching d h p) = regenerateSpecs d.
Proof. unfold detectBranching. now destruct (_ && _). Qed.

Lemma detectBranching_fires d p :
  hasBranchingIntent p (rationale d) = true ->
  truthy (createBranch d) = false ->
  createBranch (detectBranching d true p) = Some true.
Proof. unfold detectBranching. intros -> ->. reflexivity. Qed.

Lemma detectBranching_id d h p :
  h = false \/ hasBranchingIntent p (rationale d) = false
  \/ truthy (createBranch d) = true ->
  detectBranching d h p = d.
Proof.
  unfold detectBranching. intros [-> | [-> | ->]];
    now rewrite ?andb_false_r.
Qed.

Lemma isExplicitRegen_spec r :
  isExplicitRegen r = true <-> containsPhrase explicitRegenKeywords r.
Proof. unfold isExplicitRegen, containsPhrase. apply existsb_exists. Qed.

Lemma isExplicitRegen_false r :
  ~ containsPhrase explicitRegenKeywords r -> isExplicitRegen r = false.
Proof.
  intros H. destruct (isExplicitRegen r) eqn:E; [| reflexivity].
  now apply isExplicitRegen_spec in E.
Qed.

Lemma hasBranchingIntent_spec p r :
  hasBranchingIntent p r = true
  <-> containsPhrase branchKeywords p \/ containsPhrase branchKeywords r.
Proof.
  unfold hasBranchingIntent, containsPhrase. rewrite existsb_exists. split.
  - intros (kw & Hin & H). apply orb_true_iff in H as [H | H]; eauto.
  - intros [(kw & Hin & H) | (kw & Hin & H)]; exists kw;
      (split; [exact Hin | rewrite H; now rewrite ?orb_true_r]).
Qed.

Lemma regenerationGuard_createBranch d h :
  createBranch (regenerationGuard d h) = createBranch d.
Proof.
  unfold regenerationGuard.
  destruct (_ && _ && isExplicitRegen _); [reflexivity |].
  now destruct (_ && _ && negb _).
Qed.

Lemma regenerationGuard_explicit d :
  isExplicitRegen (rationale d) = true ->
  regenerationGuard d true = d.
Proof.
  unfold regenerationGuard. intros ->. cbn.
  now destruct (isRegenerate (action d)).
Qed.

Lemma regenerationGuard_no_units d : regenerationGuard d false = d.
Proof. reflexivity. Qed.

(** What the guard writes into the order of a downgraded decision: the
    decision's own order, then the names of the specs that are not in it. *)
Lemma regenerationGuard_screenOrder d :
  action d = REGENERATE_SCREEN ->
  isExplicitRegen (rationale d) = false ->
  let own := orNil (screenOrder d) in
  let combined :=
    own ++ List.filter (fun n => negb (Js.arrIncludes own n))
             (map name (orNil (regenerateSpecs d))) in
  screenOrder (regenerationGuard d true)
  = if 0 <? List.length combined then Some combined else None.
Proof. unfold regenerationGuard. intros -> ->. reflexivity. Qed.

Lemma repairMisplacedSpecs_specs d :
  action d = REGENERATE_SCREEN ->
  orNil (regenerateSpecs (repairMisplacedSpecs d)) = effectiveSpecs d.
Proof.
  destruct d as [a r c u n s g l]. cbn. intros ->.
  unfold repairMisplacedSpecs, effectiveSpecs. cbn.
  destruct g as [[|? ?]|], n as [[|? ?]|]; reflexivity.
Qed.

(** C1, as stated, fails on the code: with the specs in the wrong field and
    a prompt that asks for a copy, the new-components list of the result is
    not the original regeneration specs, its branch flag is not the original
    one, and its screen order is not the composition order of the session
    followed by the new names. *)
Lemma regeneration_guard_counterexample :
  let d := misplacedDecision in
  let r := normalizeDecision d true "make a copy with a bigger hero" in
  (action d = REGENERATE_SCREEN
   /\ ~ containsPhrase explicitRegenKeywords (rationale d))
  /\ newComponents r <> Some (orNil (regenerateSpecs d))
  /\ createBranch r <> createBranch d
  /\ screenOrder r
     <> Some (screenOrderNames pageSession
              ++ map name (orNil (regenerateSpecs d))).
Proof.
  split; [split; [reflexivity |] |].
  - intros H. apply isExplicitRegen_spec in H. vm_compute in H. discriminate H.
  - vm_compute. repeat split; discriminate.
Qed.

(** C1 (amended): with existing units, a regeneration whose rationale holds
    no explicit-intent phrase comes back as an incremental update.  Its
    new-components list is the regeneration specs as the misplacement
    repair left them (the original ones when there are any), its rationale
    is the original one marked as protected, its branch flag is the one
    branch detection left (the original one unless detection forced it),
    its updates and layout are kept and its regeneration specs are gone. *)
Theorem regeneration_guard_downgrades (d : AgentDecision) (prompt : string) :
  action d = REGENERATE_SCREEN ->
  ~ containsPhrase explicitRegenKeywords (rationale d) ->
  let r := normalizeDecision d true prompt in
  action r = UPDATE_COMPONENTS
  /\ newComponents r = Some (effectiveSpecs d)
  /\ (absentOrEmpty (regenerateSpecs d) = false ->
      newComponents r = regenerateSpecs d)
  /\ rationale r = protectedRationale (rationale d)
  /\ createBranch r = createBranch (detectBranching d true prompt)
  /\ (~ (containsPhrase branchKeywords prompt
         \/ containsPhrase branchKeywords (rationale d))
      \/ truthy (createBranch d) = true ->
      createBranch r = createBranch d)
  /\ updates r = Some (orNil (updates d))
  /\ layout r = layout d
  /\ regenerateSpecs r = None.
Proof.
  intros Hact Hexp r. apply isExplicitRegen_false in Hexp.
  assert (Hr : r = regenerationGuard
                     (detectBranching (repairMisplacedSpecs d) true prompt)
                     true) by reflexivity.
  set (d2 := detectBranching (repairMisplacedSpecs d) true prompt) in *.
  assert (Hact2 : action d2 = REGENERATE_SCREEN).
  { unfold d2. now rewrite detectBranching_action, repairMisplacedSpecs_action. }
  assert (Hrat2 : rationale d2 = rationale d).
  { unfold d2.
    now rewrite detectBranching_rationale, repairMisplacedSpecs_rationale. }
  assert (Hspecs : orNil (regenerateSpecs d2) = effectiveSpecs d).
  { unfold d2. rewrite detectBranching_regenerateSpecs.
    now apply repairMisplacedSpecs_specs. }
  assert (Hbr : createBranch d2 = createBranch (detectBranching d true prompt)).
  { unfold d2, detectBranching.
    rewrite repairMisplacedSpecs_rationale, repairMisplacedSpecs_createBranch.
    destruct (_ && _); [reflexivity | apply repairMisplacedSpecs_createBranch]. }
  assert (Hshape : r = {| action := UPDATE_COMPONENTS;
                          rationale := protectedRationale (rationale d2);
                          createBranch := createBranch d2;
                          updates := Some (orNil (updates d2));
                          newComponents := Some (orNil (regenerateSpecs d2));
                          screenOrder := screenOrder r;
                          regenerateSpecs := None;
                          layout := layout d2 |}).
  { rewrite Hr. unfold regenerationGuard.
    rewrite Hact2, Hrat2, Hexp. reflexivity. }
  assert (Hupd : updates d2 = updates d /\ layout d2 = layout d).
  { unfold d2, detectBranching, repairMisplacedSpecs.
    destruct (_ && _ && negb (truthy _)); destruct (_ && _ && negb _);
      now split. }
  destruct Hupd as [Hupd Hlay].
  rewrite Hshape; cbn [action newComponents rationale createBranch updates
                       layout regenerateSpecs].
  rewrite Hspecs, Hrat2, Hbr, Hupd, Hlay.
  repeat split.
  - intros Hne. unfold effectiveSpecs. rewrite Hne.
    destruct (regenerateSpecs d); [reflexivity | discriminate].
  - intros H. f_equal. apply detectBranching_id. right.
    destruct H as [H | H]; [left | now right].
    destruct (hasBranchingIntent prompt (rationale d)) eqn:E; [| reflexivity].
    now apply hasBranchingIntent_spec in E.
Qed.

Lemma regeneration_guard_downgrades_witness :
  let r := normalizeDecision refreshDecision true "add a hero and pricing" in
  action r = UPDATE_COMPONENTS
  /\ newComponents r = Some [heroSpec; pricingSpec]
  /\ createBranch r = None
  /\ regenerateSpecs r = None.
Proof.
  destruct (regeneration_guard_downgrades refreshDecision
              "add a hero and pricing")
    as (Ha & _ & Hn & _ & _ & Hb & _ & _ & Hg);
    [reflexivity | intros H; apply isExplicitRegen_spec in H; vm_compute in H; discriminate H |].
  split; [exact Ha |].
  split; [apply Hn; reflexivity |].
  split; [apply Hb; left | exact Hg].
  intros H. apply hasBranchingIntent_spec in H. vm_compute in H.
  discriminate H.
Defined.

(** C5, as stated, fails on the code: the rationale asks to start from
    scratch and the prompt also asks for a new version, so the decision
    comes back with its branch flag forced, not unchanged. *)
Lemma explicit_regeneration_counterexample :
  let d := scratchDecision in
  let r := normalizeDecision d true "start from scratch as a new version" in
  (action d = REGENERATE_SCREEN
   /\ containsPhrase explicitRegenKeywords (rationale d))
  /\ action r = REGENERATE_SCREEN
  /\ r <> d.
Proof.
  split; [split; [reflexivity |] |].
  - apply isExplicitRegen_spec. reflexivity.
  - vm_compute. split; [reflexivity | discriminate].
Qed.

(** C5 (amended): with existing units, a regeneration whose rationale holds
    an explicit-intent phrase keeps its action, and the guard changes
    nothing in it: what comes back is the decision as the misplacement
    repair and branch detection left it, which is the decision itself
    whenever neither of the two applies. *)
Theorem explicit_regeneration_passes (d : AgentDecision) (prompt : string) :
  action d = REGENERATE_SCREEN ->
  containsPhrase explicitRegenKeywords (rationale d) ->
  let r := normalizeDecision d true prompt in
  action r = REGENERATE_SCREEN
  /\ r = detectBranching (repairMisplacedSpecs d) true prompt
  /\ rationale r = rationale d
  /\ orNil (regenerateSpecs r) = effectiveSpecs d
  /\ ((absentOrEmpty (regenerateSpecs d) = false
       \/ absentOrEmpty (newComponents d) = true) ->
      (~ (containsPhrase branchKeywords prompt
          \/ containsPhrase branchKeywords (rationale d))
       \/ truthy (createBranch d) = true) ->
      r = d).
Proof.
  intros Hact Hexp r. apply isExplicitRegen_spec in Hexp.
  assert (Hr : r = detectBranching (repairMisplacedSpecs d) true prompt).
  { unfold r, normalizeDecision. apply regenerationGuard_explicit.
    now rewrite detectBranching_rationale, repairMisplacedSpecs_rationale. }
  rewrite Hr.
  rewrite detectBranching_action, repairMisplacedSpecs_action,
    detectBranching_rationale, repairMisplacedSpecs_rationale,
    detectBranching_regenerateSpecs, repairMisplacedSpecs_specs by exact Hact.
  repeat split; try assumption.
  intros Hrep Hbr. rewrite repairMisplacedSpecs_id by exact Hrep.
  apply detectBranching_id. right.
  destruct Hbr as [Hbr | Hbr]; [left | now right].
  destruct (hasBranchingIntent prompt (rationale d)) eqn:E; [| reflexivity].
  now apply hasBranchingIntent_spec in E.
Qed.

Lemma explicit_regeneration_passes_witness :
  normalizeDecision scratchDecision true "wipe it and build a blog"
  = scratchDecision.
Proof.
  destruct (explicit_regeneration_passes scratchDecision
              "wipe it and build a blog")
    as (_ & _ & _ & _ & Hsame);
    [reflexivity | apply isExplicitRegen_spec; reflexivity |].
  apply Hsame; left; [reflexivity |].
  intros H. apply hasBranchingIntent_spec in H. vm_compute in H.
  discriminate H.
Defined.

(** C6: with existing units, a branch phrase in the prompt or in the
    rationale (case-insensitively) and a flag that is not set, the
    normalized decision has the branch flag set to true; when the flag is
    already set, or the session has no unit, branch detection returns its
    decision as it got it, and the normalized decision carries the original
    flag. *)
Theorem branch_intent_detection (d : AgentDecision) (prompt : string)
    (hasExisting : bool) :
  (hasExisting = true ->
   containsPhrase branchKeywords prompt
   \/ containsPhrase branchKeywords (rationale d) ->
   truthy (createBranch d) = false ->
   createBranch (normalizeDecision d hasExisting prompt) = Some true)
  /\ (truthy (createBranch d) = true \/ hasExisting = false ->
      (forall d', createBranch d' = createBranch d ->
                  detectBranching d' hasExisting prompt = d')
      /\ createBranch (normalizeDecision d hasExisting prompt)
         = createBranch d).
Proof.
  split.
  - intros -> Hint Hflag. apply hasBranchingIntent_spec in Hint.
    unfold normalizeDecision.
    rewrite regenerationGuard_createBranch.
    apply detectBranching_fires.
    + now rewrite repairMisplacedSpecs_rationale.
    + now rewrite repairMisplacedSpecs_createBranch.
  - intros H.
    assert (Hid : forall d', createBranch d' = createBranch d ->
                             detectBranching d' hasExisting prompt = d').
    { intros d' Hd'. apply detectBranching_id.
      destruct H as [H | H]; [right; right; now rewrite Hd' | now left]. }
    split; [exact Hid |].
    unfold normalizeDecision. rewrite regenerationGuard_createBranch.
    rewrite Hid by apply repairMisplacedSpecs_createBranch.
    apply repairMisplacedSpecs_createBranch.
Qed.

Lemma branch_intent_detection_witness :
  createBranch (normalizeDecision refreshDecision true
                  "create a DUPLICATE with dark mode") = Some true
  /\ createBranch (normalizeDecision refreshDecision false
                     "create a duplicate with dark mode") = None.
Proof.
  split.
  - apply (proj1 (branch_intent_detection refreshDecision
                    "create a DUPLICATE with dark mode" true));
      [reflexivity | | reflexivity].
    apply (hasBranchingIntent_spec _ (rationale refreshDecision)).
    reflexivity.
  - apply (proj2 (branch_intent_detection refreshDecision
                    "create a duplicate with dark mode" false)).
    right; reflexivity.
Defined.

(** ** Reference resolution *)

Lemma toLowerCase_length s :
  String.length (Js.toLowerCase s) = String.length s.
Proof. induction s as [| c s IH]; cbn; [reflexivity | now rewrite IH]. Qed.

Lemma filter_head_find {A} (f : A -> bool) (l : list A) :
  match List.filter f l with x :: _ => Some x | [] => None end = List.find f l.
Proof.
  induction l as [| a l IH]; cbn; [reflexivity |].
  destruct (f a); [reflexivity | exact IH].
Qed.

Lemma resolveComponentId_by_name w sid session reference :
  getSession w sid = Some session ->
  Js.matchesUuid reference = false ->
  resolveComponentId w sid reference
  = option_map Component.id
      (firstNameMatch (SessionState.components session) reference).
Proof.
  intros Hs Hu. unfold resolveComponentId, findComponentByName, firstNameMatch.
  rewrite Hu, Hs. rewrite <- filter_head_find.
  destruct (List.filter _ _) as [| c l]; reflexivity.
Qed.

Lemma firstNameMatch_names cs1 cs2 reference :
  namesById cs1 = namesById cs2 ->
  option_map Component.id (firstNameMatch cs1 reference)
  = option_map Component.id (firstNameMatch cs2 reference).
Proof.
  unfold namesById, firstNameMatch.
  generalize (JsMap.values cs1) (JsMap.values cs2). clear cs1 cs2.
  induction l as [| a l IH]; intros [| b l'] H; try discriminate H;
    [reflexivity |].
  cbn in H. injection H as Hid Hname Hrest. cbn. rewrite Hname.
  destruct (Js.includes _ _); cbn; [now rewrite Hid | now apply IH].
Qed.

(** C7: a reference of the shape of an identifier is returned as it is,
    whether or not a unit has it; any other reference resolves to the
    identifier of the first unit, in the order of the mapping, whose name
    contains it whatever the case, and to nothing when no name does (or the
    session does not exist); with units named Header and Header Section in
    this order, any casing of header resolves to the first.  The result is
    a function of the reference and of the identifiers and names of the
    mapping in order, so that repeated calls agree. *)
Theorem resolver_first_match (w : World) (sid reference : string) :
  (Js.matchesUuid reference = true ->
   resolveComponentId w sid reference = Some reference)
  /\ (Js.matchesUuid reference = false ->
      (forall session, getSession w sid = Some session ->
         resolveComponentId w sid reference
         = option_map Component.id
             (firstNameMatch (SessionState.components session) reference))
      /\ (forall session, getSession w sid = Some session ->
            (forall c, In c (JsMap.values (SessionState.components session)) ->
               Js.includes (Js.toLowerCase (Component.name c))
                           (Js.toLowerCase reference) = false) ->
            resolveComponentId w sid reference = None)
      /\ (getSession w sid = None ->
          resolveComponentId w sid reference = None))
  /\ (forall session c1 c2,
        getSession w sid = Some session ->
        JsMap.values (SessionState.components session) = [c1; c2] ->
        Component.name c1 = "Header" ->
        Component.name c2 = "Header Section" ->
        Js.toLowerCase reference = "header" ->
        resolveComponentId w sid reference = Some (Component.id c1))
  /\ (forall w' session session',
        getSession w sid = Some session ->
        getSession w' sid = Some session' ->
        namesById (SessionState.components session)
        = namesById (SessionState.components session') ->
        resolveComponentId w' sid reference
        = resolveComponentId w sid reference).
Proof.
  split; [| split; [| split]].
  - intros H. unfold resolveComponentId. now rewrite H.
  - intros Hu. split; [| split].
    + intros session Hs. now apply resolveComponentId_by_name.
    + intros session Hs Hnone.
      rewrite (resolveComponentId_by_name _ _ _ _ Hs Hu).
      unfold firstNameMatch.
      destruct (List.find _ _) as [c |] eqn:Hf; [| reflexivity].
      apply find_some in Hf as [Hin Hc]. rewrite (Hnone c Hin) in Hc.
      discriminate Hc.
    + intros Hs. unfold resolveComponentId, findComponentByName.
      now rewrite Hu, Hs.
  - intros session c1 c2 Hs Hv Hn1 Hn2 Hlow.
    assert (Hu : Js.matchesUuid reference = false).
    { unfold Js.matchesUuid. rewrite <- (toLowerCase_length reference), Hlow.
      reflexivity. }
    rewrite (resolveComponentId_by_name _ _ _ _ Hs Hu).
    unfold firstNameMatch. rewrite Hv, Hlow. cbn [List.find].
    rewrite Hn1. reflexivity.
  - intros w' session session' Hs Hs' Hnames.
    unfold resolveComponentId.
    destruct (Js.matchesUuid reference) eqn:Hu; [reflexivity |].
    fold (resolveComponentId w' sid reference).
    fold (resolveComponentId w sid reference).
    pose proof (resolveComponentId_by_name _ _ _ _ Hs Hu) as H1.
    pose proof (resolveComponentId_by_name _ _ _ _ Hs' Hu) as H2.
    unfold resolveComponentId in H1, H2. rewrite Hu in H1, H2.
    rewrite H1, H2. symmetry. now apply firstNameMatch_names.
Qed.

Lemma resolver_first_match_witness :
  resolveComponentId twoHeadersWorld (SessionState.id twoHeadersSession)
    "HeAdEr" = Some (Component.id headerUnit)
  /\ resolveComponentId twoHeadersWorld (SessionState.id twoHeadersSession)
       "0000abcd-0000-4000-8000-00000000ABCD"
     = Some "0000abcd-0000-4000-8000-00000000ABCD"
  /\ resolveComponentId twoHeadersWorld (SessionState.id twoHeadersSession)
       "sidebar" = None.
Proof.
  split; [| split].
  - destruct (resolver_first_match twoHeadersWorld
                (SessionState.id twoHeadersSession) "HeAdEr")
      as (_ & _ & H & _).
    apply (H twoHeadersSession headerUnit headerSectionUnit); reflexivity.
  - destruct (resolver_first_match twoHeadersWorld
                (SessionState.id twoHeadersSession)
                "0000abcd-0000-4000-8000-00000000ABCD") as (H & _).
    apply H. reflexivity.
  - destruct (resolver_first_match twoHeadersWorld
                (SessionState.id twoHeadersSession) "sidebar")
      as (_ & H & _).
    destruct (H eq_refl) as (_ & Hnone & _).
    apply (Hnone twoHeadersSession); [reflexivity |].
    intros c [<- | [<- | []]]; reflexivity.
Defined.

(** ** The composer *)

Lemma find_missing_none (cs : list (string * Component.t)) ids :
  List.find (fun id => negb (JsMap.has id cs)) ids = None
  <-> allExist cs ids = true.
Proof.
  unfold allExist. induction ids as [| a ids IH]; cbn; [tauto |].
  destruct (JsMap.has a cs); cbn; [exact IH | split; discriminate].
Qed.

Lemma composeScreen_no_session E w sid ids layout cfg :
  getSession w sid = None ->
  composeScreen E sid ids layout cfg w
  = (ToolResult.fail "Session not found", w).
Proof. unfold composeScreen. now intros ->. Qed.

Lemma composeScreen_unknown E w sid session ids layout cfg :
  getSession w sid = Some session ->
  allExist (SessionState.components session) ids = false ->
  exists id,
    In id ids
    /\ JsMap.has id (SessionState.components session) = false
    /\ composeScreen E sid ids layout cfg w
       = (ToolResult.fail ("Component " +:+ id +:+ " not found"), w).
Proof.
  intros Hs Hall. unfold composeScreen. rewrite Hs.
  destruct (List.find _ ids) as [id |] eqn:Hf.
  - apply find_some in Hf as [Hin Hmiss]. exists id.
    split; [exact Hin |]. split; [| reflexivity].
    now apply negb_true_iff.
  - apply find_missing_none in Hf. congruence.
Qed.

Lemma composeScreen_known E w sid session ids layout cfg :
  getSession w sid = Some session ->
  allExist (SessionState.components session) ids = true ->
  let screen := {| Screen.componentIds := ids;
                   Screen.layout :=
                     match layout with Some l => l | None => stack end;
                   Screen.layoutConfig := cfg |} in
  composeScreen E sid ids layout cfg w
  = (ToolResult.ok (DataScreen screen),
     {| sessions :=
          <[sid := SessionState.setLastActivityAt
                     (SessionState.setScreen session (Some screen))
                     (clock E (datesRead w))]> (sessions w);
        datesRead := S (datesRead w);
        uuidsDrawn := uuidsDrawn w |}).
Proof.
  intros Hs Hall. cbn zeta. unfold composeScreen. rewrite Hs.
  apply find_missing_none in Hall. rewrite Hall.
  unfold bind, updateScreen. unfold getSession in Hs. rewrite Hs.
  reflexivity.
Qed.

(** C3, as stated, fails on the code: a role binding that names no unit of
    the session does not make the composer fail; the composition is replaced
    and carries the binding. *)
Lemma composer_counterexample :
  let sid := SessionState.id pageSession in
  let out := composeScreen demoEnv sid [Component.id footerUnit]
               (Some stack) (Some danglingBindings) pageWorld in
  JsMap.has "44444444-4444-4444-8444-444444444444"
    (SessionState.components pageSession) = false
  /\ ToolResult.success (fst out) = true
  /\ option_map SessionState.screen (getSession (snd out) sid)
     = Some (Some {| Screen.componentIds := [Component.id footerUnit];
                     Screen.layout := stack;
                     Screen.layoutConfig := Some danglingBindings |})
  /\ option_map SessionState.screen (getSession (snd out) sid)
     <> option_map SessionState.screen (getSession pageWorld sid).
Proof. vm_compute. repeat split; discriminate. Qed.

(** C3 (amended): the composer fails with an unknown-unit error, and leaves
    the whole store as it was, whenever an entry of the ordered list is not
    a key of the session's unit mapping; otherwise it succeeds and replaces
    the composition by exactly the given list, layout and bindings, the
    bindings not being checked, and changes nothing else of the session
    (but the time of last activity) nor any other session. *)
Theorem composer_validates_ordered_list (E : Env) (w : World) (sid : string)
    (session : SessionState.t) (ids : list string)
    (layout : option ScreenLayout) (cfg : option LayoutConfig.t) :
  getSession w sid = Some session ->
  let r := fst (composeScreen E sid ids layout cfg w) in
  let w' := snd (composeScreen E sid ids layout cfg w) in
  (allExist (SessionState.components session) ids = false ->
   ToolResult.success r = false
   /\ (exists id, In id ids
         /\ JsMap.has id (SessionState.components session) = false
         /\ ToolResult.error r
            = Some ("Component " +:+ id +:+ " not found"))
   /\ w' = w)
  /\ (allExist (SessionState.components session) ids = true ->
      ToolResult.success r = true
      /\ (exists session',
            getSession w' sid = Some session'
            /\ SessionState.screen session'
               = Some {| Screen.componentIds := ids;
                         Screen.layout :=
                           match layout with Some l => l | None => stack end;
                         Screen.layoutConfig := cfg |}
            /\ SessionState.components session'
               = SessionState.components session
            /\ SessionState.messages session' = SessionState.messages session
            /\ SessionState.decisionHistory session'
               = SessionState.decisionHistory session)
      /\ othersUnchanged sid w w').
Proof.
  intros Hs r w'. split.
  - intros Hall.
    destruct (composeScreen_unknown E w sid session ids layout cfg Hs Hall)
      as (id & Hin & Hmiss & Heq).
    subst r w'. rewrite Heq. cbn. split; [reflexivity |].
    split; [| reflexivity]. exists id. auto.
  - intros Hall. subst r w'.
    rewrite (composeScreen_known E w sid session ids layout cfg Hs Hall).
    cbn. split; [reflexivity |]. split.
    + eexists. split.
      * session_here.
      * cbn. auto.
    + intros other Hne. unfold getSession. cbn.
      now apply lookup_insert_ne.
Qed.

Lemma composer_validates_ordered_list_witness :
  let sid := SessionState.id pageSession in
  (snd (composeScreen demoEnv sid
          [Component.id footerUnit; "44444444-4444-4444-8444-444444444444"]
          (Some stack) None pageWorld) = pageWorld)
  /\ ToolResult.success
       (fst (composeScreen demoEnv sid
               [Component.id footerUnit; Component.id headerUnit]
               (Some grid_3) None pageWorld)) = true.
Proof.
  split.
  - destruct (composer_validates_ordered_list demoEnv pageWorld
                (SessionState.id pageSession) pageSession
                [Component.id footerUnit;
                 "44444444-4444-4444-8444-444444444444"]
                (Some stack) None eq_refl) as [Hfail _].
    destruct (Hfail eq_refl) as (_ & _ & Hw). exact Hw.
  - destruct (composer_validates_ordered_list demoEnv pageWorld
                (SessionState.id pageSession) pageSession
                [Component.id footerUnit; Component.id headerUnit]
                (Some grid_3) None eq_refl) as [_ Hok].
    destruct (Hok eq_refl) as (Hs & _). exact Hs.
Defined.

(** ** Tool calls, one at a time *)

Lemma resume_settled E r w : resume E (Settled r) w = (r, w).
Proof. reflexivity. Qed.

Lemma resume_create_error E sid n d m w :
  resume E (AwaitCreate sid n d (GenError m)) w = (ToolResult.fail m, w).
Proof. reflexivity. Qed.

Lemma resume_update_error E sid existing m w :
  resume E (AwaitUpdate sid existing (GenError m)) w = (ToolResult.fail m, w).
Proof. reflexivity. Qed.

Lemma resume_create_ok E sid n d h ud w session :
  getSession w sid = Some session ->
  let c := {| Component.id := uuidv4 E (uuidsDrawn w);
              Component.name := n;
              Component.description := Js.orElse ud d;
              Component.html := h;
              Component.lastUpdatedAt := clock E (datesRead w) |} in
  resume E (AwaitCreate sid n d (GenOk h ud)) w
  = (ToolResult.ok (DataComponent c),
     {| sessions :=
          <[sid := SessionState.setLastActivityAt
                     (SessionState.setComponents session
                        (JsMap.set (Component.id c) c
                           (SessionState.components session)))
                     (clock E (S (datesRead w)))]> (sessions w);
        datesRead := S (S (datesRead w));
        uuidsDrawn := S (uuidsDrawn w) |}).
Proof.
  unfold getSession. intros Hs. cbn. unfold bind, drawUuid, newDate,
    upsertComponent. cbn. rewrite Hs. reflexivity.
Qed.

Lemma resume_update_ok E sid existing h ud w session :
  getSession w sid = Some session ->
  let c := {| Component.id := Component.id existing;
              Component.name := Component.name existing;
              Component.description :=
                Js.orElse ud (Component.description existing);
              Component.html := h;
              Component.lastUpdatedAt := clock E (datesRead w) |} in
  resume E (AwaitUpdate sid existing (GenOk h ud)) w
  = (ToolResult.ok (DataComponent c),
     {| sessions :=
          <[sid := SessionState.setLastActivityAt
                     (SessionState.setComponents session
                        (JsMap.set (Component.id c) c
                           (SessionState.components session)))
                     (clock E (S (datesRead w)))]> (sessions w);
        datesRead := S (S (datesRead w));
        uuidsDrawn := uuidsDrawn w |}).
Proof.
  unfold getSession. intros Hs. cbn. unfold bind, newDate, upsertComponent.
  cbn. rewrite Hs. reflexivity.
Qed.

(** ** The unit mapping *)

Lemma JsMap_has_set {V} k k' (v : V) m :
  JsMap.has k m = true -> JsMap.has k (JsMap.set k' v m) = true.
Proof.
  unfold JsMap.has. induction m as [| [k0 v0] m IH]; cbn; [discriminate |].
  destruct (String.eqb k0 k') eqn:E'; cbn.
  - apply String.eqb_eq in E'. subst k0.
    destruct (String.eqb k' k); [reflexivity | tauto].
  - destruct (String.eqb k0 k); [reflexivity | exact IH].
Qed.

Lemma JsMap_get_set_eq {V} k (v : V) m :
  JsMap.get k (JsMap.set k v m) = Some v.
Proof.
  induction m as [| [k0 v0] m IH]; cbn.
  - now rewrite String.eqb_refl.
  - destruct (String.eqb k0 k) eqn:E'; cbn.
    + now rewrite String.eqb_refl.
    + now rewrite E'.
Qed.

Lemma JsMap_get_set_ne {V} k k' (v : V) m :
  k' <> k -> JsMap.get k (JsMap.set k' v m) = JsMap.get k m.
Proof.
  intros Hne. induction m as [| [k0 v0] m IH]; cbn.
  - apply String.eqb_neq in Hne. now rewrite Hne.
  - destruct (String.eqb k0 k') eqn:E'; cbn.
    + apply String.eqb_eq in E'. subst k0.
      apply String.eqb_neq in Hne. now rewrite Hne.
    + destruct (String.eqb k0 k); [reflexivity | exact IH].
Qed.

Lemma JsMap_has_set_eq {V} k (v : V) m : JsMap.has k (JsMap.set k v m) = true.
Proof. unfold JsMap.has. now rewrite JsMap_get_set_eq. Qed.

(** ** Batches: the settle-all rule *)

(** An invariant [I] of the world that every call of the batch keeps, and a
    relation [Q] between a call, its result and the world that the call
    establishes and that later calls keep, hold of the whole batch in any
    order: every call has a result, at its own position. *)
Section SettleAll.
Variable E : Env.
Variable ps : list Pending.
Variable I : World -> Prop.
Variable Q : Pending -> ToolResult.t -> World -> Prop.
Hypothesis step :
  forall i p w, ps !! i = Some p -> I w ->
    I (snd (resume E p w)) /\ Q p (fst (resume E p w)) (snd (resume E p w)).
Hypothesis stable :
  forall i p w q r, ps !! i = Some p -> I w -> Q q r w ->
    Q q r (snd (resume E p w)).

Lemma settle_rule sched : forall slots w,
  I w -> slotsOk ps Q slots w ->
  I (snd (settle E ps sched slots w))
  /\ slotsOk ps Q (fst (settle E ps sched slots w))
       (snd (settle E ps sched slots w))
  /\ (forall i r, slots !! i = Some (Some r) ->
        fst (settle E ps sched slots w) !! i = Some (Some r))
  /\ (forall i, In i sched -> i < List.length ps ->
        exists r, fst (settle E ps sched slots w) !! i = Some (Some r)).
Proof.
  induction sched as [| i rest IH]; intros slots w HI Hok.
  - cbn. split; [exact HI |]. split; [exact Hok |]. split; [auto |].
    intros i [].
  - cbn [settle].
    destruct (ps !! i) as [p |] eqn:Hp;
      [destruct (slots !! i) as [[r0 |] |] eqn:Hsl |].
    + (* already settled *)
      destruct (IH slots w HI Hok) as (H1 & H2 & H3 & H4).
      split; [exact H1 |]. split; [exact H2 |]. split; [exact H3 |].
      intros j [<- | Hin] Hlt; [eauto | now apply H4].
    + (* settles now *)
      unfold bind.
      destruct (step i p w Hp HI) as [HI' HQ].
      destruct (resume E p w) as [r w1] eqn:Hres. cbn [fst snd] in *.
      assert (Hok' : slotsOk ps Q (<[i := Some r]> slots) w1).
      { destruct Hok as [Hlen Hq]. split; [now rewrite length_insert |].
        intros j q r' Hq' Hj.
        destruct (decide (i = j)) as [<- | Hne].
        - rewrite list_lookup_insert_eq in Hj
            by (apply lookup_lt_is_Some; rewrite Hsl; eauto).
          injection Hj as <-. rewrite Hp in Hq'. now injection Hq' as <-.
        - rewrite list_lookup_insert_ne in Hj by exact Hne.
          pose proof (stable i p w q r' Hp HI (Hq j q r' Hq' Hj)) as Hst.
          now rewrite Hres in Hst. }
      destruct (IH (<[i := Some r]> slots) w1 HI' Hok') as (H1 & H2 & H3 & H4).
      split; [exact H1 |]. split; [exact H2 |]. split.
      * intros j r' Hj. apply H3.
        destruct (decide (i = j)) as [<- | Hne]; [congruence |].
        now rewrite list_lookup_insert_ne.
      * intros j [<- | Hin] Hlt; [| now apply H4].
        exists r. apply H3. apply list_lookup_insert_eq.
        apply lookup_lt_is_Some. rewrite Hsl. eauto.
    + (* no slot at this position *)
      destruct Hok as [Hlen Hq].
      apply lookup_ge_None in Hsl. apply lookup_lt_Some in Hp. lia.
    + (* no call at this position *)
      destruct (IH slots w HI Hok) as (H1 & H2 & H3 & H4).
      split; [exact H1 |]. split; [exact H2 |]. split; [exact H3 |].
      intros j [<- | Hin] Hlt; [| now apply H4].
      apply lookup_ge_None in Hp. lia.
Qed.

Lemma full_slots {A} (slots : list (option A)) :
  (forall i, i < List.length slots -> exists r, slots !! i = Some (Some r)) ->
  slots = map Some (omap (fun slot => slot) slots).
Proof.
  induction slots as [| o slots IH]; intros H; [reflexivity |].
  destruct (H 0) as [r Hr]; [cbn; lia |]. cbn in Hr. injection Hr as ->.
  cbn. f_equal. apply IH. intros i Hi.
  destruct (H (S i)) as [r' Hr']; [cbn; lia |]. eauto.
Qed.

Lemma settleAll_rule sched w :
  I w ->
  I (snd (settleAll E ps sched w))
  /\ Forall2 (fun p r => Q p r (snd (settleAll E ps sched w)))
       ps (fst (settleAll E ps sched w)).
Proof.
  intros HI. unfold settleAll, bind.
  assert (Hok0 : slotsOk ps Q (replicate (List.length ps) None) w).
  { split; [apply length_replicate |].
    intros i p r _ Hi. apply lookup_replicate in Hi as [Hi _]. discriminate. }
  destruct (settle_rule (sched ++ seq 0 (List.length ps)) _ w HI Hok0)
    as (H1 & [Hlen Hq] & _ & Hall).
  destruct (settle E ps _ _ w) as [slots w'] eqn:Hs. cbn [fst snd ret] in *.
  split; [exact H1 |].
  assert (Hfull : slots = map Some (omap (fun slot => slot) slots)).
  { apply full_slots. intros i Hi. apply Hall; [| lia].
    apply in_or_app. right. apply in_seq. lia. }
  apply Forall2_same_length_lookup_2.
  - assert (Hl : List.length slots
                 = List.length (omap (fun slot => slot) slots))
      by (rewrite Hfull at 1; apply length_map).
    congruence.
  - intros i p r Hp Hr. apply (Hq i p r Hp).
    rewrite Hfull. change (map Some ?l) with (Some <$> l).
    rewrite list_lookup_fmap, Hr. reflexivity.
Qed.
End SettleAll.

(** ** Batches: what every call comes to *)

Lemma resume_sessionsKept E p w0 w :
  sessionsKept w0 w -> sessionsKept w0 (snd (resume E p w)).
Proof.
  intros Hk sid Hsid. specialize (Hk sid Hsid).
  destruct p as [r | sid' n d [m | h ud] | sid' ex [m | h ud]];
    try exact Hk.
  - destruct (getSession w sid') as [s |] eqn:Hs.
    + rewrite (resume_create_ok E sid' n d h ud w s Hs). unfold getSession.
      cbn. destruct (decide (sid' = sid)) as [-> | Hne].
      * rewrite lookup_insert_eq. eauto.
      * now rewrite lookup_insert_ne.
    + unfold getSession in Hs. cbn. unfold bind, drawUuid, newDate,
        upsertComponent. cbn. rewrite Hs. exact Hk.
  - destruct (getSession w sid') as [s |] eqn:Hs.
    + rewrite (resume_update_ok E sid' ex h ud w s Hs). unfold getSession.
      cbn. destruct (decide (sid' = sid)) as [-> | Hne].
      * rewrite lookup_insert_eq. eauto.
      * now rewrite lookup_insert_ne.
    + unfold getSession in Hs. cbn. unfold bind, newDate, upsertComponent.
      cbn. rewrite Hs. exact Hk.
Qed.

Lemma resume_stored E p w sid c :
  stored w sid c -> stored (snd (resume E p w)) sid c.
Proof.
  intros (s & Hs & Hhas).
  destruct p as [r | sid' n d [m | h ud] | sid' ex [m | h ud]];
    try (exists s; now split).
  - destruct (getSession w sid') as [s' |] eqn:Hs'.
    + rewrite (resume_create_ok E sid' n d h ud w s' Hs'). unfold stored,
        getSession. cbn. destruct (decide (sid' = sid)) as [-> | Hne].
      * rewrite lookup_insert_eq. eexists. split; [reflexivity |]. cbn.
        rewrite Hs in Hs'. injection Hs' as <-. now apply JsMap_has_set.
      * rewrite lookup_insert_ne by exact Hne. exists s. now split.
    + unfold getSession in Hs'. cbn. unfold bind, drawUuid, newDate,
        upsertComponent. cbn. rewrite Hs'. exists s. now split.
  - destruct (getSession w sid') as [s' |] eqn:Hs'.
    + rewrite (resume_update_ok E sid' ex h ud w s' Hs'). unfold stored,
        getSession. cbn. destruct (decide (sid' = sid)) as [-> | Hne].
      * rewrite lookup_insert_eq. eexists. split; [reflexivity |]. cbn.
        rewrite Hs in Hs'. injection Hs' as <-. now apply JsMap_has_set.
      * rewrite lookup_insert_ne by exact Hne. exists s. now split.
    + unfold getSession in Hs'. cbn. unfold bind, newDate, upsertComponent.
      cbn. rewrite Hs'. exists s. now split.
Qed.

Lemma resume_settledAs E p w0 w :
  sessionsKept w0 w ->
  settledAs w0 p (fst (resume E p w)) (snd (resume E p w)).
Proof.
  intros Hk.
  destruct p as [r | sid n d [m | h ud] | sid ex [m | h ud]];
    try reflexivity.
  - intros Hsid. destruct (Hk sid Hsid) as [s Hs].
    rewrite (resume_create_ok E sid n d h ud w s Hs). cbn [fst snd].
    eexists. split; [reflexivity |]. cbn. repeat split.
    unfold stored, getSession. cbn. rewrite lookup_insert_eq.
    eexists. split; [reflexivity |]. cbn. apply JsMap_has_set_eq.
  - intros Hsid. destruct (Hk sid Hsid) as [s Hs].
    rewrite (resume_update_ok E sid ex h ud w s Hs). cbn [fst snd].
    eexists. split; [reflexivity |]. cbn. repeat split.
    unfold stored, getSession. cbn. rewrite lookup_insert_eq.
    eexists. split; [reflexivity |]. cbn. apply JsMap_has_set_eq.
Qed.

Lemma settledAs_stable E p w0 w q r :
  settledAs w0 q r w -> settledAs w0 q r (snd (resume E p w)).
Proof.
  destruct q as [r0 | sid n d [m | h ud] | sid ex [m | h ud]]; cbn;
    try (intros H; exact H).
  - intros H Hsid. destruct (H Hsid) as (c & -> & ? & ? & ? & Hst).
    exists c. repeat split; try assumption. now apply resume_stored.
  - intros H Hsid. destruct (H Hsid) as (c & -> & ? & ? & ? & ? & Hst).
    exists c. repeat split; try assumption. now apply resume_stored.
Qed.

Lemma settleAll_settledAs E ps sched w :
  sessionsKept w (snd (settleAll E ps sched w))
  /\ Forall2 (fun p r => settledAs w p r (snd (settleAll E ps sched w)))
       ps (fst (settleAll E ps sched w)).
Proof.
  apply (settleAll_rule E ps (sessionsKept w) (settledAs w)).
  - intros i p w1 _ Hk. split.
    + now apply resume_sessionsKept.
    + now apply resume_settledAs.
  - intros i p w1 q r _ _ HQ. now apply settledAs_stable.
  - intros sid H. exact H.
Qed.

(** C8: a creation whose generation fails adds no unit, and an update whose
    generation fails leaves the unit as it was: each returns the failure and
    the store it found.  In a batch, in whatever order its calls settle,
    every call has its own result: the failure of its generation, or, on an
    existing session, the unit with the body generated for it, stored in the
    mapping, whatever became of the other calls. *)
Theorem failed_generation_is_local (E : Env) (w : World) (sid : string) :
  (forall n d req hints m,
     createComponent E sid n d req hints (GenError m) w
     = (ToolResult.fail m, w))
  /\ (forall cid change hints m,
        ToolResult.success
          (fst (updateComponent E sid cid change hints (GenError m) w)) = false
        /\ snd (updateComponent E sid cid change hints (GenError m) w) = w)
  /\ (forall ps sched,
        let results := fst (settleAll E ps sched w) in
        let w' := snd (settleAll E ps sched w) in
        List.length results = List.length ps
        /\ forall i p, ps !! i = Some p ->
             exists r, results !! i = Some r /\ settledAs w p r w').
Proof.
  split; [| split].
  - reflexivity.
  - intros cid change hints m. unfold updateComponent, updateComponentStart.
    destruct (getComponent w sid cid); now split.
  - intros ps sched results w'.
    destruct (settleAll_settledAs E ps sched w) as [_ HF]. fold results w' in HF.
    split; [symmetry; exact (Forall2_length _ _ _ HF) |].
    intros i p Hp.
    destruct (Forall2_lookup_l _ _ _ _ _ HF Hp) as (r & Hr & HQ). eauto.
Qed.

Lemma failed_generation_is_local_witness :
  let sid := SessionState.id pageSession in
  let results := fst (settleAll demoEnv mixedBatch [2; 0; 1] pageWorld) in
  createComponent demoEnv sid "Pricing" "Three plans" "" None
    (GenError "429 rate limit") pageWorld
  = (ToolResult.fail "429 rate limit", pageWorld)
  /\ results !! 1 = Some (ToolResult.fail "429 rate limit")
  /\ exists r, results !! 2 = Some r /\ ToolResult.success r = true.
Proof.
  destruct (failed_generation_is_local demoEnv pageWorld
              (SessionState.id pageSession)) as (Hc & _ & Hb).
  split; [apply Hc |].
  destruct (Hb mixedBatch [2; 0; 1]) as [_ Hcalls].
  split.
  - destruct (Hcalls 1 _ eq_refl) as (r & Hr & Hq). cbn in Hq.
    now subst r.
  - destruct (Hcalls 2 _ eq_refl) as (r & Hr & Hq). cbn in Hq.
    destruct Hq as (c & -> & _); [exists pageSession; reflexivity |].
    exists (ToolResult.ok (DataComponent c)). split; [exact Hr | reflexivity].
Defined.

(** ** The regeneration batch *)

Lemma regenerateCalls_cons sid spec specs gen :
  regenerateCalls sid (spec :: specs) gen
  = AwaitCreate sid (name spec) (description spec) (gen 0)
    :: regenerateCalls sid specs (fun i => gen (S i)).
Proof. reflexivity. Qed.

Lemma generated_cons spec specs gen :
  generated (spec :: specs) gen
  = match generatedContent spec (gen 0) with
    | Some x => x :: generated specs (fun i => gen (S i))
    | None => generated specs (fun i => gen (S i))
    end.
Proof. reflexivity. Qed.

Lemma regenerateCalls_lookup sid specs : forall gen i p,
  regenerateCalls sid specs gen !! i = Some p ->
  exists spec, specs !! i = Some spec
               /\ p = AwaitCreate sid (name spec) (description spec) (gen i).
Proof.
  induction specs as [| spec specs IH]; intros gen i p H; [discriminate |].
  rewrite regenerateCalls_cons in H. destruct i as [| i]; cbn in H.
  - injection H as <-. eauto.
  - apply IH in H as (spec' & H1 & H2). eauto.
Qed.

Lemma generated_nil_error specs : forall gen i spec,
  generated specs gen = [] -> specs !! i = Some spec ->
  exists m, gen i = GenError m.
Proof.
  induction specs as [| s specs IH]; intros gen i spec Hg Hs; [discriminate |].
  rewrite generated_cons in Hg. unfold generatedContent in Hg.
  destruct (gen 0) as [m | h ud] eqn:H0; [| discriminate].
  destruct i as [| i]; [eauto |].
  cbn in Hs. exact (IH (fun i => gen (S i)) i spec Hg Hs).
Qed.

Lemma generated_In specs : forall gen i spec h ud,
  specs !! i = Some spec -> gen i = GenOk h ud ->
  In (name spec, Js.orElse ud (description spec), h) (generated specs gen).
Proof.
  induction specs as [| s specs IH]; intros gen i spec h ud Hs Hg;
    [discriminate |].
  rewrite generated_cons. destruct i as [| i]; cbn in Hs.
  - injection Hs as ->. rewrite Hg. cbn. now left.
  - pose proof (IH (fun i => gen (S i)) i spec h ud Hs Hg) as Hin.
    destruct (generatedContent s (gen 0)); [now right | exact Hin].
Qed.

(** The units a regeneration batch returns are those generated, in the order
    of the specifications, and each is in the mapping. *)
Lemma regenerate_created sid w0 w' specs : forall gen results,
  is_Some (getSession w0 sid) ->
  Forall2 (fun p r => settledAs w0 p r w')
    (regenerateCalls sid specs gen) results ->
  map unitContent (omap createdComponent results) = generated specs gen
  /\ Forall (stored w' sid) (omap createdComponent results).
Proof.
  induction specs as [| spec specs IH]; intros gen results Hsid HF.
  - inversion HF. split; [reflexivity | constructor].
  - rewrite regenerateCalls_cons in HF.
    inversion HF as [| p r ps rs Hq HF' Hp Hr]. subst.
    destruct (IH _ _ Hsid HF') as [IH1 IH2].
    rewrite generated_cons. cbn in Hq. unfold generatedContent.
    destruct (gen 0) as [m | h ud].
    + subst r. cbn. now split.
    + destruct (Hq Hsid) as (c & -> & Hn & Hd & Hh & Hst). cbn.
      split; [| now constructor].
      rewrite IH1. unfold unitContent. now rewrite Hn, Hd, Hh.
Qed.

(** A batch whose generations all fail leaves the world as it found it. *)
Lemma regenerate_all_fail E sid specs gen sched w :
  generated specs gen = [] ->
  snd (settleAll E (regenerateCalls sid specs gen) sched w) = w.
Proof.
  intros Hg.
  apply (settleAll_rule E (regenerateCalls sid specs gen)
           (fun w1 => w1 = w) (fun _ _ _ => True)).
  - intros i p w1 Hp ->. split; [| exact Logic.I].
    apply regenerateCalls_lookup in Hp as (spec & Hs & ->).
    destruct (generated_nil_error specs gen i spec Hg Hs) as [m ->].
    reflexivity.
  - intros. exact Logic.I.
  - reflexivity.
Qed.

Lemma stored_allExist w sid session cs :
  getSession w sid = Some session ->
  Forall (stored w sid) cs ->
  allExist (SessionState.components session) (map Component.id cs) = true
  /\ Forall (fun c => JsMap.has (Component.id c)
                        (SessionState.components session) = true) cs.
Proof.
  intros Hs HF. unfold allExist.
  induction HF as [| c cs (s & Hs' & Hhas) HF IH]; [now split |].
  rewrite Hs in Hs'. injection Hs' as <-. destruct IH as [IH1 IH2].
  cbn. rewrite Hhas, IH1. split; [reflexivity | now constructor].
Qed.

(** With identifiers that never repeat, every unit a regeneration batch
    returns is the one the mapping holds under its identifier. *)
Lemma regenerate_created_held E sid specs gen sched w :
  (forall i j, uuidv4 E i = uuidv4 E j -> i = j) ->
  is_Some (getSession w sid) ->
  Forall (held (snd (settleAll E (regenerateCalls sid specs gen) sched w)) sid)
    (omap createdComponent
       (fst (settleAll E (regenerateCalls sid specs gen) sched w))).
Proof.
  intros Hinj Hsid.
  destruct (settleAll_rule E (regenerateCalls sid specs gen)
              (fun w1 => is_Some (getSession w1 sid))
              (fun _ r w1 => returnedHeld E sid r w1)) with (sched := sched)
              (w := w) as [_ HF].
  - intros i p w1 Hp [s1 Hs1].
    apply regenerateCalls_lookup in Hp as (spec & _ & ->).
    destruct (gen i) as [m | h ud].
    + split; [now exists s1 |]. intros c Hc. discriminate Hc.
    + rewrite (resume_create_ok E sid _ _ h ud w1 s1 Hs1). cbn [fst snd].
      split.
      * unfold getSession. cbn. rewrite lookup_insert_eq. eauto.
      * intros c Hc. cbn in Hc. injection Hc as <-. cbn. split.
        -- exists (uuidsDrawn w1). split; [lia | reflexivity].
        -- eexists. split; [session_here |].
           cbn. apply JsMap_get_set_eq.
  - intros i p w1 q r Hp [s1 Hs1] Hq c Hc.
    destruct (Hq c Hc) as [(k & Hk & Hid) (s & Hs & Hget)].
    apply regenerateCalls_lookup in Hp as (spec & _ & ->).
    destruct (gen i) as [m | h ud].
    + split; [now exists k | now exists s].
    + rewrite (resume_create_ok E sid _ _ h ud w1 s1 Hs1). cbn [snd].
      split; [exists k; split; [cbn; lia | exact Hid] |].
      eexists. split; [session_here |].
      cbn. rewrite Hs1 in Hs. injection Hs as <-.
      rewrite JsMap_get_set_ne; [exact Hget |].
      rewrite Hid. intros Heq. apply Hinj in Heq. lia.
  - exact Hsid.
  - set (w' := snd (settleAll E (regenerateCalls sid specs gen) sched w)) in *.
    set (results := fst (settleAll E (regenerateCalls sid specs gen) sched w))
      in *.
    clearbody w' results. revert HF.
    generalize (regenerateCalls sid specs gen). intros calls HF.
    induction HF as [| p r ps rs Hr HF IH]; [constructor |].
    cbn. destruct (createdComponent r) as [c |] eqn:Hc; [| exact IH].
    constructor; [exact (proj2 (Hr c Hc)) | exact IH].
Qed.

(** C4: a regeneration batch on an existing session, in whatever order its
    calls settle, returns the units of the specifications whose generation
    succeeded, each with the body generated for it, in the order of the
    specifications: a spec whose generation fails is left out and nothing
    else changes for the others.  When at least one succeeds the call
    reports no error and the composition is exactly the identifiers of these
    units, in that order, under the requested layout, every one of them a
    key of the mapping, under which, identifiers never repeating, the
    mapping holds that very unit.  When every generation fails the call
    fails with an error and the world is as the batch found it. *)
Theorem regeneration_tolerates_failures (E : Env) (w : World) (sid : string)
    (session : SessionState.t) (specs : list NewComponentSpec)
    (layout : option LayoutSpec) (gen : nat -> GenOutcome)
    (sched : list nat) :
  getSession w sid = Some session ->
  let res := fst (executeRegenerate E sid specs layout gen sched w) in
  let w' := snd (executeRegenerate E sid specs layout gen sched w) in
  map unitContent (RegenerateResult.components res) = generated specs gen
  /\ (generated specs gen <> [] ->
      RegenerateResult.error res = None
      /\ exists session',
           getSession w' sid = Some session'
           /\ SessionState.screen session'
              = Some {| Screen.componentIds :=
                          map Component.id (RegenerateResult.components res);
                        Screen.layout :=
                          match layout with
                          | Some l => type l
                          | None => stack
                          end;
                        Screen.layoutConfig :=
                          regenerateLayoutConfig layout
                            (RegenerateResult.components res) |}
           /\ Forall (fun c => JsMap.has (Component.id c)
                                 (SessionState.components session') = true)
                (RegenerateResult.components res)
           /\ ((forall i j, uuidv4 E i = uuidv4 E j -> i = j) ->
               Forall (fun c => JsMap.get (Component.id c)
                                  (SessionState.components session') = Some c)
                 (RegenerateResult.components res)))
  /\ (generated specs gen = [] ->
      RegenerateResult.error res = Some "Failed to create any components"
      /\ RegenerateResult.components res = []
      /\ w' = w).
Proof.
  intros Hs res w'.
  assert (Hsid : is_Some (getSession w sid)) by eauto.
  pose proof (fun Hinj =>
                regenerate_created_held E sid specs gen sched w Hinj Hsid)
    as Hheld.
  destruct (settleAll_settledAs E (regenerateCalls sid specs gen) sched w)
    as [Hkept HF].
  destruct (regenerate_created sid w _ specs gen _ Hsid HF) as [Hcontent Hst].
  pose proof (regenerate_all_fail E sid specs gen sched w) as Hfail.
  subst res w'. unfold executeRegenerate, bind.
  fold (regenerateCalls sid specs gen).
  destruct (settleAll E (regenerateCalls sid specs gen) sched w)
    as [results w1]. cbn [fst snd] in *.
  set (created := omap createdComponent results) in *.
  destruct (Hkept sid Hsid) as [s1 Hs1].
  destruct (stored_allExist w1 sid s1 created Hs1 Hst) as [Hall Hhas].
  destruct (List.length created =? 0) eqn:Hlen.
  - (* nothing was created *)
    apply Nat.eqb_eq in Hlen. apply length_zero_iff_nil in Hlen.
    rewrite Hlen in Hcontent. cbn in Hcontent. cbn.
    split; [exact Hcontent |]. split; [congruence |].
    intros Hg. split; [reflexivity |]. split; [reflexivity | now apply Hfail].
  - (* the screen is composed of what was created *)
    apply Nat.eqb_neq in Hlen.
    rewrite (composeScreen_known E w1 sid s1 _ _ _ Hs1 Hall). cbn.
    split; [exact Hcontent |]. split.
    + intros _. split; [reflexivity |].
      eexists. split; [session_here |].
      cbn. split; [reflexivity |]. split; [exact Hhas |].
      intros Hinj. specialize (Hheld Hinj).
      eapply Forall_impl; [exact Hheld |].
      intros c (s & Hs' & Hget). cbn beta in Hs'.
      rewrite Hs1 in Hs'. now injection Hs' as <-.
    + intros Hg. rewrite Hg in Hcontent. apply map_eq_nil in Hcontent.
      rewrite Hcontent in Hlen. cbn in Hlen. lia.
Qed.

Lemma regeneration_tolerates_failures_witness :
  let sid := SessionState.id pageSession in
  let res := fst (executeRegenerate demoEnv sid fiveSpecs None twoOfFiveFail
                    [4; 2; 0; 3; 1] pageWorld) in
  map Component.name (RegenerateResult.components res)
  = ["Hero"; "Features"; "Footer"]
  /\ RegenerateResult.error res = None
  /\ snd (executeRegenerate demoEnv sid fiveSpecs None allFail [1; 0]
            pageWorld) = pageWorld.
Proof.
  split; [| split].
  - destruct (regeneration_tolerates_failures demoEnv pageWorld
                (SessionState.id pageSession) pageSession fiveSpecs None
                twoOfFiveFail [4; 2; 0; 3; 1] eq_refl) as (Hc & _ & _).
    apply (f_equal (map (fun x => fst (fst x)))) in Hc.
    rewrite map_map in Hc. exact Hc.
  - destruct (regeneration_tolerates_failures demoEnv pageWorld
                (SessionState.id pageSession) pageSession fiveSpecs None
                twoOfFiveFail [4; 2; 0; 3; 1] eq_refl) as (_ & Hok & _).
    apply Hok. discriminate.
  - destruct (regeneration_tolerates_failures demoEnv pageWorld
                (SessionState.id pageSession) pageSession fiveSpecs None
                allFail [1; 0] eq_refl) as (_ & _ & Hnone).
    apply Hnone. reflexivity.
Defined.

(** ** The first steps of runAgent *)

Lemma getOrCreateSession_found E w sid s0 :
  sid <> "" -> getSession w sid = Some s0 ->
  getOrCreateSession E (Some sid) w
  = (SessionState.setLastActivityAt s0 (clock E (datesRead w)),
     {| sessions :=
          <[sid := SessionState.setLastActivityAt s0 (clock E (datesRead w))]>
            (sessions w);
        datesRead := S (datesRead w);
        uuidsDrawn := uuidsDrawn w |}).
Proof.
  intros Hne Hs. unfold getOrCreateSession. unfold getSession in Hs.
  apply String.eqb_neq in Hne. rewrite Hne, Hs. reflexivity.
Qed.

Lemma getOrCreateSession_fresh E w sessionId :
  namesNone w sessionId ->
  let s := {| SessionState.id := uuidv4 E (uuidsDrawn w);
              SessionState.messages := [];
              SessionState.components := [];
              SessionState.screen := None;
              SessionState.decisionHistory := [];
              SessionState.createdAt := clock E (datesRead w);
              SessionState.lastActivityAt := clock E (datesRead w) |} in
  getOrCreateSession E sessionId w
  = (s, {| sessions := <[SessionState.id s := s]> (sessions w);
           datesRead := S (datesRead w);
           uuidsDrawn := S (uuidsDrawn w) |}).
Proof.
  intros Hn. unfold getOrCreateSession.
  destruct sessionId as [sid |]; [| reflexivity].
  destruct Hn as [-> | Hn]; [reflexivity |].
  unfold getSession in Hn. rewrite Hn. now destruct (String.eqb sid "").
Qed.

Lemma addMessage_found E w sid role content s :
  getSession w sid = Some s ->
  let message := {| Message.role := role; Message.content := content;
                    Message.timestamp := clock E (datesRead w) |} in
  addMessage E sid role content w
  = (Some message,
     {| sessions :=
          <[sid := SessionState.setLastActivityAt
                     (SessionState.setMessages s
                        (SessionState.messages s ++ [message]))
                     (clock E (S (datesRead w)))]> (sessions w);
        datesRead := S (S (datesRead w));
        uuidsDrawn := uuidsDrawn w |}).
Proof.
  unfold getSession. intros Hs. unfold addMessage. rewrite Hs. reflexivity.
Qed.

Lemma addDecisionToHistory_found E w sid prompt d affected s :
  getSession w sid = Some s ->
  let entry :=
    {| DecisionHistoryEntry.id := uuidv4 E (uuidsDrawn w);
       DecisionHistoryEntry.prompt := prompt;
       DecisionHistoryEntry.decision := d;
       DecisionHistoryEntry.timestamp := clock E (datesRead w);
       DecisionHistoryEntry.componentsAffected := affected |} in
  addDecisionToHistory E sid prompt d affected w
  = (Some entry,
     {| sessions :=
          <[sid := SessionState.setLastActivityAt
                     (SessionState.setDecisionHistory s
                        (SessionState.decisionHistory s ++ [entry]))
                     (clock E (S (datesRead w)))]> (sessions w);
        datesRead := S (S (datesRead w));
        uuidsDrawn := S (uuidsDrawn w) |}).
Proof.
  unfold getSession. intros Hs. unfold addDecisionToHistory. rewrite Hs.
  reflexivity.
Qed.

(** Once the prompt is logged, the session [runAgent] works on is in the
    store under its identifier, with the design it had and one more
    message. *)
Lemma promptLogged_session E prompt sessionId w :
  (exists s0, names w sessionId s0) \/ namesNone w sessionId ->
  let s1 := sessionOf E sessionId w in
  let w2 := promptLogged E prompt sessionId w in
  exists s2 stamp,
    getSession w2 (SessionState.id s1) = Some s2
    /\ SessionState.id s2 = SessionState.id s1
    /\ sameDesign s2 s1
    /\ SessionState.messages s2
       = SessionState.messages s1
         ++ [{| Message.role := user; Message.content := prompt;
                Message.timestamp := stamp |}]
    /\ othersUnchanged (SessionState.id s1) w w2.
Proof.
  intros Hcase s1 w2. subst s1 w2. unfold promptLogged, sessionOf.
  destruct Hcase as [(s0 & sid & -> & Hne & Hs & Hid) | Hnone].
  - rewrite (getOrCreateSession_found E w sid s0 Hne Hs). cbn [fst snd].
    cbn [SessionState.setLastActivityAt SessionState.id]. subst sid.
    erewrite addMessage_found
      by (session_here).
    cbn [snd]. eexists. eexists. split.
    { session_here. }
    cbn. split; [reflexivity |]. split; [now repeat split |].
    split; [reflexivity |].
    intros other Hother. unfold getSession. cbn.
    now rewrite !lookup_insert_ne by congruence.
  - rewrite (getOrCreateSession_fresh E w sessionId Hnone). cbn [fst snd].
    cbn [SessionState.id].
    erewrite addMessage_found
      by (session_here).
    cbn [snd]. eexists. eexists. split.
    { session_here. }
    cbn. split; [reflexivity |]. split; [now repeat split |].
    split; [reflexivity |].
    intros other Hother. unfold getSession. cbn.
    now rewrite !lookup_insert_ne by congruence.
Qed.

Lemma sessionOf_found E w sid s0 :
  sid <> "" -> getSession w sid = Some s0 ->
  sameDesign (sessionOf E (Some sid) w) s0
  /\ SessionState.messages (sessionOf E (Some sid) w)
     = SessionState.messages s0
  /\ SessionState.id (sessionOf E (Some sid) w) = SessionState.id s0.
Proof.
  intros Hne Hs. unfold sessionOf.
  rewrite (getOrCreateSession_found E w sid s0 Hne Hs). cbn.
  now repeat split.
Qed.

Lemma runAgent_steps E R prompt sessionId gen sched w :
  runAgent E R prompt sessionId gen sched w
  = (let session := sessionOf E sessionId w in
     let w2 := promptLogged E prompt sessionId w in
     match decisionOf E R prompt sessionId w with
     | Threw message =>
         ({| AgentResult.success := false;
             AgentResult.session :=
               match match truthyString sessionId with
                     | Some sid => getSession w2 sid
                     | None => None
                     end with
               | Some s => serializeSession s
               | None => emptySerializedSession
               end;
             AgentResult.rationale := None;
             AgentResult.error := Some message;
             AgentResult.decision := None |}, w2)
     | Returned decision =>
         if isRegenerate (action decision)
         then
           if absentOrEmpty (regenerateSpecs decision)
           then
             ({| AgentResult.success := false;
                 AgentResult.session := serializeSession (live w2 session);
                 AgentResult.rationale := None;
                 AgentResult.error :=
                   Some "REGENERATE_SCREEN requires regenerateSpecs";
                 AgentResult.decision := None |}, w2)
           else
             let w3 := snd (clearForRegeneration session w2) in
             let out := executeRegenerate E (SessionState.id session)
                          (orNil (regenerateSpecs decision))
                          (layout decision) gen sched w3 in
             match truthyString (RegenerateResult.error (fst out)) with
             | Some message =>
                 (failure (snd out) session (rationale decision) message,
                  snd out)
             | None => recordDecision E session prompt decision (snd out)
             end
         else
           let out := executeUpdate E (SessionState.id session) decision
                        gen sched w2 in
           match truthyString (fst out) with
           | Some message =>
               (failure (snd out) session (rationale decision) message,
                snd out)
           | None => recordDecision E session prompt decision (snd out)
           end
     end).
Proof.
  unfold runAgent, decisionOf, promptLogged, sessionOf, bind.
  destruct (getOrCreateSession E sessionId w) as [session w1]. cbn [fst snd].
  destruct (addMessage E (SessionState.id session) user prompt w1)
    as [m w2]. cbn [fst snd].
  destruct (makeDecision R w2 prompt (SessionState.id session))
    as [message | decision]; [reflexivity |].
  destruct (isRegenerate (action decision)).
  - destruct (absentOrEmpty (regenerateSpecs decision)); [reflexivity |].
    unfold clearForRegeneration at 1.
    destruct (putSession _ _ w2) as [u w3] eqn:Hclear.
    assert (Hw3 : snd (clearForRegeneration session w2) = w3)
      by (unfold clearForRegeneration; now rewrite Hclear).
    cbn zeta. rewrite Hw3.
    destruct (executeRegenerate _ _ _ _ _ _ w3) as [result w4]. cbn [fst snd].
    now destruct (truthyString (RegenerateResult.error result)).
  - cbn zeta.
    destruct (executeUpdate _ _ _ _ _ w2) as [result w4]. cbn [fst snd].
    now destruct (truthyString result).
Qed.

(** ** Failure of the decision phase *)

(** An answer that parses, at the first attempt or at the retry, is
    normalized against the session: the guard sees existing units exactly
    when the unit mapping is not empty. *)
Lemma makeDecision_first_answer R w prompt sid session a d :
  getSession w sid = Some session ->
  reasoningRequest R
    [ (system, DECISION_SYSTEM_PROMPT R);
      (user, decisionContext session prompt) ] = Content (Some a) ->
  a <> "" ->
  parseDecision R a = Validated d ->
  makeDecision R w prompt sid
  = Returned (normalizeDecision d
                (0 <? List.length
                        (JsMap.values (SessionState.components session)))
                prompt).
Proof.
  intros Hs H1 Hn Hp. unfold makeDecision. rewrite Hs, H1.
  apply String.eqb_neq in Hn. cbn. now rewrite Hn, Hp.
Qed.

Lemma makeDecision_retry_answer R w prompt sid session a1 m1 a2 d :
  getSession w sid = Some session ->
  reasoningRequest R
    [ (system, DECISION_SYSTEM_PROMPT R);
      (user, decisionContext session prompt) ] = Content (Some a1) ->
  a1 <> "" ->
  parseDecision R a1 = ParseError m1 ->
  reasoningRequest R
    [ (system, DECISION_SYSTEM_PROMPT R);
      (user, decisionContext session prompt);
      (assistant, a1);
      (user, JSON_CORRECTION_PROMPT) ] = Content (Some a2) ->
  a2 <> "" ->
  parseDecision R a2 = Validated d ->
  makeDecision R w prompt sid
  = Returned (normalizeDecision d
                (0 <? List.length
                        (JsMap.values (SessionState.components session)))
                prompt).
Proof.
  intros Hs H1 Hn1 Hp1 H2 Hn2 Hp2. unfold makeDecision. rewrite Hs, H1.
  apply String.eqb_neq in Hn1, Hn2. cbn. rewrite Hn1, Hp1, H2. cbn.
  now rewrite Hn2, Hp2.
Qed.

(** Two answers in a row that do not parse make the decision fail. *)
Lemma makeDecision_parse_error R w prompt sid session a1 a2 m1 m2 :
  getSession w sid = Some session ->
  reasoningRequest R
    [ (system, DECISION_SYSTEM_PROMPT R);
      (user, decisionContext session prompt) ] = Content (Some a1) ->
  a1 <> "" ->
  parseDecision R a1 = ParseError m1 ->
  reasoningRequest R
    [ (system, DECISION_SYSTEM_PROMPT R);
      (user, decisionContext session prompt);
      (assistant, a1);
      (user, JSON_CORRECTION_PROMPT) ] = Content (Some a2) ->
  a2 <> "" ->
  parseDecision R a2 = ParseError m2 ->
  makeDecision R w prompt sid
  = Threw ("Failed to parse agent decision after retry: " +:+ m2).
Proof.
  intros Hs H1 Hn1 Hp1 H2 Hn2 Hp2. unfold makeDecision. rewrite Hs, H1.
  apply String.eqb_neq in Hn1, Hn2. cbn. rewrite Hn1, Hp1, H2. cbn.
  now rewrite Hn2, Hp2.
Qed.

(** C2, as stated, fails on the code: the answers of the reasoning service
    never parse, the call returns the parse error, and the message log of
    the session is not what it was: the prompt has been appended to it. *)
Lemma decision_failure_counterexample :
  let sid := SessionState.id pageSession in
  let out := runAgent demoEnv garbledReasoning "make the header darker"
               (Some sid) allFail [] pageWorld in
  AgentResult.success (fst out) = false
  /\ AgentResult.error (fst out)
     = Some ("Failed to parse agent decision after retry: "
             +:+ "Unexpected token S in JSON at position 0")
  /\ option_map SessionState.messages (getSession (snd out) sid)
     <> option_map SessionState.messages (getSession pageWorld sid).
Proof. vm_compute. repeat split; discriminate. Qed.

(** C2 (amended): when the decision phase fails, the call returns the
    error, and the session named by the caller keeps its unit mapping, its
    composition and its decision audit log exactly as they were; its message
    log is the one it had followed by the user's prompt, which is logged
    before the decision is made; no other session changes.  When the caller
    names no session of the store, the session created for the call holds
    that one message and nothing else. *)
Theorem decision_failure_keeps_design (E : Env) (R : Reasoning)
    (prompt : string) (sessionId : option string) (gen : nat -> GenOutcome)
    (sched : list nat) (w : World) (message : string) :
  decisionOf E R prompt sessionId w = Threw message ->
  let res := fst (runAgent E R prompt sessionId gen sched w) in
  let w' := snd (runAgent E R prompt sessionId gen sched w) in
  AgentResult.success res = false
  /\ AgentResult.error res = Some message
  /\ (forall s0, names w sessionId s0 ->
        exists s' stamp,
          getSession w' (SessionState.id s0) = Some s'
          /\ sameDesign s' s0
          /\ SessionState.messages s'
             = SessionState.messages s0
               ++ [{| Message.role := user; Message.content := prompt;
                      Message.timestamp := stamp |}]
          /\ othersUnchanged (SessionState.id s0) w w'
          /\ AgentResult.session res = serializeSession s')
  /\ (namesNone w sessionId ->
        exists s' stamp,
          getSession w' (SessionState.id (sessionOf E sessionId w)) = Some s'
          /\ SessionState.components s' = []
          /\ SessionState.screen s' = None
          /\ SessionState.decisionHistory s' = []
          /\ SessionState.messages s'
             = [{| Message.role := user; Message.content := prompt;
                   Message.timestamp := stamp |}]
          /\ othersUnchanged (SessionState.id (sessionOf E sessionId w))
               w w').
Proof.
  intros Hd res w'. subst res w'. rewrite runAgent_steps. cbn zeta.
  rewrite Hd. cbn [fst snd AgentResult.success AgentResult.error].
  split; [reflexivity |]. split; [reflexivity |]. split.
  - intros s0 Hn.
    destruct (promptLogged_session E prompt sessionId w
                (or_introl (ex_intro _ s0 Hn)))
      as (s2 & stamp & Hs2 & Hid2 & Hsame & Hmsg & Hoth).
    destruct Hn as (sid & -> & Hne & Hs & Hid). subst sid.
    destruct (sessionOf_found E w _ s0 Hne Hs) as (Hsame1 & Hmsg1 & Hid1).
    rewrite Hid1 in Hs2, Hoth.
    exists s2, stamp. split; [exact Hs2 |].
    split; [destruct Hsame as (? & ? & ?), Hsame1 as (? & ? & ?);
            repeat split; congruence |].
    split; [now rewrite Hmsg, Hmsg1 |]. split; [exact Hoth |].
    cbn [truthyString]. apply String.eqb_neq in Hne. rewrite Hne.
    now rewrite Hs2.
  - intros Hn.
    destruct (promptLogged_session E prompt sessionId w (or_intror Hn))
      as (s2 & stamp & Hs2 & Hid2 & Hsame & Hmsg & Hoth).
    exists s2, stamp. split; [exact Hs2 |].
    unfold sessionOf in Hsame, Hmsg.
    rewrite (getOrCreateSession_fresh E w sessionId Hn) in Hsame, Hmsg.
    cbn in Hsame, Hmsg. destruct Hsame as (Hc & Hsc & Hh).
    now repeat split.
Qed.

Lemma decision_failure_keeps_design_witness :
  let sid := SessionState.id pageSession in
  let out := runAgent demoEnv garbledReasoning "make the header darker"
               (Some sid) allFail [] pageWorld in
  AgentResult.success (fst out) = false
  /\ exists s', getSession (snd out) sid = Some s'
                /\ sameDesign s' pageSession.
Proof.
  destruct (decision_failure_keeps_design demoEnv garbledReasoning
              "make the header darker" (Some (SessionState.id pageSession))
              allFail [] pageWorld _ eq_refl) as (Hfail & _ & Hkeep & _).
  split; [exact Hfail |].
  destruct (Hkeep pageSession) as (s' & stamp & Hs' & Hsame & _).
  - exists (SessionState.id pageSession).
    split; [reflexivity |]. split; [discriminate |].
    split; reflexivity.
  - exists s'. split; [exact Hs' | exact Hsame].
Defined.

(** ** Regeneration inside runAgent *)

(** A regeneration batch whose generations all fail, on an existing session:
    the call reports it and the world is untouched. *)
Lemma executeRegenerate_all_fail E sid specs layout gen sched w :
  is_Some (getSession w sid) ->
  generated specs gen = [] ->
  executeRegenerate E sid specs layout gen sched w
  = ({| RegenerateResult.components := [];
        RegenerateResult.error := Some "Failed to create any components" |},
     w).
Proof.
  intros Hsid Hg.
  destruct (settleAll_settledAs E (regenerateCalls sid specs gen) sched w)
    as [_ HF].
  destruct (regenerate_created sid w _ specs gen _ Hsid HF) as [Hcontent _].
  pose proof (regenerate_all_fail E sid specs gen sched w Hg) as Hw.
  unfold executeRegenerate, bind. fold (regenerateCalls sid specs gen).
  destruct (settleAll E (regenerateCalls sid specs gen) sched w)
    as [results w1]. cbn [fst snd] in *. subst w1.
  rewrite Hg in Hcontent. apply map_eq_nil in Hcontent.
  now rewrite Hcontent.
Qed.

Lemma JsMap_values_set_Forall {V} (P : V -> Prop) k v (m : list (string * V)) :
  P v -> Forall P (JsMap.values m) -> Forall P (JsMap.values (JsMap.set k v m)).
Proof.
  intros Hv. unfold JsMap.values.
  induction m as [| [k0 v0] m IH]; cbn; intros HF.
  - now constructor.
  - inversion HF as [| ? ? H0 Hrest]. subst.
    destruct (String.eqb k0 k); cbn; constructor; auto.
Qed.

Lemma composeScreen_frame E w sid s ids layout cfg :
  getSession w sid = Some s ->
  exists s', getSession (snd (composeScreen E sid ids layout cfg w)) sid
             = Some s'
             /\ SessionState.components s' = SessionState.components s
             /\ SessionState.messages s' = SessionState.messages s
             /\ SessionState.decisionHistory s'
                = SessionState.decisionHistory s.
Proof.
  intros Hs.
  destruct (allExist (SessionState.components s) ids) eqn:Hall.
  - rewrite (composeScreen_known E w sid s ids layout cfg Hs Hall).
    cbn [snd]. eexists. split.
    + session_here.
    + now cbn.
  - destruct (composeScreen_unknown E w sid s ids layout cfg Hs Hall)
      as (id & _ & _ & ->). cbn [snd]. now exists s.
Qed.

Lemma recordDecision_frame E session prompt d w s :
  getSession w (SessionState.id session) = Some s ->
  exists s',
    getSession (snd (recordDecision E session prompt d w))
      (SessionState.id session) = Some s'
    /\ SessionState.components s' = SessionState.components s
    /\ SessionState.screen s' = SessionState.screen s.
Proof.
  intros Hs. unfold recordDecision, bind.
  rewrite (addMessage_found E w _ assistant _ s Hs).
  erewrite addDecisionToHistory_found
    by (session_here).
  cbn [snd]. eexists. split.
  - session_here.
  - now cbn.
Qed.

(** Every unit of the mapping after a regeneration batch is one the mapping
    had or one generated by the batch. *)
Lemma executeRegenerate_units E sid specs layout gen sched w s
    (P : Component.t -> Prop) :
  getSession w sid = Some s ->
  Forall P (JsMap.values (SessionState.components s)) ->
  (forall c, In (unitContent c) (generated specs gen) -> P c) ->
  exists s',
    getSession (snd (executeRegenerate E sid specs layout gen sched w)) sid
    = Some s'
    /\ Forall P (JsMap.values (SessionState.components s')).
Proof.
  intros Hs HP Hgen.
  pose (Inv := fun w1 : World =>
          exists s1, getSession w1 sid = Some s1
                     /\ Forall P (JsMap.values (SessionState.components s1))).
  assert (Hbatch : Inv (snd (settleAll E (regenerateCalls sid specs gen)
                               sched w))).
  { apply (settleAll_rule E (regenerateCalls sid specs gen) Inv
             (fun _ _ _ => True)).
    - intros i p w1 Hp (s1 & Hs1 & HP1). split; [| exact Logic.I].
      apply regenerateCalls_lookup in Hp as (spec & Hspec & ->).
      destruct (gen i) as [m | h ud] eqn:Hg; [now exists s1 |].
      rewrite (resume_create_ok E sid _ _ h ud w1 s1 Hs1). cbn [snd].
      eexists. split; [session_here |].
      cbn. apply JsMap_values_set_Forall; [| exact HP1].
      apply Hgen. unfold unitContent. cbn.
      exact (generated_In specs gen i spec h ud Hspec Hg).
    - intros. exact Logic.I.
    - now exists s. }
  unfold executeRegenerate, bind. fold (regenerateCalls sid specs gen).
  destruct (settleAll E (regenerateCalls sid specs gen) sched w)
    as [results w1]. cbn [fst snd] in *.
  destruct Hbatch as (s1 & Hs1 & HP1).
  destruct (List.length (omap createdComponent results) =? 0);
    [now exists s1 |].
  destruct (composeScreen_frame E w1 sid s1
              (map Component.id (omap createdComponent results))
              (Some match layout with Some l => type l | None => stack end)
              (regenerateLayoutConfig layout (omap createdComponent results))
              Hs1) as (s2 & Hs2 & Hc2 & _).
  destruct (composeScreen E sid _ _ _ w1) as [screenResult w2].
  cbn [snd] in Hs2.
  exists s2. rewrite Hc2.
  destruct (negb (ToolResult.success screenResult)); now split.
Qed.

(** C10: when the decision is a regeneration with specifications, runAgent
    empties the unit mapping and the composition of the session before the
    batch runs: the batch and the report start from a world in which the
    session has no unit and no composition, and every unit the session
    holds afterwards was generated by this call, whatever it held before.
    If every generation fails, the call reports the failure and the session
    is left, and reported, with no unit and no composition. *)
Theorem regeneration_clears_first (E : Env) (R : Reasoning) (prompt : string)
    (sessionId : option string) (gen : nat -> GenOutcome) (sched : list nat)
    (w : World) (d : AgentDecision) :
  (exists s0, names w sessionId s0) \/ namesNone w sessionId ->
  decisionOf E R prompt sessionId w = Returned d ->
  action d = REGENERATE_SCREEN ->
  absentOrEmpty (regenerateSpecs d) = false ->
  let specs := orNil (regenerateSpecs d) in
  let session := sessionOf E sessionId w in
  let res := fst (runAgent E R prompt sessionId gen sched w) in
  let w' := snd (runAgent E R prompt sessionId gen sched w) in
  (exists cleared s,
     getSession cleared (SessionState.id session) = Some s
     /\ SessionState.components s = []
     /\ SessionState.screen s = None
     /\ runAgent E R prompt sessionId gen sched w
        = regenerationPhase E session prompt d gen sched cleared)
  /\ exists s',
       getSession w' (SessionState.id session) = Some s'
       /\ Forall (fun c => In (unitContent c) (generated specs gen))
            (JsMap.values (SessionState.components s'))
       /\ (generated specs gen = [] ->
           AgentResult.success res = false
           /\ AgentResult.error res = Some "Failed to create any components"
           /\ SessionState.components s' = []
           /\ SessionState.screen s' = None
           /\ AgentResult.session res = serializeSession s').
Proof.
  intros Hcase Hd Hact Hspecs specs session res w'. subst session res w'.
  assert (Hsteps :
    runAgent E R prompt sessionId gen sched w
    = regenerationPhase E (sessionOf E sessionId w) prompt d gen sched
        (snd (clearForRegeneration (sessionOf E sessionId w)
                (promptLogged E prompt sessionId w)))).
  { rewrite runAgent_steps. cbn zeta. rewrite Hd, Hact, Hspecs. reflexivity. }
  rewrite Hsteps. unfold regenerationPhase. fold specs.
  destruct (promptLogged_session E prompt sessionId w Hcase)
    as (s2 & stamp & Hs2 & Hid2 & _ & _ & _).
  set (s1 := sessionOf E sessionId w) in *.
  set (w2 := promptLogged E prompt sessionId w) in *.
  set (s3 := SessionState.setScreen (SessionState.setComponents s2 []) None).
  assert (Hs3 : getSession (snd (clearForRegeneration s1 w2))
                  (SessionState.id s1) = Some s3).
  { unfold clearForRegeneration, live. rewrite Hs2. unfold getSession. cbn.
    apply lookup_insert_eq. }
  set (w3 := snd (clearForRegeneration s1 w2)) in *.
  destruct (executeRegenerate_units E (SessionState.id s1) specs (layout d)
              gen sched w3 s3
              (fun c => In (unitContent c) (generated specs gen)) Hs3)
    as (s4 & Hs4 & HP4); [constructor | auto |].
  split; [exists w3, s3; now repeat split |].
  destruct (generated specs gen) as [| g gs] eqn:Hg.
  - (* every generation fails *)
    rewrite (executeRegenerate_all_fail E (SessionState.id s1) specs
               (layout d) gen sched w3) in * by eauto.
    cbn [fst snd RegenerateResult.error truthyString String.eqb Ascii.eqb
         Bool.eqb] in *.
    exists s3. split; [exact Hs3 |]. split; [constructor |].
    intros _. unfold failure, live. rewrite Hs3. now cbn.
  - destruct (truthyString
                (RegenerateResult.error
                   (fst (executeRegenerate E (SessionState.id s1) specs
                           (layout d) gen sched w3)))).
    + cbn [snd]. exists s4. split; [exact Hs4 |]. split; [exact HP4 |].
      discriminate.
    + destruct (recordDecision_frame E s1 prompt d _ s4 Hs4)
        as (s5 & Hs5 & Hc5 & _).
      exists s5. split; [exact Hs5 |]. rewrite Hc5.
      split; [exact HP4 | discriminate].
Qed.

Lemma regeneration_clears_first_witness :
  let sid := SessionState.id pageSession in
  let out := runAgent demoEnv scratchReasoning "start from scratch"
               (Some sid) allFail [] pageWorld in
  AgentResult.success (fst out) = false
  /\ exists s', getSession (snd out) sid = Some s'
                /\ SessionState.components s' = []
                /\ SessionState.screen s' = None.
Proof.
  destruct (regeneration_clears_first demoEnv scratchReasoning
              "start from scratch" (Some (SessionState.id pageSession))
              allFail [] pageWorld scratchDecision)
    as (_ & s' & Hs' & _ & Hfail).
  - left. exists pageSession, (SessionState.id pageSession).
    split; [reflexivity |]. split; [discriminate |]. split; reflexivity.
  - vm_compute. reflexivity.
  - reflexivity.
  - reflexivity.
  - destruct (Hfail eq_refl) as (Hr & _ & Hc & Hsc & _).
    split; [exact Hr |]. exists s'. split; [exact Hs' |].
    split; [exact Hc | exact Hsc].
Defined.

(** ** The decision context *)

Lemma sliceLast_length {A} n (l : list A) :
  List.length (Js.sliceLast n l) <= n.
Proof. unfold Js.sliceLast. rewrite length_skipn. lia. Qed.

Lemma sliceLast_sliceLast {A} n m (l : list A) :
  n <= m -> Js.sliceLast n (Js.sliceLast m l) = Js.sliceLast n l.
Proof.
  intros Hnm. unfold Js.sliceLast. rewrite length_skipn, skipn_skipn.
  f_equal. lia.
Qed.

Lemma sliceLast_map {A B} (f : A -> B) n (l : list A) :
  Js.sliceLast n (map f l) = map f (Js.sliceLast n l).
Proof. unfold Js.sliceLast. now rewrite length_map, skipn_map. Qed.

(** The conversation shown to the reasoning service is made of the last six
    messages of the log, at most. *)
Lemma decision_context_conversation (msgs : list Message.t) :
  let shown := map (fun m => (Message.role m, Message.content m))
                 (Js.sliceLast 6 msgs) in
  conversationSection
    (map (fun m => (Message.role m, Message.content m))
         (Js.sliceLast 10 msgs))
  = (if 0 <? List.length msgs
     then nl +:+ "## RECENT CONVERSATION" +:+ nl
          +:+ Js.join nl (map messageLine shown) +:+ nl
     else "")
  /\ List.length shown <= 6.
Proof.
  cbn zeta. split; [| rewrite length_map; apply sliceLast_length].
  unfold conversationSection.
  rewrite sliceLast_map, sliceLast_sliceLast by lia.
  rewrite length_map. unfold Js.sliceLast. rewrite length_skipn.
  destruct msgs as [| m msgs]; [reflexivity |].
  cbn [List.length].
  replace (0 <? S (List.length msgs) - (S (List.length msgs) - 10))
    with true by (symmetry; apply Nat.ltb_lt; lia).
  reflexivity.
Qed.

Lemma JsMap_get_map {V} (f : V -> V) k (m : list (string * V)) :
  JsMap.get k (map (fun kv => (fst kv, f (snd kv))) m)
  = option_map f (JsMap.get k m).
Proof.
  induction m as [| [k0 v0] m IH]; cbn; [reflexivity |].
  destruct (String.eqb k0 k); [reflexivity | exact IH].
Qed.

Lemma imap_componentLine_withoutBody (cs : list Component.t) :
  forall (k : nat),
    imap (fun i => componentLine (k + i)) (map withoutBody cs)
    = imap (fun i => componentLine (k + i)) cs.
Proof.
  induction cs as [| c cs IH]; intros k; [reflexivity |].
  cbn [map]. rewrite !imap_cons. f_equal.
  specialize (IH (S k)).
  erewrite (imap_ext _ (fun i => componentLine (S k + i)) (map withoutBody cs))
    by (intros; cbn; f_equal; lia).
  erewrite (imap_ext _ (fun i => componentLine (S k + i)) cs)
    by (intros; cbn; f_equal; lia).
  exact IH.
Qed.

(** The bodies of the units are not in the decision context: it is the same
    when they are erased. *)
Lemma decision_context_without_bodies session prompt :
  decisionContext (withoutBodies session) prompt
  = decisionContext session prompt.
Proof.
  unfold decisionContext, withoutBodies. cbn [SessionState.setComponents
    SessionState.components SessionState.messages].
  assert (Hv : JsMap.values
                 (map (fun kc => (fst kc, withoutBody (snd kc)))
                      (SessionState.components session))
               = map withoutBody
                   (JsMap.values (SessionState.components session))).
  { unfold JsMap.values. rewrite !map_map. reflexivity. }
  assert (Hn : screenOrderNames
                 (SessionState.setComponents session
                    (map (fun kc => (fst kc, withoutBody (snd kc)))
                         (SessionState.components session)))
               = screenOrderNames session).
  { unfold screenOrderNames. cbn.
    destruct (SessionState.screen session) as [sc |]; [| reflexivity].
    apply map_ext. intros id. rewrite JsMap_get_map.
    now destruct (JsMap.get id (SessionState.components session)). }
  rewrite Hv, Hn. unfold formatStateForDecision, stateSection.
  rewrite !length_map.
  assert (Hl : imap componentLine
                 (map withoutBody
                    (JsMap.values (SessionState.components session)))
               = imap componentLine
                   (JsMap.values (SessionState.components session)))
    by exact (imap_componentLine_withoutBody _ 0).
  now rewrite Hl.
Qed.

(** The decision context does not depend on the layout tag of the
    composition. *)
Lemma decisionContext_withLayout session l prompt :
  decisionContext (withLayout session l) prompt
  = decisionContext session prompt.
Proof.
  unfold decisionContext, withLayout, screenOrderNames. cbn.
  now destruct (SessionState.screen session).
Qed.

Lemma startsWith_append s t kw :
  Js.startsWith s kw = true -> Js.startsWith (s +:+ t) kw = true.
Proof.
  revert kw. induction s as [| c s IH]; intros [| k kw] H.
  - now destruct t.
  - discriminate H.
  - reflexivity.
  - cbn in *. apply andb_true_iff in H as [Hc H].
    apply andb_true_iff. split; [exact Hc | now apply IH].
Qed.

Lemma includes_unfold s kw :
  Js.includes s kw
  = Js.startsWith s kw
    || match s with
       | EmptyString => false
       | String _ r => Js.includes r kw
       end.
Proof. now destruct s. Qed.

Lemma includes_append s t kw :
  Js.includes s kw = true -> Js.includes (s +:+ t) kw = true.
Proof.
  induction s as [| c s IH]; intros H.
  - destruct kw; [| discriminate H]. now destruct t.
  - rewrite includes_unfold in H.
    change (String c s +:+ t) with (String c (s +:+ t)).
    rewrite includes_unfold.
    apply orb_true_iff in H as [H | H].
    + pose proof (startsWith_append (String c s) t kw H) as H'.
      change (String c s +:+ t) with (String c (s +:+ t)) in H'.
      now rewrite H'.
    + rewrite (IH H). apply orb_true_r.
Qed.

Lemma includes_skip p s kw :
  Js.includes s kw = true -> Js.includes (p +:+ s) kw = true.
Proof.
  intros H. induction p as [| c p IH]; [exact H |].
  change (String c p +:+ s) with (String c (p +:+ s)).
  rewrite includes_unfold, IH. apply orb_true_r.
Qed.

(** For every session that has units, the context tells the reasoning
    service that the layout is the stack. *)
Lemma decision_context_says_stack session prompt :
  SessionState.components session <> [] ->
  Js.includes (decisionContext session prompt) (layoutLine stack) = true.
Proof.
  intros Hne. unfold decisionContext, formatStateForDecision.
  apply includes_append. unfold stateSection.
  replace (0 <? List.length (JsMap.values (SessionState.components session)))
    with true.
  2:{ symmetry. apply Nat.ltb_lt. unfold JsMap.values. rewrite length_map.
      destruct (SessionState.components session); [congruence | cbn; lia]. }
  repeat match goal with
         | |- Js.includes (?p +:+ _) _ = true =>
             lazymatch p with
             | "CURRENT LAYOUT: " => fail
             | _ => apply includes_skip
             end
         end.
  reflexivity.
Qed.

(** C9 on the code: whatever the layout of the composition, the context
    built for the reasoning service is the same, and for a session with
    units it says that the layout is the linear stack.  For the page, whose
    layout is the grid of two, the context holds the layout line of the
    stack and no line for its own layout. *)
Theorem decision_context_layout_line :
  (forall session l prompt,
     decisionContext (withLayout session l) prompt
     = decisionContext session prompt)
  /\ option_map Screen.layout (SessionState.screen pageSession) = Some grid_2
  /\ Js.includes (decisionContext pageSession "make the header darker")
       (layoutLine stack) = true
  /\ Js.includes (decisionContext pageSession "make the header darker")
       (layoutLine grid_2) = false.
Proof.
  split; [exact decisionContext_withLayout |].
  vm_compute. repeat split.
Qed.

(* ===================================================================== *)
(** * Properties of the rest of the code *)
(* ===================================================================== *)

(** ** The unit mapping as a JS Map *)

Lemma JsMap_keys_set {V} k (v : V) m :
  keysOf (JsMap.set k v m)
  = if JsMap.has k m then keysOf m else keysOf m ++ [k].
Proof.
  unfold JsMap.has, keysOf. induction m as [| [k0 v0] m IH]; cbn;
    [reflexivity |].
  destruct (String.eqb k0 k) eqn:E'; cbn.
  - apply String.eqb_eq in E'. now subst.
  - rewrite IH. now destruct (JsMap.get k m).
Qed.

Lemma JsMap_has_keys {V} k (m : list (string * V)) :
  JsMap.has k m = Js.arrIncludes (keysOf m) k.
Proof.
  unfold JsMap.has, Js.arrIncludes, keysOf.
  induction m as [| [k0 v0] m IH]; cbn; [reflexivity |].
  rewrite (String.eqb_sym k k0).
  destruct (String.eqb k0 k); [reflexivity | exact IH].
Qed.

Lemma arrIncludes_app xs ys k :
  Js.arrIncludes (xs ++ ys) k = Js.arrIncludes xs k || Js.arrIncludes ys k.
Proof. unfold Js.arrIncludes. apply existsb_app. Qed.

Lemma distinctKeys_snoc ks k :
  distinctKeys ks = true -> Js.arrIncludes ks k = false ->
  distinctKeys (ks ++ [k]) = true.
Proof.
  induction ks as [| a ks IH]; cbn; [reflexivity |].
  intros H Hk. apply andb_true_iff in H as [Ha Hd].
  apply orb_false_iff in Hk as [Hak Hk].
  rewrite arrIncludes_app. cbn. rewrite orb_false_r.
  apply negb_true_iff in Ha. rewrite Ha, String.eqb_sym, Hak. cbn.
  now apply IH.
Qed.

Lemma distinctKeys_set {V} k (v : V) m :
  distinctKeys (keysOf m) = true ->
  distinctKeys (keysOf (JsMap.set k v m)) = true.
Proof.
  intros H. rewrite JsMap_keys_set.
  destruct (JsMap.has k m) eqn:Hk; [exact H |].
  apply distinctKeys_snoc; [exact H | now rewrite <- JsMap_has_keys].
Qed.

Lemma keyedById_set c m :
  keyedById m = true -> keyedById (JsMap.set (Component.id c) c m) = true.
Proof.
  unfold keyedById. induction m as [| [k0 v0] m IH]; cbn.
  - now rewrite String.eqb_refl.
  - intros H. apply andb_true_iff in H as [H0 H].
    destruct (String.eqb k0 (Component.id c)); cbn.
    + now rewrite String.eqb_refl.
    + now rewrite H0, IH.
Qed.

Lemma keyedById_get m k c :
  keyedById m = true -> JsMap.get k m = Some c -> Component.id c = k.
Proof.
  unfold keyedById. induction m as [| [k0 v0] m IH]; cbn; [discriminate |].
  intros H Hg. apply andb_true_iff in H as [H0 H].
  destruct (String.eqb k0 k) eqn:E'.
  - injection Hg as <-. apply String.eqb_eq in H0, E'. cbn in H0. congruence.
  - now apply IH.
Qed.

Lemma keyedById_values m c :
  keyedById m = true -> In c (JsMap.values m) ->
  JsMap.has (Component.id c) m = true.
Proof.
  unfold keyedById, JsMap.values, JsMap.has.
  induction m as [| [k0 v0] m IH]; cbn; [tauto |].
  intros H [<- | Hin]; apply andb_true_iff in H as [H0 H].
  - cbn in H0. apply String.eqb_eq in H0. rewrite H0.
    now rewrite String.eqb_refl.
  - destruct (String.eqb k0 (Component.id c)); [reflexivity | now apply IH].
Qed.

Lemma allExist_set ids k c m :
  allExist m ids = true -> allExist (JsMap.set k c m) ids = true.
Proof.
  unfold allExist. rewrite !forallb_forall. intros H id Hin.
  apply JsMap_has_set. now apply H.
Qed.

Lemma configOk_set cfg k c m :
  configOk m cfg = true -> configOk (JsMap.set k c m) cfg = true.
Proof.
  destruct cfg as [[sb hd ft mn] |]; [| reflexivity]. cbn.
  intros H. apply andb_true_iff in H as [H Hf].
  apply andb_true_iff in H as [Hs Hh].
  assert (Hb : forall b, bindingOk m b = true ->
                         bindingOk (JsMap.set k c m) b = true).
  { intros [id |] Hb; [now apply JsMap_has_set | reflexivity]. }
  now rewrite (Hb _ Hs), (Hb _ Hh), (Hb _ Hf).
Qed.

Lemma screenOk_set sc k c m :
  screenOk m sc = true -> screenOk (JsMap.set k c m) sc = true.
Proof.
  destruct sc as [sc |]; [| reflexivity]. cbn. intros H.
  apply andb_true_iff in H as [Ha Hc].
  now rewrite allExist_set, configOk_set.
Qed.

(** ** Well-formed stores *)

Lemma sessionOk_parts sid s :
  sessionOk sid s = true
  <-> SessionState.id s = sid
      /\ keyedById (SessionState.components s) = true
      /\ distinctKeys (keysOf (SessionState.components s)) = true
      /\ screenOk (SessionState.components s) (SessionState.screen s) = true.
Proof.
  unfold sessionOk. rewrite !andb_true_iff, String.eqb_eq. tauto.
Qed.

Lemma sessionOk_upsert sid s c now :
  sessionOk sid s = true -> sessionOk sid (upsertInto s c now) = true.
Proof.
  rewrite !sessionOk_parts. cbn. intros (Hid & Hk & Hd & Hs).
  split; [exact Hid |]. split; [now apply keyedById_set |].
  split; [now apply distinctKeys_set | now apply screenOk_set].
Qed.

Lemma sessionOk_setScreen sid s sc now :
  sessionOk sid s = true ->
  screenOk (SessionState.components s) sc = true ->
  sessionOk sid (SessionState.setLastActivityAt (SessionState.setScreen s sc) now)
  = true.
Proof.
  rewrite !sessionOk_parts. intros (Hid & Hk & Hd & _) Hsc.
  split; [exact Hid |]. split; [exact Hk |]. split; [exact Hd | exact Hsc].
Qed.

Lemma storeOk_put w sid s :
  storeOk w -> sessionOk sid s = true ->
  storeOk {| sessions := <[sid := s]> (sessions w);
             datesRead := datesRead w; uuidsDrawn := uuidsDrawn w |}.
Proof. intros Hw Hs. unfold storeOk. cbn. now apply map_Forall_insert_2. Qed.

Lemma storeOk_sessions w w' :
  sessions w' = sessions w -> storeOk w -> storeOk w'.
Proof. unfold storeOk. now intros ->. Qed.

Lemma storeOk_lookup w sid s :
  storeOk w -> getSession w sid = Some s -> sessionOk sid s = true.
Proof. intros Hw Hs. exact (Hw sid s Hs). Qed.

Lemma storeOk_modify w w' sid s :
  storeOk w -> sessions w' = <[sid := s]> (sessions w) ->
  sessionOk sid s = true -> storeOk w'.
Proof.
  intros Hw Hs' Hok. unfold storeOk. rewrite Hs'.
  now apply map_Forall_insert_2.
Qed.

(** ** What one tool call does to the store *)

(** A call that settles either leaves the sessions as they are and, unless
    it had returned already, fails; or it stores one unit in the session it
    works on and returns it. *)
Lemma resume_effect E p w :
  let r := fst (resume E p w) in
  let w' := snd (resume E p w) in
  (sessions w' = sessions w
   /\ (forall c, createdComponent r = Some c -> p = Settled r))
  \/ (exists sid s c now,
        targets sid p
        /\ p <> Settled r
        /\ getSession w sid = Some s
        /\ mayStore E p c
        /\ sessions w' = <[sid := upsertInto s c now]> (sessions w)
        /\ r = ToolResult.ok (DataComponent c)).
Proof.
  destruct p as [r0 | sid n d [m | h ud] | sid ex [m | h ud]]; cbn zeta.
  - left. split; [reflexivity |]. now intros.
  - left. split; [reflexivity |]. intros c Hc. discriminate Hc.
  - destruct (getSession w sid) as [s |] eqn:Hs.
    + right. rewrite (resume_create_ok E sid n d h ud w s Hs). cbn [fst snd].
      eexists sid, s, _, _. split; [reflexivity |]. split; [discriminate |].
      split; [exact Hs |]. split; [| split; reflexivity].
      cbn. split; [reflexivity | eauto].
    + left. unfold getSession in Hs. cbn. unfold bind, drawUuid, newDate,
        upsertComponent. cbn. rewrite Hs. cbn.
      split; [reflexivity |]. intros c Hc. discriminate Hc.
  - left. split; [reflexivity |]. intros c Hc. discriminate Hc.
  - destruct (getSession w sid) as [s |] eqn:Hs.
    + right. rewrite (resume_update_ok E sid ex h ud w s Hs). cbn [fst snd].
      eexists sid, s, _, _. split; [reflexivity |]. split; [discriminate |].
      split; [exact Hs |]. split; [| split; reflexivity].
      cbn. now split.
    + left. unfold getSession in Hs. cbn. unfold bind, newDate,
        upsertComponent. cbn. rewrite Hs. cbn.
      split; [reflexivity |]. intros c Hc. discriminate Hc.
Qed.

Lemma targets_same E p w sid sid' :
  targets sid p -> targets sid' p -> p <> Settled (fst (resume E p w)) ->
  sid' = sid.
Proof.
  destruct p as [r0 | ? ? ? ? | ? ? ?]; cbn; intros H1 H2 Hne;
    [now destruct Hne | congruence | congruence].
Qed.

Lemma resume_storeOk E p w : storeOk w -> storeOk (snd (resume E p w)).
Proof.
  intros Hw.
  destruct (resume_effect E p w)
    as [[Hsame _] | (sid & s & c & now & _ & _ & Hs & _ & Hput & _)].
  - exact (storeOk_sessions _ _ Hsame Hw).
  - apply (storeOk_modify w _ sid _ Hw Hput).
    apply sessionOk_upsert. exact (storeOk_lookup w sid s Hw Hs).
Qed.

Lemma resume_sessionHas E p w sid (F : SessionState.t -> Prop) :
  (forall s c now, F s -> mayStore E p c -> F (upsertInto s c now)) ->
  sessionHas sid F w -> sessionHas sid F (snd (resume E p w)).
Proof.
  intros Hclosed (s & Hs & HF). unfold sessionHas, getSession in *.
  destruct (resume_effect E p w)
    as [[Hsame _] | (sid' & s' & c & now & _ & _ & Hs' & Hc & Hput & _)].
  - rewrite Hsame. eauto.
  - rewrite Hput. unfold getSession in Hs'.
    destruct (decide (sid' = sid)) as [-> | Hne].
    + rewrite lookup_insert_eq. rewrite Hs in Hs'. injection Hs' as <-.
      eauto.
    + rewrite lookup_insert_ne by exact Hne. eauto.
Qed.

Lemma resume_others E p w sid :
  targets sid p -> othersUnchanged sid w (snd (resume E p w)).
Proof.
  intros Ht other Hne. unfold getSession.
  destruct (resume_effect E p w)
    as [[Hsame _] | (sid' & s' & c & now & Ht' & Hns & _ & _ & Hput & _)].
  - now rewrite Hsame.
  - rewrite Hput. apply lookup_insert_ne.
    rewrite (targets_same E p w sid sid' Ht Ht' Hns). congruence.
Qed.

(** ** What a batch does to the store *)

Lemma settleAll_storeOk E ps sched w :
  storeOk w -> storeOk (snd (settleAll E ps sched w)).
Proof.
  intros Hw.
  apply (settleAll_rule E ps storeOk (fun _ _ _ => True)); auto.
  intros i p w1 _ H1. split; [now apply resume_storeOk | exact Logic.I].
Qed.

Lemma settleAll_sessionHas E ps sched w sid (F : SessionState.t -> Prop) :
  (forall i p, ps !! i = Some p ->
     forall s c now, F s -> mayStore E p c -> F (upsertInto s c now)) ->
  sessionHas sid F w -> sessionHas sid F (snd (settleAll E ps sched w)).
Proof.
  intros Hclosed Hw.
  apply (settleAll_rule E ps (sessionHas sid F) (fun _ _ _ => True)); auto.
  intros i p w1 Hp H1. split; [| exact Logic.I].
  apply resume_sessionHas; [exact (Hclosed i p Hp) | exact H1].
Qed.

Lemma settleAll_others E ps sched w sid :
  (forall i p, ps !! i = Some p -> targets sid p) ->
  othersUnchanged sid w (snd (settleAll E ps sched w)).
Proof.
  intros Ht.
  apply (settleAll_rule E ps (othersUnchanged sid w) (fun _ _ _ => True));
    auto.
  - intros i p w1 Hp H1. split; [| exact Logic.I].
    intros other Hne.
    rewrite (resume_others E p w1 sid (Ht i p Hp) other Hne).
    now apply H1.
  - now intros other Hne.
Qed.

(** Every unit a batch returns as created is in the mapping of the session
    its call works on. *)
Lemma settleAll_created_stored E ps sched w sid :
  (forall i p, ps !! i = Some p ->
     targets sid p /\ forall r, p = Settled r -> ToolResult.success r = false) ->
  Forall (stored (snd (settleAll E ps sched w)) sid)
    (omap createdComponent (fst (settleAll E ps sched w))).
Proof.
  intros Hps.
  destruct (settleAll_rule E ps (fun _ => True)
              (fun _ r w1 => forall c, createdComponent r = Some c ->
                                       stored w1 sid c)) with (sched := sched)
              (w := w) as [_ HF].
  - intros i p w1 Hp _. split; [exact Logic.I |]. intros c Hc.
    destruct (Hps i p Hp) as [Ht Hfail].
    destruct (resume_effect E p w1)
      as [[_ Hnone] | (sid' & s & c' & now & Ht' & Hns & Hs & _ & Hput & Hr)].
    + specialize (Hnone c Hc). specialize (Hfail _ Hnone).
      unfold createdComponent in Hc. rewrite Hfail in Hc. discriminate Hc.
    + rewrite Hr in Hc. cbn in Hc. injection Hc as <-.
      assert (sid' = sid) as -> by exact (targets_same E p w1 sid sid' Ht Ht' Hns).
      unfold stored, getSession. rewrite Hput, lookup_insert_eq.
      eexists. split; [reflexivity |]. cbn. apply JsMap_has_set_eq.
  - intros i p w1 q r _ _ Hq c Hc. apply resume_stored. now apply Hq.
  - exact Logic.I.
  - set (w' := snd (settleAll E ps sched w)) in *.
    set (results := fst (settleAll E ps sched w)) in *.
    clearbody w' results. clear Hps.
    induction HF as [| p r ps' rs Hr HF IH]; [constructor |].
    cbn. destruct (createdComponent r) as [c |] eqn:Hc; [| exact IH].
    constructor; [now apply Hr | exact IH].
Qed.

(** ** executeUpdate, step by step *)

Lemma executeUpdate_steps E sid d gen sched w :
  executeUpdate E sid d gen sched w
  = match getSession w sid with
    | None => (Some "Session not found", w)
    | Some session =>
        let out := settleAll E (updateOps w sid d gen ++ createOps w sid d gen)
                     sched w in
        let w' := snd out in
        let news := updateCreated w sid d gen (fst out) in
        let session' := match getSession w' sid with
                        | Some s => s
                        | None => session
                        end in
        match updateComposition w' sid d session' news with
        | Some ids =>
            (None,
             snd (composeScreen E sid ids
                    (Some (updateLayoutType d session'))
                    (updateLayoutConfig d session'
                       (JsMap.values (SessionState.components session')
                        ++ news)) w'))
        | None => (None, w')
        end
    end.
Proof.
  unfold executeUpdate. destruct (getSession w sid) as [session |];
    [| reflexivity].
  unfold bind. fold (updateTargets w sid d). fold (updateOps w sid d gen).
  fold (createOps w sid d gen).
  destruct (settleAll E (updateOps w sid d gen ++ createOps w sid d gen)
              sched w) as [results w'].
  cbn [fst snd]. cbn zeta. fold (updateCreated w sid d gen results).
  set (news := updateCreated w sid d gen results).
  set (session' := match getSession w' sid with
                   | Some s => s
                   | None => session
                   end).
  unfold updateComposition, updateLayoutType, updateLayoutConfig,
    updateBinding, currentConfig.
  fold (updateOrder w' sid d news).
  destruct (negb (absentOrEmpty (screenOrder d))).
  - destruct (0 <? List.length (updateOrder w' sid d news)); [| reflexivity].
    now destruct (composeScreen E sid _ _ _ w').
  - destruct news as [| c news'], (SessionState.screen session') as [sc |];
      try reflexivity.
    + destruct (layout d); [| reflexivity].
      now destruct (composeScreen E sid _ _ _ w').
    + now destruct (composeScreen E sid _ _ _ w').
    + now destruct (composeScreen E sid _ _ _ w').
Qed.

Lemma updateOps_lookup w sid d gen i p :
  updateOps w sid d gen !! i = Some p ->
  (exists m, p = Settled (ToolResult.fail m))
  \/ (exists cid existing out,
        p = AwaitUpdate sid existing out
        /\ getComponent w sid cid = Some existing).
Proof.
  unfold updateOps. rewrite list_lookup_imap.
  destruct (updateTargets w sid d !! i) as [[cid change] |]; [| discriminate].
  cbn. intros H. injection H as <-. unfold updateComponentStart.
  destruct (getComponent w sid cid) as [existing |] eqn:Hg; eauto 7.
Qed.

Lemma createOps_lookup w sid d gen i p :
  createOps w sid d gen !! i = Some p ->
  exists spec out,
    p = AwaitCreate sid (name spec) (description spec) out
    /\ orNil (newComponents d) !! i = Some spec.
Proof.
  unfold createOps. rewrite list_lookup_imap.
  destruct (orNil (newComponents d) !! i) as [spec |]; [| discriminate].
  cbn. intros H. injection H as <-. eauto.
Qed.

Lemma updateBatch_lookup E w sid d gen i p :
  (updateOps w sid d gen ++ createOps w sid d gen) !! i = Some p ->
  targets sid p
  /\ (forall r, p = Settled r -> ToolResult.success r = false)
  /\ (forall c, mayStore E p c -> updateStores E w sid c).
Proof.
  intros H. apply lookup_app_Some in H as [H | [_ H]].
  - apply updateOps_lookup in H
      as [[m ->] | (cid & existing & out & -> & Hg)]; cbn.
    + split; [exact Logic.I |]. split; [| tauto].
      intros r Hr. now injection Hr as <-.
    + split; [reflexivity |]. split; [discriminate |].
      intros c [Hid Hn]. right. eauto.
  - apply createOps_lookup in H as (spec & out & -> & _). cbn.
    split; [reflexivity |]. split; [discriminate |].
    intros c [_ Hk]. now left.
Qed.

Lemma composeScreen_sessionHas E sid' ids layout cfg w sid F :
  screenBlind F ->
  sessionHas sid F w ->
  sessionHas sid F (snd (composeScreen E sid' ids layout cfg w)).
Proof.
  intros Hblind (s & Hs & HF).
  destruct (getSession w sid') as [s' |] eqn:Hs'.
  - destruct (allExist (SessionState.components s') ids) eqn:Hall.
    + rewrite (composeScreen_known E w sid' s' ids layout cfg Hs' Hall).
      cbn [snd]. unfold sessionHas, getSession. cbn.
      destruct (decide (sid' = sid)) as [-> | Hne].
      * rewrite lookup_insert_eq. rewrite Hs in Hs'. injection Hs' as <-.
        eexists. split; [reflexivity |]. now apply Hblind.
      * rewrite lookup_insert_ne by exact Hne. now exists s.
    + destruct (composeScreen_unknown E w sid' s' ids layout cfg Hs' Hall)
        as (id & _ & _ & ->). now exists s.
  - rewrite (composeScreen_no_session E w sid' ids layout cfg Hs').
    now exists s.
Qed.

Lemma composeScreen_others E sid ids layout cfg w :
  othersUnchanged sid w (snd (composeScreen E sid ids layout cfg w)).
Proof.
  intros other Hne.
  destruct (getSession w sid) as [s |] eqn:Hs.
  - destruct (allExist (SessionState.components s) ids) eqn:Hall.
    + rewrite (composeScreen_known E w sid s ids layout cfg Hs Hall).
      unfold getSession. cbn. now apply lookup_insert_ne.
    + now destruct (composeScreen_unknown E w sid s ids layout cfg Hs Hall)
        as (id & _ & _ & ->).
  - now rewrite (composeScreen_no_session E w sid ids layout cfg Hs).
Qed.

Lemma composeScreen_storeOk E sid ids layout cfg w :
  storeOk w ->
  (forall s, getSession w sid = Some s ->
             configOk (SessionState.components s) cfg = true) ->
  storeOk (snd (composeScreen E sid ids layout cfg w)).
Proof.
  intros Hw Hcfg.
  destruct (getSession w sid) as [s |] eqn:Hs.
  - destruct (allExist (SessionState.components s) ids) eqn:Hall.
    + rewrite (composeScreen_known E w sid s ids layout cfg Hs Hall).
      cbn [snd]. eapply storeOk_modify; [exact Hw | reflexivity |].
      apply sessionOk_setScreen; [exact (storeOk_lookup w sid s Hw Hs) |].
      unfold screenOk. cbn [Screen.componentIds Screen.layoutConfig].
      now rewrite Hall, (Hcfg s eq_refl).
    + now destruct (composeScreen_unknown E w sid s ids layout cfg Hs Hall)
        as (id & _ & _ & ->).
  - now rewrite (composeScreen_no_session E w sid ids layout cfg Hs).
Qed.

Lemma resolveComponentIdFromList_In cs n id :
  resolveComponentIdFromList cs n = Some id ->
  exists c, In c cs /\ Component.id c = id
            /\ Js.toLowerCase (Component.name c) = Js.toLowerCase n.
Proof.
  unfold resolveComponentIdFromList.
  destruct (List.find _ cs) as [c |] eqn:Hf; [| discriminate].
  cbn. intros H. injection H as <-. apply find_some in Hf as [Hin Heq].
  apply String.eqb_eq in Heq. eauto.
Qed.

Lemma executeUpdate_no_session E sid d gen sched w :
  getSession w sid = None ->
  executeUpdate E sid d gen sched w = (Some "Session not found", w).
Proof. intros H. rewrite executeUpdate_steps. now rewrite H. Qed.

Lemma executeUpdate_no_error E sid d gen sched w :
  is_Some (getSession w sid) ->
  fst (executeUpdate E sid d gen sched w) = None.
Proof.
  intros [s Hs]. rewrite executeUpdate_steps, Hs. cbn zeta.
  now destruct (updateComposition _ _ _ _ _).
Qed.

Lemma executeUpdate_sessionHas E sid d gen sched w F :
  (forall s c now, F s -> updateStores E w sid c -> F (upsertInto s c now)) ->
  screenBlind F ->
  sessionHas sid F w ->
  sessionHas sid F (snd (executeUpdate E sid d gen sched w)).
Proof.
  intros Hclosed Hblind Hw. rewrite executeUpdate_steps.
  destruct (getSession w sid) as [session |]; [| exact Hw]. cbn zeta.
  assert (Hbatch : sessionHas sid F
                     (snd (settleAll E (updateOps w sid d gen
                                        ++ createOps w sid d gen) sched w))).
  { apply settleAll_sessionHas; [| exact Hw].
    intros i p Hp s c now HF Hc. apply Hclosed; [exact HF |].
    now apply (updateBatch_lookup E w sid d gen i p Hp). }
  destruct (updateComposition _ _ _ _ _); cbn [snd]; [| exact Hbatch].
  now apply composeScreen_sessionHas.
Qed.

Lemma executeUpdate_others E sid d gen sched w :
  othersUnchanged sid w (snd (executeUpdate E sid d gen sched w)).
Proof.
  rewrite executeUpdate_steps.
  destruct (getSession w sid) as [session |]; [| now intros other Hne].
  cbn zeta.
  assert (Hbatch : othersUnchanged sid w
                     (snd (settleAll E (updateOps w sid d gen
                                        ++ createOps w sid d gen) sched w))).
  { apply settleAll_others. intros i p Hp.
    now apply (updateBatch_lookup E w sid d gen i p Hp). }
  destruct (updateComposition _ _ _ _ _); cbn [snd]; [| exact Hbatch].
  intros other Hne. rewrite composeScreen_others by exact Hne.
  now apply Hbatch.
Qed.

Lemma updateBinding_ok s all ref kept :
  (forall c, In c all ->
     JsMap.has (Component.id c) (SessionState.components s) = true) ->
  (forall cfg, currentConfig s = Some cfg ->
     bindingOk (SessionState.components s) (kept cfg) = true) ->
  bindingOk (SessionState.components s) (updateBinding s all ref kept) = true.
Proof.
  intros Hall Hkept. unfold updateBinding.
  destruct (truthyString ref) as [n |].
  - destruct (resolveComponentIdFromList all n) as [id |] eqn:Hr;
      [| reflexivity].
    apply resolveComponentIdFromList_In in Hr as (c & Hin & <- & _).
    cbn. now apply Hall.
  - destruct (currentConfig s) as [cfg |]; [now apply Hkept | reflexivity].
Qed.

Lemma updateLayoutConfig_ok sid d s news :
  sessionOk sid s = true ->
  Forall (fun c => JsMap.has (Component.id c) (SessionState.components s)
                   = true) news ->
  configOk (SessionState.components s)
    (updateLayoutConfig d s (JsMap.values (SessionState.components s) ++ news))
  = true.
Proof.
  intros Hok Hnews. apply sessionOk_parts in Hok as (_ & Hk & _ & Hsc).
  assert (Hcur : configOk (SessionState.components s) (currentConfig s) = true).
  { unfold currentConfig. unfold screenOk in Hsc.
    destruct (SessionState.screen s) as [sc |]; [| reflexivity].
    now apply andb_true_iff in Hsc as [_ Hc]. }
  assert (Hall : forall c,
            In c (JsMap.values (SessionState.components s) ++ news) ->
            JsMap.has (Component.id c) (SessionState.components s) = true).
  { intros c Hin. apply in_app_or in Hin as [Hin | Hin].
    - now apply keyedById_values.
    - rewrite Forall_forall in Hnews. apply Hnews.
      now apply list_elem_of_In. }
  unfold updateLayoutConfig. destruct (layout d) as [l |]; [| exact Hcur].
  cbn [configOk LayoutConfig.sidebarComponentId LayoutConfig.headerComponentId
       LayoutConfig.footerComponentId].
  rewrite !updateBinding_ok; try reflexivity; try exact Hall;
    intros cfg Hcfg; rewrite Hcfg in Hcur; cbn in Hcur;
    apply andb_true_iff in Hcur as [Hcur Hf];
    apply andb_true_iff in Hcur as [Hs Hh]; assumption.
Qed.

Lemma omap_skipn_Forall {A B} (f : A -> option B) (P : B -> Prop) n l :
  Forall P (omap f l) -> Forall P (omap f (skipn n l)).
Proof.
  intros H. rewrite <- (firstn_skipn n l) in H.
  rewrite omap_app in H. now apply Forall_app in H as [_ H].
Qed.

Lemma executeUpdate_storeOk E sid d gen sched w :
  storeOk w -> storeOk (snd (executeUpdate E sid d gen sched w)).
Proof.
  intros Hw. rewrite executeUpdate_steps.
  destruct (getSession w sid) as [session |]; [| exact Hw]. cbn zeta.
  pose proof (settleAll_storeOk E (updateOps w sid d gen
                                   ++ createOps w sid d gen) sched w Hw)
    as Hbatch.
  pose proof (settleAll_created_stored E
                (updateOps w sid d gen ++ createOps w sid d gen) sched w sid)
    as Hstored.
  destruct (settleAll E _ sched w) as [results w'] eqn:Hrun.
  cbn [fst snd] in *.
  destruct (updateComposition _ _ _ _ _); cbn [snd]; [| exact Hbatch].
  apply composeScreen_storeOk; [exact Hbatch |].
  intros s Hs. rewrite Hs.
  apply (updateLayoutConfig_ok sid); [exact (storeOk_lookup w' sid s Hbatch Hs) |].
  unfold updateCreated. apply omap_skipn_Forall.
  eapply Forall_impl; [apply Hstored |].
  - intros i p Hp.
    destruct (updateBatch_lookup E w sid d gen i p Hp) as (Ht & Hf & _).
    now split.
  - intros c (s' & Hs' & Hhas). cbn beta in *. rewrite Hs in Hs'.
    now injection Hs' as <-.
Qed.

(** ** The whole request keeps the store well formed *)

Lemma sessionOk_same sid s s' :
  SessionState.id s' = SessionState.id s ->
  SessionState.components s' = SessionState.components s ->
  SessionState.screen s' = SessionState.screen s ->
  sessionOk sid s = true -> sessionOk sid s' = true.
Proof. unfold sessionOk. now intros -> -> ->. Qed.

Lemma getOrCreateSession_storeOk E sessionId w :
  storeOk w ->
  storeOk (snd (getOrCreateSession E sessionId w))
  /\ getSession (snd (getOrCreateSession E sessionId w))
       (SessionState.id (fst (getOrCreateSession E sessionId w)))
     = Some (fst (getOrCreateSession E sessionId w)).
Proof.
  intros Hw.
  assert (Hnew : storeOk (snd (createSession E w))
                 /\ getSession (snd (createSession E w))
                      (SessionState.id (fst (createSession E w)))
                    = Some (fst (createSession E w))).
  { unfold createSession, bind, drawUuid, newDate, putSession, ret.
    cbn [fst snd SessionState.id]. split.
    - apply storeOk_put; [| apply sessionOk_parts; cbn; auto].
      eapply storeOk_sessions; [| exact Hw]. reflexivity.
    - unfold getSession. cbn. apply lookup_insert_eq. }
  unfold getOrCreateSession. destruct sessionId as [sid |]; [| exact Hnew].
  destruct (String.eqb sid ""); [exact Hnew |].
  destruct (sessions w !! sid) as [s |] eqn:Hs; [| exact Hnew].
  unfold bind, newDate, putSession, ret. cbn [fst snd].
  pose proof (storeOk_lookup w sid s Hw Hs) as Hok.
  split.
  - apply storeOk_put.
    + eapply storeOk_sessions; [| exact Hw]. reflexivity.
    + now apply (sessionOk_same sid s).
  - apply sessionOk_parts in Hok as [Hid _].
    unfold getSession. cbn. rewrite Hid. apply lookup_insert_eq.
Qed.

Lemma addMessage_storeOk E sid role content w :
  storeOk w -> storeOk (snd (addMessage E sid role content w)).
Proof.
  intros Hw. unfold addMessage.
  destruct (sessions w !! sid) as [s |] eqn:Hs; [| exact Hw].
  unfold bind, newDate, putSession, ret. cbn [fst snd].
  apply storeOk_put.
  - eapply storeOk_sessions; [| exact Hw]. reflexivity.
  - now apply (sessionOk_same sid s); [| | | apply (storeOk_lookup w)].
Qed.

Lemma addDecisionToHistory_storeOk E sid prompt d affected w :
  storeOk w ->
  storeOk (snd (addDecisionToHistory E sid prompt d affected w)).
Proof.
  intros Hw. unfold addDecisionToHistory.
  destruct (sessions w !! sid) as [s |] eqn:Hs; [| exact Hw].
  unfold bind, drawUuid, newDate, putSession, ret. cbn [fst snd].
  apply storeOk_put.
  - eapply storeOk_sessions; [| exact Hw]. reflexivity.
  - now apply (sessionOk_same sid s); [| | | apply (storeOk_lookup w)].
Qed.

Lemma recordDecision_storeOk E session prompt d w :
  storeOk w -> storeOk (snd (recordDecision E session prompt d w)).
Proof.
  intros Hw. unfold recordDecision, bind.
  pose proof (addMessage_storeOk E (SessionState.id session) assistant
                (formatAssistantResponse d) w Hw) as H1.
  destruct (addMessage E _ assistant _ w) as [m w1]. cbn [snd] in H1.
  pose proof (addDecisionToHistory_storeOk E (SessionState.id session) prompt
                d (getComponentsAffected d) w1 H1) as H2.
  destruct (addDecisionToHistory E _ prompt d _ w1) as [e w2].
  exact H2.
Qed.

Lemma live_id w session :
  storeOk w ->
  SessionState.id (live w session) = SessionState.id session.
Proof.
  intros Hw. unfold live.
  destruct (getSession w (SessionState.id session)) as [s |] eqn:Hs;
    [| reflexivity].
  now apply (storeOk_lookup w _ s Hw) in Hs as [Hid _]%sessionOk_parts.
Qed.

Lemma clearForRegeneration_storeOk session w :
  storeOk w -> storeOk (snd (clearForRegeneration session w)).
Proof.
  intros Hw. unfold clearForRegeneration, putSession. cbn [snd].
  apply storeOk_put.
  - eapply storeOk_sessions; [| exact Hw]. reflexivity.
  - apply sessionOk_parts. cbn. now rewrite live_id.
Qed.

Lemma regenerateLayoutConfig_ok comps layout created :
  Forall (fun c => JsMap.has (Component.id c) comps = true) created ->
  configOk comps (regenerateLayoutConfig layout created) = true.
Proof.
  intros Hc. unfold regenerateLayoutConfig.
  destruct layout as [l |]; [| reflexivity].
  assert (Hb : forall ref,
            bindingOk comps
              match truthyString ref with
              | Some n => resolveComponentIdFromList created n
              | None => None
              end = true).
  { intros ref. destruct (truthyString ref) as [n |]; [| reflexivity].
    destruct (resolveComponentIdFromList created n) as [id |] eqn:Hr;
      [| reflexivity].
    apply resolveComponentIdFromList_In in Hr as (c & Hin & <- & _).
    rewrite Forall_forall in Hc. cbn. apply Hc. now apply list_elem_of_In. }
  cbn. now rewrite !Hb.
Qed.

Lemma regenerateCalls_targets sid specs gen i p :
  regenerateCalls sid specs gen !! i = Some p ->
  targets sid p /\ forall r, p = Settled r -> ToolResult.success r = false.
Proof.
  intros (spec & _ & ->)%regenerateCalls_lookup. split; [reflexivity |].
  intros r Hr. discriminate Hr.
Qed.

Lemma executeRegenerate_steps E sid specs layout gen sched w :
  snd (executeRegenerate E sid specs layout gen sched w)
  = let out := settleAll E (regenerateCalls sid specs gen) sched w in
    let created := omap createdComponent (fst out) in
    if List.length created =? 0 then snd out
    else snd (composeScreen E sid (map Component.id created)
                (Some match layout with Some l => type l | None => stack end)
                (regenerateLayoutConfig layout created) (snd out)).
Proof.
  unfold executeRegenerate, bind. fold (regenerateCalls sid specs gen).
  destruct (settleAll E (regenerateCalls sid specs gen) sched w)
    as [results w']. cbn [fst snd].
  destruct (List.length (omap createdComponent results) =? 0); [reflexivity |].
  destruct (composeScreen E sid _ _ _ w') as [r w'']. cbn [fst snd].
  now destruct (negb (ToolResult.success r)).
Qed.

Lemma executeRegenerate_storeOk E sid specs layout gen sched w :
  storeOk w ->
  storeOk (snd (executeRegenerate E sid specs layout gen sched w)).
Proof.
  intros Hw. rewrite executeRegenerate_steps. cbn zeta.
  pose proof (settleAll_storeOk E (regenerateCalls sid specs gen) sched w Hw)
    as Hbatch.
  pose proof (settleAll_created_stored E (regenerateCalls sid specs gen)
                sched w sid (regenerateCalls_targets sid specs gen))
    as Hstored.
  destruct (settleAll E _ sched w) as [results w']. cbn [fst snd] in *.
  destruct (List.length (omap createdComponent results) =? 0);
    [exact Hbatch |].
  apply composeScreen_storeOk; [exact Hbatch |].
  intros s Hs. apply regenerateLayoutConfig_ok.
  eapply Forall_impl; [exact Hstored |].
  intros c (s' & Hs' & Hhas). cbn beta. rewrite Hs in Hs'.
  now injection Hs' as <-.
Qed.

Lemma executeRegenerate_sessionHas E sid specs layout gen sched w F :
  (forall s c now, F s -> F (upsertInto s c now)) ->
  screenBlind F ->
  sessionHas sid F w ->
  sessionHas sid F (snd (executeRegenerate E sid specs layout gen sched w)).
Proof.
  intros Hclosed Hblind Hw. rewrite executeRegenerate_steps. cbn zeta.
  assert (Hbatch : sessionHas sid F
                     (snd (settleAll E (regenerateCalls sid specs gen)
                             sched w))).
  { apply settleAll_sessionHas; [| exact Hw].
    intros i p _ s c now HF _. now apply Hclosed. }
  destruct (List.length _ =? 0); [exact Hbatch |].
  now apply composeScreen_sessionHas.
Qed.

Lemma executeRegenerate_others E sid specs layout gen sched w :
  othersUnchanged sid w
    (snd (executeRegenerate E sid specs layout gen sched w)).
Proof.
  rewrite executeRegenerate_steps. cbn zeta.
  assert (Hbatch : othersUnchanged sid w
                     (snd (settleAll E (regenerateCalls sid specs gen)
                             sched w))).
  { apply settleAll_others. intros i p Hp.
    now apply (regenerateCalls_targets sid specs gen i p). }
  destruct (List.length _ =? 0); [exact Hbatch |].
  intros other Hne. rewrite composeScreen_others by exact Hne.
  now apply Hbatch.
Qed.

Lemma runAgent_storeOk E R prompt sessionId gen sched w :
  storeOk w -> storeOk (snd (runAgent E R prompt sessionId gen sched w)).
Proof.
  intros Hw. rewrite runAgent_steps. cbn zeta.
  assert (H2 : storeOk (promptLogged E prompt sessionId w)).
  { unfold promptLogged. apply addMessage_storeOk.
    now apply getOrCreateSession_storeOk. }
  destruct (decisionOf E R prompt sessionId w) as [message | d];
    [exact H2 |].
  destruct (isRegenerate (action d)).
  - destruct (absentOrEmpty (regenerateSpecs d)); [exact H2 |].
    pose proof (executeRegenerate_storeOk E
                  (SessionState.id (sessionOf E sessionId w))
                  (orNil (regenerateSpecs d)) (layout d) gen sched _
                  (clearForRegeneration_storeOk (sessionOf E sessionId w) _ H2))
      as H3.
    destruct (truthyString _); [exact H3 |].
    now apply recordDecision_storeOk.
  - pose proof (executeUpdate_storeOk E
                  (SessionState.id (sessionOf E sessionId w)) d gen sched _ H2)
      as H3.
    destruct (truthyString _); [exact H3 |].
    now apply recordDecision_storeOk.
Qed.

(** ** The phases of a request, on the session it works on *)

Lemma sameLogs_refl s : sameLogs s s.
Proof. now repeat split. Qed.

Lemma sameLogs_trans a b c : sameLogs a b -> sameLogs b c -> sameLogs a c.
Proof.
  intros (? & ? & ? & ?) (? & ? & ? & ?). repeat split; congruence.
Qed.

Lemma unitsKept_set s s' c now :
  unitsKept s s' -> unitsKept s (upsertInto s' c now).
Proof.
  unfold unitsKept, upsertInto. intros H.
  cbn [SessionState.components SessionState.setLastActivityAt
       SessionState.setComponents].
  rewrite JsMap_keys_set.
  destruct (JsMap.has _ _); [exact H |].
  now apply prefix_app_r.
Qed.

Lemma live_found w session s :
  getSession w (SessionState.id session) = Some s -> live w session = s.
Proof. unfold live. now intros ->. Qed.

Lemma recordDecision_spec E session prompt d w s :
  getSession w (SessionState.id session) = Some s ->
  exists s' stamp entry,
    getSession (snd (recordDecision E session prompt d w))
      (SessionState.id session) = Some s'
    /\ fst (recordDecision E session prompt d w) = succeeded d s'
    /\ SessionState.id s' = SessionState.id s
    /\ SessionState.createdAt s' = SessionState.createdAt s
    /\ SessionState.components s' = SessionState.components s
    /\ SessionState.screen s' = SessionState.screen s
    /\ SessionState.messages s'
       = SessionState.messages s
         ++ [{| Message.role := assistant;
                Message.content := formatAssistantResponse d;
                Message.timestamp := stamp |}]
    /\ SessionState.decisionHistory s'
       = SessionState.decisionHistory s ++ [entry]
    /\ recorded entry = (prompt, d, getComponentsAffected d)
    /\ othersUnchanged (SessionState.id session) w
         (snd (recordDecision E session prompt d w)).
Proof.
  intros Hs. unfold recordDecision, bind.
  rewrite (addMessage_found E w _ assistant _ s Hs).
  erewrite addDecisionToHistory_found by (session_here).
  cbn [fst snd]. eexists. eexists. eexists. split; [session_here |].
  split.
  { unfold succeeded. f_equal. f_equal. apply live_found. session_here. }
  cbn. do 7 (split; [reflexivity |]).
  intros other Hne. unfold getSession. cbn.
  now rewrite !lookup_insert_ne by congruence.
Qed.

Lemma clearForRegeneration_spec session w s :
  getSession w (SessionState.id session) = Some s ->
  let cleared := SessionState.setScreen (SessionState.setComponents s []) None in
  getSession (snd (clearForRegeneration session w)) (SessionState.id session)
  = Some cleared
  /\ othersUnchanged (SessionState.id session) w
       (snd (clearForRegeneration session w)).
Proof.
  intros Hs. unfold clearForRegeneration, putSession.
  rewrite (live_found w session s Hs). cbn [snd]. split.
  - session_here.
  - intros other Hne. unfold getSession. cbn.
    now rewrite lookup_insert_ne by congruence.
Qed.

Lemma othersUnchanged_trans sid a b c :
  othersUnchanged sid a b -> othersUnchanged sid b c ->
  othersUnchanged sid a c.
Proof. intros H1 H2 other Hne. now rewrite H2, H1. Qed.

(** The execution of a decision and the report, for the session the request
    works on: [s2] is that session once the prompt is logged, [s4] the
    session once the decision is executed. *)
Lemma runAgent_returned E R prompt sessionId gen sched w d s2 :
  decisionOf E R prompt sessionId w = Returned d ->
  getSession (promptLogged E prompt sessionId w)
    (SessionState.id (sessionOf E sessionId w)) = Some s2 ->
  let sid := SessionState.id (sessionOf E sessionId w) in
  let res := fst (runAgent E R prompt sessionId gen sched w) in
  let w' := snd (runAgent E R prompt sessionId gen sched w) in
  exists s4,
    sameLogs s4 s2
    /\ (isRegenerate (action d) = false -> unitsKept s2 s4)
    /\ (isRegenerate (action d) = true ->
        absentOrEmpty (regenerateSpecs d) = true ->
        SessionState.components s4 = SessionState.components s2
        /\ SessionState.screen s4 = SessionState.screen s2
        /\ AgentResult.error res
           = Some "REGENERATE_SCREEN requires regenerateSpecs")
    /\ ((getSession w' sid = Some s4
         /\ AgentResult.success res = false
         /\ AgentResult.decision res = None
         /\ is_Some (AgentResult.error res)
         /\ AgentResult.session res = serializeSession s4)
        \/ (isRegenerate (action d) && absentOrEmpty (regenerateSpecs d)
            = false
            /\ exists s5 stamp entry,
              getSession w' sid = Some s5
              /\ res = succeeded d s5
              /\ SessionState.components s5 = SessionState.components s4
              /\ SessionState.screen s5 = SessionState.screen s4
              /\ SessionState.messages s5
                 = SessionState.messages s4
                   ++ [{| Message.role := assistant;
                          Message.content := formatAssistantResponse d;
                          Message.timestamp := stamp |}]
              /\ SessionState.decisionHistory s5
                 = SessionState.decisionHistory s4 ++ [entry]
              /\ recorded entry = (prompt, d, getComponentsAffected d)))
    /\ othersUnchanged sid (promptLogged E prompt sessionId w) w'.
Proof.
  intros Hd Hs2 sid res w'. subst res w'. rewrite runAgent_steps. cbn zeta.
  rewrite Hd. fold sid in Hs2 |- *.
  set (session := sessionOf E sessionId w) in *.
  set (w2 := promptLogged E prompt sessionId w) in *.
  (* what the tail of the request does, from the executed state *)
  assert (Htail : forall (w4 : World) (err : option string) s4,
            getSession w4 sid = Some s4 ->
            let out := match truthyString err with
                       | Some message =>
                           (failure w4 session (rationale d) message, w4)
                       | None => recordDecision E session prompt d w4
                       end in
            ((getSession (snd out) sid = Some s4
              /\ AgentResult.success (fst out) = false
              /\ AgentResult.decision (fst out) = None
              /\ is_Some (AgentResult.error (fst out))
              /\ AgentResult.session (fst out) = serializeSession s4)
             \/ (exists s5 stamp entry,
                   getSession (snd out) sid = Some s5
                   /\ fst out = succeeded d s5
                   /\ SessionState.components s5 = SessionState.components s4
                   /\ SessionState.screen s5 = SessionState.screen s4
                   /\ SessionState.messages s5
                      = SessionState.messages s4
                        ++ [{| Message.role := assistant;
                               Message.content := formatAssistantResponse d;
                               Message.timestamp := stamp |}]
                   /\ SessionState.decisionHistory s5
                      = SessionState.decisionHistory s4 ++ [entry]
                   /\ recorded entry = (prompt, d, getComponentsAffected d)))
            /\ othersUnchanged sid w4 (snd out)).
  { intros w4 err s4 Hs4. cbn zeta. destruct (truthyString err) as [m |].
    - split; [| now intros other Hne]. left. cbn [fst snd].
      split; [exact Hs4 |]. cbn. split; [reflexivity |].
      split; [reflexivity |]. split; [eauto |].
      unfold sid in Hs4. now rewrite (live_found w4 session s4 Hs4).
    - destruct (recordDecision_spec E session prompt d w4 s4 Hs4)
        as (s5 & stamp & entry & H1 & H2 & _ & _ & H3 & H4 & H5 & H6 & H7
            & H8).
      split; [| exact H8]. right. exists s5, stamp, entry.
      split; [exact H1 |]. split; [exact H2 |]. split; [exact H3 |].
      split; [exact H4 |]. split; [exact H5 |]. split; [exact H6 | exact H7]. }
  destruct (isRegenerate (action d)) eqn:Hreg.
  - destruct (absentOrEmpty (regenerateSpecs d)) eqn:Hspecs.
    + exists s2. cbn [fst snd]. split; [apply sameLogs_refl |].
      split; [discriminate |]. split; [now intros _ _ |].
      split; [| now intros other Hne]. left.
      split; [exact Hs2 |]. cbn. split; [reflexivity |].
      split; [reflexivity |]. split; [eauto |].
      unfold sid in Hs2. now rewrite (live_found w2 session s2 Hs2).
    + destruct (clearForRegeneration_spec session w2 s2 Hs2) as [Hs3 Ho3].
      set (w3 := snd (clearForRegeneration session w2)) in *.
      pose proof (executeRegenerate_others E sid (orNil (regenerateSpecs d))
                    (layout d) gen sched w3) as Ho4.
      destruct (executeRegenerate_sessionHas E sid (orNil (regenerateSpecs d))
                  (layout d) gen sched w3 (fun s => sameLogs s s2))
        as (s4 & Hs4 & Hlogs).
      * intros s c now (? & ? & ? & ?). now repeat split.
      * intros s sc now (? & ? & ? & ?). now repeat split.
      * eexists. split; [exact Hs3 |]. now repeat split.
      * fold sid. set (out := executeRegenerate E sid _ _ gen sched w3) in *.
        destruct (Htail (snd out) (RegenerateResult.error (fst out)) s4 Hs4)
          as [Hres Ho5].
        exists s4. split; [exact Hlogs |]. split; [discriminate |].
        split; [discriminate |]. split.
        -- destruct Hres as [Hres | Hres]; [now left | right].
           split; [reflexivity | exact Hres].
        -- eapply othersUnchanged_trans; [exact Ho3 |].
           eapply othersUnchanged_trans; [exact Ho4 | exact Ho5].
  - pose proof (executeUpdate_others E sid d gen sched w2) as Ho4.
    destruct (executeUpdate_sessionHas E sid d gen sched w2
                (fun s => sameLogs s s2 /\ unitsKept s2 s))
      as (s4 & Hs4 & Hlogs & Hkept).
    + intros s c now [(? & ? & ? & ?) Hk] _. split; [now repeat split |].
      now apply unitsKept_set.
    + intros s sc now [(? & ? & ? & ?) Hk]. split; [now repeat split |].
      exact Hk.
    + exists s2. split; [exact Hs2 |]. split; [apply sameLogs_refl |].
      unfold unitsKept. reflexivity.
    + set (out := executeUpdate E sid d gen sched w2) in *.
      destruct (Htail (snd out) (fst out) s4 Hs4) as [Hres Ho5].
      exists s4. split; [exact Hlogs |]. split; [now intros _ |].
      split; [discriminate |]. split.
      * destruct Hres as [Hres | Hres]; [now left | right].
        split; [reflexivity | exact Hres].
      * eapply othersUnchanged_trans; [exact Ho4 | exact Ho5].
Qed.

(* ===================================================================== *)
(** * Further properties of the code *)
(* ===================================================================== *)

Lemma makeDecision_returned R w prompt sid d :
  makeDecision R w prompt sid = Returned d ->
  exists session d0,
    getSession w sid = Some session
    /\ d = normalizeDecision d0
             (0 <? List.length
                     (JsMap.values (SessionState.components session)))
             prompt.
Proof.
  unfold makeDecision. destruct (getSession w sid) as [session |];
    [| discriminate].
  cbn zeta. intros H. exists session.
  destruct (reasoningRequest R _) as [m | c]; [discriminate |].
  destruct (truthyString c) as [c1 |]; [| discriminate].
  destruct (parseDecision R c1) as [m1 | d1] eqn:Hp.
  - destruct (reasoningRequest R _) as [m | c']; [discriminate |].
    destruct (truthyString c') as [c2 |]; [| discriminate].
    destruct (parseDecision R c2) as [m2 | d2]; [discriminate |].
    injection H as <-. now exists d2.
  - injection H as <-. now exists d1.
Qed.

Lemma normalizeDecision_regenerate d0 prompt :
  isRegenerate (action (normalizeDecision d0 true prompt)) = true ->
  isExplicitRegen (rationale (normalizeDecision d0 true prompt)) = true.
Proof.
  unfold normalizeDecision, regenerationGuard.
  set (d1 := detectBranching (repairMisplacedSpecs d0) true prompt).
  cbn [andb].
  destruct (isRegenerate (action d1)) eqn:Ha,
           (isExplicitRegen (rationale d1)) eqn:He;
    cbn [andb negb action rationale isRegenerate]; intros H;
    first [ exact He | discriminate H | congruence ].
Qed.

Lemma settle_nil E sched : forall slots w,
  settle E [] sched slots w = (slots, w).
Proof. induction sched as [| i rest IH]; intros slots w; [reflexivity | apply IH]. Qed.

Lemma settleAll_nil E sched w : settleAll E [] sched w = ([], w).
Proof. unfold settleAll, bind. now rewrite settle_nil. Qed.

Lemma JsMap_has_get {V} k (m : list (string * V)) :
  JsMap.has k m = true <-> is_Some (JsMap.get k m).
Proof.
  unfold JsMap.has. destruct (JsMap.get k m); split; intros H;
    try reflexivity; try discriminate; eauto.
  now destruct H.
Qed.

(** The session named by the caller, once the prompt is logged. *)
Lemma promptLogged_named E prompt sessionId w s0 :
  names w sessionId s0 ->
  SessionState.id (sessionOf E sessionId w) = SessionState.id s0
  /\ exists s2 stamp,
       getSession (promptLogged E prompt sessionId w) (SessionState.id s0)
       = Some s2
       /\ SessionState.id s2 = SessionState.id s0
       /\ SessionState.components s2 = SessionState.components s0
       /\ SessionState.screen s2 = SessionState.screen s0
       /\ SessionState.decisionHistory s2 = SessionState.decisionHistory s0
       /\ SessionState.messages s2
          = SessionState.messages s0
            ++ [{| Message.role := user; Message.content := prompt;
                   Message.timestamp := stamp |}]
       /\ othersUnchanged (SessionState.id s0) w
            (promptLogged E prompt sessionId w).
Proof.
  intros Hn.
  destruct (promptLogged_session E prompt sessionId w
              (or_introl (ex_intro _ s0 Hn)))
    as (s2 & stamp & Hs2 & Hid2 & Hsame & Hmsg & Hoth).
  destruct Hn as (sid & -> & Hne & Hs & Hid). subst sid.
  destruct (sessionOf_found E w _ s0 Hne Hs) as (Hsame1 & Hmsg1 & Hid1).
  rewrite Hid1 in Hs2, Hoth, Hid2. split; [exact Hid1 |].
  exists s2, stamp. destruct Hsame as (? & ? & ?), Hsame1 as (? & ? & ?).
  split; [exact Hs2 |]. split; [exact Hid2 |].
  split; [congruence |]. split; [congruence |]. split; [congruence |].
  split; [congruence | exact Hoth].
Qed.

(** ** The store stays well formed *)

(** X1: a request keeps the store well formed, whatever the reasoning
    service answers, whichever generations fail and in whatever order the
    calls of a batch settle: every session is kept under its own identifier,
    every unit under its own, no key occurs twice, and the composition of
    every session, its ordered list and its three role bindings, refers to
    units the session has. *)
Theorem runAgent_keeps_store_well_formed (E : Env) (R : Reasoning)
    (prompt : string) (sessionId : option string) (gen : nat -> GenOutcome)
    (sched : list nat) (w : World) :
  storeOk w -> storeOk (snd (runAgent E R prompt sessionId gen sched w)).
Proof. apply runAgent_storeOk. Qed.

Lemma runAgent_keeps_store_well_formed_witness :
  storeOk (snd (runAgent demoEnv darkerReasoning "make the header darker"
                  (Some (SessionState.id pageSession)) twoOfFiveFail [1; 0]
                  pageWorld)).
Proof.
  apply runAgent_keeps_store_well_formed.
  apply map_Forall_singleton. reflexivity.
Defined.

Lemma screen_units_lookup m ids :
  keyedById m = true -> allExist m ids = true ->
  Forall2 (fun id c => JsMap.get id m = Some c /\ Component.id c = id)
    ids (omap (fun id => JsMap.get id m) ids).
Proof.
  intros Hk. induction ids as [| id ids IH]; intros Hall; [constructor |].
  cbn in Hall. apply andb_true_iff in Hall as [Hid Hall].
  apply JsMap_has_get in Hid as [c Hc]. cbn. rewrite Hc.
  constructor; [| now apply IH].
  split; [exact Hc |]. now apply (keyedById_get m).
Qed.

(** X2: in a well-formed store, the units of the rendered screen are those
    the composition lists, one per entry and in its order: no entry is
    dropped for want of a unit, and each unit carries the identifier of its
    entry. *)
Theorem screen_components_follow_composition (w : World) (sid : string)
    (s : SessionState.t) (sc : Screen.t) :
  storeOk w ->
  getSession w sid = Some s ->
  SessionState.screen s = Some sc ->
  Forall2 (fun id c => getComponent w sid id = Some c /\ Component.id c = id)
    (Screen.componentIds sc) (getScreenComponents w sid).
Proof.
  intros Hw Hs Hsc.
  pose proof (storeOk_lookup w sid s Hw Hs) as Hok.
  apply sessionOk_parts in Hok as (_ & Hk & _ & Hscreen).
  unfold getScreenComponents, getComponent. unfold getSession in Hs.
  rewrite Hs, Hsc. rewrite Hsc in Hscreen. cbn in Hscreen.
  apply andb_true_iff in Hscreen as [Hall _].
  now apply screen_units_lookup.
Qed.

Lemma screen_components_follow_composition_witness :
  Forall2 (fun id c => getComponent pageWorld (SessionState.id pageSession) id
                       = Some c /\ Component.id c = id)
    [Component.id headerUnit; Component.id footerUnit]
    (getScreenComponents pageWorld (SessionState.id pageSession)).
Proof.
  apply (screen_components_follow_composition pageWorld
           (SessionState.id pageSession) pageSession
           {| Screen.componentIds :=
                [Component.id headerUnit; Component.id footerUnit];
              Screen.layout := grid_2;
              Screen.layoutConfig := None |}).
  - apply map_Forall_singleton. reflexivity.
  - reflexivity.
  - reflexivity.
Defined.

(** ** Incremental updates *)

(** X3: an incremental update of an existing session reports no error, and
    removes nothing: the keys of the unit mapping are still there, at their
    positions, the new ones after them; the message log, the audit log, the
    identifier and the creation time of the session are as they were, and so
    is every other session. *)
Theorem update_keeps_units_and_logs (E : Env) (sid : string)
    (d : AgentDecision) (gen : nat -> GenOutcome) (sched : list nat)
    (w : World) (s : SessionState.t) :
  getSession w sid = Some s ->
  let out := executeUpdate E sid d gen sched w in
  fst out = None
  /\ (exists s', getSession (snd out) sid = Some s'
                 /\ unitsKept s s' /\ sameLogs s' s)
  /\ othersUnchanged sid w (snd out).
Proof.
  intros Hs out. subst out. split; [| split].
  - apply executeUpdate_no_error. eauto.
  - destruct (executeUpdate_sessionHas E sid d gen sched w
                (fun s' => unitsKept s s' /\ sameLogs s' s))
      as (s' & Hs' & HF).
    + intros s1 c now [Hk (? & ? & ? & ?)] _.
      split; [now apply unitsKept_set | now repeat split].
    + intros s1 sc now [Hk (? & ? & ? & ?)]. split; [exact Hk |].
      now repeat split.
    + exists s. split; [exact Hs |]. split; [| apply sameLogs_refl].
      unfold unitsKept. reflexivity.
    + now exists s'.
  - apply executeUpdate_others.
Qed.

Lemma update_keeps_units_and_logs_witness :
  let out := executeUpdate demoEnv (SessionState.id pageSession)
               darkerDecision allSucceed [1; 0] pageWorld in
  fst out = None
  /\ (exists s', getSession (snd out) (SessionState.id pageSession) = Some s'
                 /\ unitsKept pageSession s' /\ sameLogs s' pageSession)
  /\ othersUnchanged (SessionState.id pageSession) pageWorld (snd out).
Proof.
  apply (update_keeps_units_and_logs demoEnv (SessionState.id pageSession)
           darkerDecision allSucceed [1; 0] pageWorld pageSession).
  reflexivity.
Defined.

(** X4: when the units of a session are kept under their identifiers and
    the identifiers drawn do not collide with theirs, an incremental update
    keeps the identifier and the name of every unit: it rewrites
    descriptions and bodies, it never renames a unit nor replaces it by
    another. *)
Theorem update_keeps_identities (E : Env) (sid : string) (d : AgentDecision)
    (gen : nat -> GenOutcome) (sched : list nat) (w : World)
    (s : SessionState.t) :
  getSession w sid = Some s ->
  keyedById (SessionState.components s) = true ->
  (forall k, JsMap.has (uuidv4 E k) (SessionState.components s) = false) ->
  exists s', getSession (snd (executeUpdate E sid d gen sched w)) sid
             = Some s'
             /\ identitiesKept s s'.
Proof.
  intros Hs Hk Hfresh.
  apply (executeUpdate_sessionHas E sid d gen sched w (identitiesKept s)).
  - intros s1 c0 now HF Hc0 k c Hget.
    destruct (HF k c Hget) as (c1 & Hc1 & Hid1 & Hn1).
    unfold upsertInto.
    cbn [SessionState.components SessionState.setLastActivityAt
         SessionState.setComponents].
    destruct (String.eqb_spec (Component.id c0) k) as [Heq | Hne].
    + subst k. rewrite JsMap_get_set_eq. exists c0. split; [reflexivity |].
      destruct Hc0 as [(j & Hj) | (cid & existing & He & Hide & Hne)].
      * specialize (Hfresh j). rewrite <- Hj in Hfresh.
        unfold JsMap.has in Hfresh. rewrite Hget in Hfresh. discriminate.
      * unfold getComponent in He. unfold getSession in Hs.
        rewrite Hs in He.
        pose proof (keyedById_get _ _ _ Hk He) as Hcid.
        rewrite Hide, Hcid in Hget. rewrite Hget in He.
        injection He as <-. now split.
    + rewrite JsMap_get_set_ne by exact Hne. now exists c1.
  - intros s1 sc now HF. exact HF.
  - exists s. split; [exact Hs |]. intros k c Hget. now exists c.
Qed.

Lemma update_keeps_identities_witness :
  exists s',
    getSession (snd (executeUpdate demoEnv (SessionState.id pageSession)
                       darkerDecision allSucceed [1; 0] pageWorld))
      (SessionState.id pageSession) = Some s'
    /\ identitiesKept pageSession s'.
Proof.
  apply (update_keeps_identities demoEnv (SessionState.id pageSession)
           darkerDecision allSucceed [1; 0] pageWorld pageSession).
  - reflexivity.
  - reflexivity.
  - intros k. reflexivity.
Defined.

(** X5: a request on a session that has units removes none of them unless
    the decision, once normalized, is a full regeneration whose rationale
    holds an explicit phrase: whatever the reasoning service answers and
    whatever happens to the generations, the session is still there with
    the keys of its units at their positions, or the decision is such a
    regeneration. *)
Theorem units_survive_unless_explicit (E : Env) (R : Reasoning)
    (prompt : string) (sessionId : option string) (gen : nat -> GenOutcome)
    (sched : list nat) (w : World) (s0 : SessionState.t) :
  names w sessionId s0 ->
  SessionState.components s0 <> [] ->
  let w' := snd (runAgent E R prompt sessionId gen sched w) in
  exists s',
    getSession w' (SessionState.id s0) = Some s'
    /\ (unitsKept s0 s'
        \/ exists d,
             decisionOf E R prompt sessionId w = Returned d
             /\ action d = REGENERATE_SCREEN
             /\ isExplicitRegen (rationale d) = true).
Proof.
  intros Hn Hunits w'. subst w'.
  destruct (promptLogged_named E prompt sessionId w s0 Hn)
    as (Hid1 & s2 & stamp & Hs2 & Hid2 & Hc2 & _ & _ & _ & _).
  destruct (decisionOf E R prompt sessionId w) as [m | d] eqn:Hd.
  - rewrite runAgent_steps. cbn zeta. rewrite Hd. cbn [snd].
    exists s2. split; [exact Hs2 |]. left. unfold unitsKept.
    now rewrite Hc2.
  - rewrite <- Hid1 in Hs2.
    destruct (runAgent_returned E R prompt sessionId gen sched w d s2 Hd Hs2)
      as (s4 & _ & Hkept & _ & Hres & _).
    rewrite Hid1 in Hres.
    assert (Hfinal : exists s',
              getSession (snd (runAgent E R prompt sessionId gen sched w))
                (SessionState.id s0) = Some s'
              /\ SessionState.components s' = SessionState.components s4).
    { destruct Hres as [(H & _) | (_ & s5 & ? & ? & H & _ & Hc5 & _)].
      - now exists s4.
      - now exists s5. }
    destruct Hfinal as (s' & Hs' & Hc').
    exists s'. split; [exact Hs' |].
    destruct (isRegenerate (action d)) eqn:Hreg.
    + right. exists d. split; [reflexivity |].
      split; [now destruct (action d) |].
      unfold decisionOf in Hd.
      apply makeDecision_returned in Hd as (session & d0 & Hsession & ->).
      rewrite Hs2 in Hsession. injection Hsession as <-.
      assert (Hhas : (0 <? List.length
                             (JsMap.values (SessionState.components s2)))
                     = true).
      { rewrite Hc2. destruct (SessionState.components s0);
          [congruence | reflexivity]. }
      rewrite Hhas in Hreg |- *. now apply normalizeDecision_regenerate.
    + left. specialize (Hkept eq_refl). unfold unitsKept in *.
      now rewrite Hc', <- Hc2.
Qed.

Lemma units_survive_unless_explicit_witness :
  exists s',
    getSession (snd (runAgent demoEnv darkerReasoning "make the header darker"
                       (Some (SessionState.id pageSession)) twoOfFiveFail
                       [1; 0] pageWorld))
      (SessionState.id pageSession) = Some s'
    /\ (unitsKept pageSession s'
        \/ exists d,
             decisionOf demoEnv darkerReasoning "make the header darker"
               (Some (SessionState.id pageSession)) pageWorld = Returned d
             /\ action d = REGENERATE_SCREEN
             /\ isExplicitRegen (rationale d) = true).
Proof.
  apply (units_survive_unless_explicit demoEnv darkerReasoning
           "make the header darker" (Some (SessionState.id pageSession))
           twoOfFiveFail [1; 0] pageWorld pageSession).
  - exists (SessionState.id pageSession).
    split; [reflexivity |]. split; [discriminate |].
    split; reflexivity.
  - discriminate.
Defined.

(** ** The logs of a request *)

(** X6: the logs of the session a request names grow in one of two ways.
    When the request succeeds, the message log gains the prompt of the user
    and then the summary of the decision, and the audit log gains one entry,
    with the prompt, the decision and the names it affects.  When it fails,
    for whatever reason, the message log gains the prompt only and the audit
    log is as it was. *)
Theorem request_log_accounting (E : Env) (R : Reasoning) (prompt : string)
    (sessionId : option string) (gen : nat -> GenOutcome) (sched : list nat)
    (w : World) (s0 : SessionState.t) :
  names w sessionId s0 ->
  let res := fst (runAgent E R prompt sessionId gen sched w) in
  let w' := snd (runAgent E R prompt sessionId gen sched w) in
  exists s',
    getSession w' (SessionState.id s0) = Some s'
    /\ match AgentResult.decision res with
       | Some d =>
           AgentResult.success res = true
           /\ map said (SessionState.messages s')
              = map said (SessionState.messages s0)
                ++ [(user, prompt); (assistant, formatAssistantResponse d)]
           /\ map recorded (SessionState.decisionHistory s')
              = map recorded (SessionState.decisionHistory s0)
                ++ [(prompt, d, getComponentsAffected d)]
       | None =>
           AgentResult.success res = false
           /\ map said (SessionState.messages s')
              = map said (SessionState.messages s0) ++ [(user, prompt)]
           /\ SessionState.decisionHistory s'
              = SessionState.decisionHistory s0
       end.
Proof.
  intros Hn res w'. subst res w'.
  destruct (promptLogged_named E prompt sessionId w s0 Hn)
    as (Hid1 & s2 & stamp & Hs2 & Hid2 & _ & _ & Hh2 & Hm2 & _).
  destruct (decisionOf E R prompt sessionId w) as [m | d] eqn:Hd.
  - rewrite runAgent_steps. cbn zeta. rewrite Hd. cbn [fst snd].
    exists s2. split; [exact Hs2 |]. cbn [AgentResult.decision].
    split; [reflexivity |]. split; [| exact Hh2].
    rewrite Hm2, map_app. reflexivity.
  - rewrite <- Hid1 in Hs2.
    destruct (runAgent_returned E R prompt sessionId gen sched w d s2 Hd Hs2)
      as (s4 & (_ & _ & Hm4 & Hh4) & _ & _ & Hres & _).
    rewrite Hid1 in Hres.
    destruct Hres as [(Hs4 & Hfail & Hnone & _)
                     | (_ & s5 & stamp5 & entry & Hs5 & Hok & _ & _ & Hm5
                        & Hh5 & Hentry)].
    + exists s4. split; [exact Hs4 |]. rewrite Hnone.
      split; [exact Hfail |]. split; [| congruence].
      rewrite Hm4, Hm2, map_app. reflexivity.
    + exists s5. split; [exact Hs5 |]. rewrite Hok.
      cbn [succeeded AgentResult.decision AgentResult.success].
      split; [reflexivity |]. split.
      * rewrite Hm5, Hm4, Hm2, !map_app, <- app_assoc. reflexivity.
      * rewrite Hh5, Hh4, Hh2, map_app. cbn [map]. now rewrite Hentry.
Qed.

Lemma request_log_accounting_witness :
  let out := runAgent demoEnv darkerReasoning "make the header darker"
               (Some (SessionState.id pageSession)) twoOfFiveFail [1; 0]
               pageWorld in
  exists s',
    getSession (snd out) (SessionState.id pageSession) = Some s'
    /\ match AgentResult.decision (fst out) with
       | Some d =>
           AgentResult.success (fst out) = true
           /\ map said (SessionState.messages s')
              = map said (SessionState.messages pageSession)
                ++ [(user, "make the header darker");
                    (assistant, formatAssistantResponse d)]
           /\ map recorded (SessionState.decisionHistory s')
              = map recorded (SessionState.decisionHistory pageSession)
                ++ [("make the header darker", d, getComponentsAffected d)]
       | None =>
           AgentResult.success (fst out) = false
           /\ map said (SessionState.messages s')
              = map said (SessionState.messages pageSession)
                ++ [(user, "make the header darker")]
           /\ SessionState.decisionHistory s'
              = SessionState.decisionHistory pageSession
       end.
Proof.
  apply (request_log_accounting demoEnv darkerReasoning
           "make the header darker" (Some (SessionState.id pageSession))
           twoOfFiveFail [1; 0] pageWorld pageSession).
  exists (SessionState.id pageSession).
  split; [reflexivity |]. split; [discriminate |].
  split; reflexivity.
Defined.

(** X7: a full regeneration that carries no specification is refused before
    anything is cleared: the request fails with the message of the guard,
    and the session keeps its units and its composition. *)
Theorem regeneration_without_specs_is_refused (E : Env) (R : Reasoning)
    (prompt : string) (sessionId : option string) (gen : nat -> GenOutcome)
    (sched : list nat) (w : World) (s0 : SessionState.t)
    (d : AgentDecision) :
  names w sessionId s0 ->
  decisionOf E R prompt sessionId w = Returned d ->
  action d = REGENERATE_SCREEN ->
  absentOrEmpty (regenerateSpecs d) = true ->
  let res := fst (runAgent E R prompt sessionId gen sched w) in
  let w' := snd (runAgent E R prompt sessionId gen sched w) in
  AgentResult.success res = false
  /\ AgentResult.error res = Some "REGENERATE_SCREEN requires regenerateSpecs"
  /\ exists s',
       getSession w' (SessionState.id s0) = Some s'
       /\ SessionState.components s' = SessionState.components s0
       /\ SessionState.screen s' = SessionState.screen s0.
Proof.
  intros Hn Hd Ha Hspecs res w'. subst res w'.
  destruct (promptLogged_named E prompt sessionId w s0 Hn)
    as (Hid1 & s2 & stamp & Hs2 & Hid2 & Hc2 & Hsc2 & _ & _ & _).
  rewrite <- Hid1 in Hs2.
  destruct (runAgent_returned E R prompt sessionId gen sched w d s2 Hd Hs2)
    as (s4 & _ & _ & Hguard & Hres & _).
  rewrite Hid1 in Hres.
  assert (Hreg : isRegenerate (action d) = true) by now rewrite Ha.
  destruct (Hguard Hreg Hspecs) as (Hc4 & Hsc4 & Herr).
  destruct Hres as [(Hs4 & Hfail & _) | (Hno & _)].
  - split; [exact Hfail |]. split; [exact Herr |].
    exists s4. split; [exact Hs4 |]. split; congruence.
  - rewrite Hreg, Hspecs in Hno. discriminate Hno.
Qed.

Lemma regeneration_without_specs_is_refused_witness :
  let out := runAgent demoEnv bareScratchReasoning "start from scratch"
               (Some (SessionState.id pageSession)) allSucceed [] pageWorld in
  AgentResult.success (fst out) = false
  /\ AgentResult.error (fst out)
     = Some "REGENERATE_SCREEN requires regenerateSpecs"
  /\ exists s',
       getSession (snd out) (SessionState.id pageSession) = Some s'
       /\ SessionState.components s' = SessionState.components pageSession
       /\ SessionState.screen s' = SessionState.screen pageSession.
Proof.
  apply (regeneration_without_specs_is_refused demoEnv bareScratchReasoning
           "start from scratch" (Some (SessionState.id pageSession))
           allSucceed [] pageWorld pageSession bareScratchDecision).
  - exists (SessionState.id pageSession).
    split; [reflexivity |]. split; [discriminate |].
    split; reflexivity.
  - vm_compute. reflexivity.
  - reflexivity.
  - reflexivity.
Defined.

(** ** What an incremental update does not report *)

(** X8: an incremental update whose references name no unit, and which
    creates nothing, reorders nothing and asks for no layout, does nothing
    at all and says nothing: the world is as it was and no error is
    returned. *)
Theorem unresolved_update_is_silent (E : Env) (sid : string)
    (d : AgentDecision) (gen : nat -> GenOutcome) (sched : list nat)
    (w : World) :
  is_Some (getSession w sid) ->
  Forall (fun u => resolveComponentId w sid (componentId u) = None)
    (orNil (updates d)) ->
  absentOrEmpty (newComponents d) = true ->
  absentOrEmpty (screenOrder d) = true ->
  layout d = None ->
  executeUpdate E sid d gen sched w = (None, w).
Proof.
  intros [s Hs] Hup Hnew Horder Hlayout.
  assert (Hops : updateOps w sid d gen = []).
  { unfold updateOps, updateTargets.
    induction Hup as [| u us Hu _ IH]; [reflexivity |].
    cbn [omap list_omap]. rewrite Hu. cbn [truthyString]. exact IH. }
  assert (Hcreate : createOps w sid d gen = []).
  { unfold createOps. now destruct (newComponents d) as [[| ? ?] |]. }
  rewrite executeUpdate_steps, Hs. cbn zeta.
  rewrite Hops, Hcreate. cbn [app]. rewrite settleAll_nil. cbn [fst snd].
  rewrite Hs. unfold updateComposition, updateCreated.
  rewrite Horder, Hlayout, Hops. cbn.
  now destruct (SessionState.screen s).
Qed.

Lemma unresolved_update_is_silent_witness :
  executeUpdate demoEnv (SessionState.id pageSession) sidebarDecision
    allSucceed [] pageWorld
  = (None, pageWorld).
Proof.
  apply unresolved_update_is_silent.
  - exists pageSession. reflexivity.
  - repeat constructor.
  - reflexivity.
  - reflexivity.
  - reflexivity.
Defined.

(** X9: a request whose decision is an incremental update succeeds,
    whatever becomes of the calls it makes: on a session that exists, the
    failures of generation calls, the references that name no unit and a
    composition that is refused are not reported, and the decision is
    logged. *)
Theorem update_request_always_succeeds (E : Env) (R : Reasoning)
    (prompt : string) (sessionId : option string) (gen : nat -> GenOutcome)
    (sched : list nat) (w : World) (s0 : SessionState.t)
    (d : AgentDecision) :
  names w sessionId s0 ->
  decisionOf E R prompt sessionId w = Returned d ->
  action d = UPDATE_COMPONENTS ->
  let res := fst (runAgent E R prompt sessionId gen sched w) in
  AgentResult.success res = true
  /\ AgentResult.error res = None
  /\ AgentResult.decision res = Some d
  /\ AgentResult.rationale res = Some (rationale d).
Proof.
  intros Hn Hd Ha res. subst res.
  destruct (promptLogged_named E prompt sessionId w s0 Hn)
    as (Hid1 & s2 & stamp & Hs2 & _).
  rewrite <- Hid1 in Hs2.
  rewrite runAgent_steps. cbn zeta. rewrite Hd, Ha.
  cbn [isRegenerate].
  rewrite executeUpdate_no_error by eauto. cbn [truthyString].
  unfold recordDecision, bind.
  destruct (addMessage E _ assistant _ _) as [m w5].
  destruct (addDecisionToHistory E _ prompt d _ w5) as [e w6].
  cbn. now repeat split.
Qed.

Lemma update_request_always_succeeds_witness :
  let res := fst (runAgent demoEnv darkerReasoning "make the header darker"
                    (Some (SessionState.id pageSession)) allFail [] pageWorld)
  in
  AgentResult.success res = true
  /\ AgentResult.error res = None
  /\ AgentResult.decision res = Some darkerDecision
  /\ AgentResult.rationale res = Some (rationale darkerDecision).
Proof.
  apply (update_request_always_succeeds demoEnv darkerReasoning
           "make the header darker" (Some (SessionState.id pageSession))
           allFail [] pageWorld pageSession darkerDecision).
  - exists (SessionState.id pageSession).
    split; [reflexivity |]. split; [discriminate |].
    split; reflexivity.
  - vm_compute. reflexivity.
  - reflexivity.
Defined.

(** ** Misplaced specifications *)

(** X10: the units a full-regeneration decision asks for are the units the
    normalized decision creates, whatever the normalization does with the
    decision: moved from the wrong field, passed through, or downgraded to
    an incremental update, the specifications are the same list. *)
Theorem normalization_keeps_specs (d : AgentDecision)
    (hasExistingComponents : bool) (prompt : string) :
  action d = REGENERATE_SCREEN ->
  let n := normalizeDecision d hasExistingComponents prompt in
  (if isRegenerate (action n) then orNil (regenerateSpecs n)
   else orNil (newComponents n))
  = effectiveSpecs d.
Proof.
  intros Ha n. subst n.
  assert (Hrepair : let r := repairMisplacedSpecs d in
                    action r = REGENERATE_SCREEN
                    /\ orNil (regenerateSpecs r) = effectiveSpecs d).
  { unfold repairMisplacedSpecs, effectiveSpecs. rewrite Ha. cbn [isRegenerate andb].
    destruct (absentOrEmpty (regenerateSpecs d)) eqn:Hr; cbn [andb].
    - destruct (absentOrEmpty (newComponents d)) eqn:Hn; cbn [negb].
      + split; [exact Ha |].
        destruct (regenerateSpecs d) as [[| ? ?] |];
          destruct (newComponents d) as [[| ? ?] |];
          try reflexivity; discriminate.
      + now cbn.
    - now split. }
  cbn zeta in Hrepair. destruct Hrepair as [Har Hspecs].
  unfold normalizeDecision.
  set (r := repairMisplacedSpecs d) in *.
  assert (Hb : let b := detectBranching r hasExistingComponents prompt in
               action b = action r /\ regenerateSpecs b = regenerateSpecs r).
  { unfold detectBranching. now destruct (_ && _ && _). }
  cbn zeta in Hb. destruct Hb as [Hab Hsb].
  set (b := detectBranching r hasExistingComponents prompt) in *.
  unfold regenerationGuard. rewrite Hab, Har. cbn [isRegenerate].
  destruct hasExistingComponents; cbn [andb].
  - destruct (isExplicitRegen (rationale b)); cbn [negb].
    + rewrite Hab, Har. cbn [isRegenerate]. now rewrite Hsb.
    + cbn [action isRegenerate newComponents orNil]. now rewrite Hsb.
  - rewrite Hab, Har. cbn [isRegenerate]. now rewrite Hsb.
Qed.

Lemma normalization_keeps_specs_witness :
  let n := normalizeDecision misplacedDecision true "refresh the page" in
  (if isRegenerate (action n) then orNil (regenerateSpecs n)
   else orNil (newComponents n))
  = [heroSpec].
Proof.
  apply (normalization_keeps_specs misplacedDecision true "refresh the page").
  reflexivity.
Defined.

(** ** The store: units, reset, deletion *)

(** X11: storing a unit and reading it back.  On a session that exists,
    upsertComponent succeeds, the unit is what the session then holds under
    its identifier, every other key holds what it held, a key that was
    there keeps its position and a new key comes last; no other session
    changes. *)
Theorem upsert_then_get (E : Env) (w : World) (sid : string)
    (s : SessionState.t) (c : Component.t) :
  getSession w sid = Some s ->
  let out := upsertComponent E sid c w in
  fst out = true
  /\ getComponent (snd out) sid (Component.id c) = Some c
  /\ (forall k, k <> Component.id c ->
        getComponent (snd out) sid k = getComponent w sid k)
  /\ (exists s',
        getSession (snd out) sid = Some s'
        /\ keysOf (SessionState.components s')
           = if JsMap.has (Component.id c) (SessionState.components s)
             then keysOf (SessionState.components s)
             else keysOf (SessionState.components s) ++ [Component.id c])
  /\ othersUnchanged sid w (snd out).
Proof.
  intros Hs out. subst out. unfold getSession in Hs.
  unfold upsertComponent, getComponent, getSession.
  rewrite Hs. unfold bind, newDate, putSession, ret. cbn [fst snd sessions].
  split; [reflexivity |]. split; [| split; [| split]].
  - rewrite lookup_insert_eq. cbn. apply JsMap_get_set_eq.
  - intros k Hne. rewrite lookup_insert_eq. cbn.
    apply JsMap_get_set_ne. congruence.
  - eexists. split; [apply lookup_insert_eq |]. cbn.
    apply JsMap_keys_set.
  - intros other Hne. unfold getSession. cbn.
    now rewrite lookup_insert_ne by congruence.
Qed.

Lemma upsert_then_get_witness :
  let out := upsertComponent demoEnv (SessionState.id pageSession)
               headerSectionUnit pageWorld in
  fst out = true
  /\ getComponent (snd out) (SessionState.id pageSession)
       (Component.id headerSectionUnit) = Some headerSectionUnit.
Proof.
  destruct (upsert_then_get demoEnv pageWorld (SessionState.id pageSession)
              pageSession headerSectionUnit eq_refl) as (H1 & H2 & _).
  split; [exact H1 | exact H2].
Defined.

(** X12: the reset route.  For a session that is not in the store it
    answers 404 and changes nothing.  For a session that is, it answers 200
    with the session as it now is: its identifier, and no message, unit,
    composition or audit entry; the screen route then serves the empty page
    for it and its units list is empty; every other session is as it was,
    and a well-formed store stays well formed. *)
Theorem reset_route_empties_session (E : Env) (w : World) (sid : string) :
  sid <> "" ->
  let out := resetRoute E (ResetBody (Some sid)) w in
  match getSession w sid with
  | None => out = (errorResponse 404 "Session not found", w)
  | Some s =>
      GenerateResponse.status (fst out) = 200
      /\ GenerateResponse.success (fst out) = true
      /\ GenerateResponse.error (fst out) = None
      /\ GenerateResponse.session (fst out)
         = Serialized (blankSerialized (SessionState.id s))
      /\ screenRoute (snd out) (Some sid) = (200, Some "")
      /\ listComponents (snd out) sid = []
      /\ othersUnchanged sid w (snd out)
      /\ (storeOk w -> storeOk (snd out))
  end.
Proof.
  intros Hne out. subst out. apply String.eqb_neq in Hne.
  unfold resetRoute, screenRoute, truthyString. rewrite Hne.
  unfold bind, resetSession, getSession.
  destruct (sessions w !! sid) as [s |] eqn:Hs; [| reflexivity].
  unfold bind, newDate, putSession, ret. cbn [fst snd negb].
  unfold getSession. cbn [sessions]. rewrite lookup_insert_eq.
  cbn [fst snd GenerateResponse.status GenerateResponse.success
       GenerateResponse.error GenerateResponse.session].
  split; [reflexivity |]. split; [reflexivity |]. split; [reflexivity |].
  split; [reflexivity |]. split; [| split; [| split]].
  - unfold getRenderedScreen, getScreenComponents. cbn [sessions].
    now rewrite lookup_insert_eq.
  - unfold listComponents. cbn [sessions]. now rewrite lookup_insert_eq.
  - intros other Ho. unfold getSession. cbn.
    now rewrite lookup_insert_ne by congruence.
  - intros Hw. eapply (storeOk_modify w _ sid _ Hw); [reflexivity |].
    pose proof (storeOk_lookup w sid s Hw Hs) as Hok.
    apply sessionOk_parts in Hok as (Hid & _).
    apply sessionOk_parts. cbn. auto.
Qed.

Lemma reset_route_empties_session_witness :
  let out := resetRoute demoEnv
               (ResetBody (Some (SessionState.id pageSession))) pageWorld in
  GenerateResponse.status (fst out) = 200
  /\ screenRoute (snd out) (Some (SessionState.id pageSession))
     = (200, Some "").
Proof.
  assert (H : SessionState.id pageSession <> "") by discriminate.
  pose proof (reset_route_empties_session demoEnv pageWorld
                (SessionState.id pageSession) H) as Hreset.
  cbn zeta in Hreset.
  change (getSession pageWorld (SessionState.id pageSession))
    with (Some pageSession) in Hreset.
  destruct Hreset as (H1 & _ & _ & _ & H2 & _).
  split; [exact H1 | exact H2].
Defined.

(** X13: a deleted session is not revived.  After deleteSession the
    identifier names no session and the other sessions are as they were; a
    request that still names it works on a new session, empty and under an
    identifier that is drawn, not on the one the caller names. *)
Theorem deleted_session_is_not_revived (E : Env) (w : World) (sid : string) :
  let w1 := snd (deleteSession sid w) in
  let session := fst (getOrCreateSession E (Some sid) w1) in
  let w2 := snd (getOrCreateSession E (Some sid) w1) in
  fst (deleteSession sid w)
  = match getSession w sid with Some _ => true | None => false end
  /\ getSession w1 sid = None
  /\ othersUnchanged sid w w1
  /\ SessionState.id session = uuidv4 E (uuidsDrawn w)
  /\ SessionState.messages session = []
  /\ SessionState.components session = []
  /\ SessionState.screen session = None
  /\ getSession w2 (uuidv4 E (uuidsDrawn w)) = Some session
  /\ (uuidv4 E (uuidsDrawn w) <> sid -> getSession w2 sid = None).
Proof.
  cbn zeta. unfold deleteSession. cbn [fst snd].
  set (w1 := {| sessions := delete sid (sessions w);
                datesRead := datesRead w; uuidsDrawn := uuidsDrawn w |}).
  assert (Hgone : getSession w1 sid = None)
    by (unfold getSession; cbn; apply lookup_delete_eq).
  assert (Hn : namesNone w1 (Some sid)) by now right.
  rewrite (getOrCreateSession_fresh E w1 (Some sid) Hn). cbn [fst snd].
  split; [reflexivity |]. split; [exact Hgone |]. split.
  { intros other Ho. unfold getSession. cbn.
    now rewrite lookup_delete_ne by congruence. }
  cbn [SessionState.id SessionState.messages SessionState.components
       SessionState.screen uuidsDrawn w1].
  do 4 (split; [reflexivity |]). split.
  - unfold getSession. cbn. apply lookup_insert_eq.
  - intros Hu. unfold getSession. cbn.
    rewrite lookup_insert_ne by exact Hu. apply lookup_delete_eq.
Qed.

(** ** Images and their cache *)

Lemma generateImage_cacheKey I prompt size imageCache :
  generateImage I prompt size imageCache
  = match imageCache !! cacheKey prompt size with
    | Some url => (url, imageCache)
    | None =>
        match imagesGenerate I (imagePrompt prompt)
                (default size_1024x1024 size) with
        | ImageUrl url =>
            match truthyString url with
            | Some imageUrl =>
                (imageUrl, <[cacheKey prompt size := imageUrl]> imageCache)
            | None => (fallbackImage I prompt, imageCache)
            end
        | ImageError _ => (fallbackImage I prompt, imageCache)
        end
    end.
Proof. unfold generateImage, cacheKey. now destruct size. Qed.




Lemma string_length_append a b :
  String.length (a +:+ b) = String.length a + String.length b.
Proof.
  induction a as [| c a IH]; [reflexivity |].
  change (S (String.length (a +:+ b))
          = S (String.length a + String.length b)).
  now rewrite IH.
Qed.

Lemma append_inv_head a x y : a +:+ x = a +:+ y -> x = y.
Proof.
  induction a as [| c a IH]; intros H; [exact H |].
  injection H as H. now apply IH.
Qed.

Lemma decimal_inj a b : decimal a = decimal b -> a = b.
Proof.
  unfold decimal. intros H.
  apply (f_equal DecimalString.NilEmpty.uint_of_string) in H.
  rewrite !DecimalString.NilEmpty.usu in H. injection H as H.
  now apply DecimalNat.Unsigned.to_uint_inj.
Qed.

Lemma demoEnv_uuid_inj i j : uuidv4 demoEnv i = uuidv4 demoEnv j -> i = j.
Proof.
  unfold demoEnv, uuidv4. intros H.
  apply append_inv_head, decimal_inj in H. lia.
Qed.

Lemma append_suffix_inj a : forall b x y,
  String.length x = String.length y ->
  a +:+ x = b +:+ y -> a = b /\ x = y.
Proof.
  induction a as [| c a IH]; intros [| c' b] x y Hl H.
  - change (x = y) in H. now split.
  - change (x = String c' (b +:+ y)) in H. subst x.
    cbn [String.length] in Hl. rewrite string_length_append in Hl. lia.
  - change (String c (a +:+ x) = y) in H. subst y.
    cbn [String.length] in Hl. rewrite string_length_append in Hl. lia.
  - change (String c (a +:+ x) = String c' (b +:+ y)) in H.
    injection H as -> H. destruct (IH b x y Hl H) as [-> ->]. now split.
Qed.

Lemma cacheKey_inj prompt size prompt' size' :
  cacheKey prompt size = cacheKey prompt' size' ->
  prompt = prompt'
  /\ default size_1024x1024 size = default size_1024x1024 size'.
Proof.
  unfold cacheKey. intros H.
  apply append_suffix_inj in H as [Hp Hs].
  - split; [exact Hp |].
    destruct (default size_1024x1024 size),
             (default size_1024x1024 size'); try reflexivity; discriminate.
  - now destruct (default size_1024x1024 size),
                 (default size_1024x1024 size').
Qed.

(** X15: the image cache does not mix requests up.  Two requests differ
    when their prompts differ or their sizes do, an omitted size being
    1024x1024; what one of them leaves in the cache does not change the
    answer to the other. *)
Theorem image_cache_keeps_requests_apart (I I' : Imaging)
    (prompt prompt' : string) (size size' : option ImageSize)
    (imageCache : gmap string string) :
  prompt <> prompt'
  \/ default size_1024x1024 size <> default size_1024x1024 size' ->
  fst (generateImage I' prompt' size'
         (snd (generateImage I prompt size imageCache)))
  = fst (generateImage I' prompt' size' imageCache).
Proof.
  intros Hdiff.
  assert (Hkey : cacheKey prompt size <> cacheKey prompt' size').
  { intros [Hp Hs]%cacheKey_inj. now destruct Hdiff. }
  rewrite !(generateImage_cacheKey I').
  assert (Hsame : snd (generateImage I prompt size imageCache)
                    !! cacheKey prompt' size'
                  = imageCache !! cacheKey prompt' size').
  { rewrite generateImage_cacheKey.
    destruct (imageCache !! cacheKey prompt size); [reflexivity |].
    destruct (imagesGenerate I _ _) as [m | url]; [reflexivity |].
    destruct (truthyString url); [| reflexivity].
    cbn [snd]. now rewrite lookup_insert_ne. }
  rewrite Hsame.
  destruct (imageCache !! cacheKey prompt' size'); [reflexivity |].
  destruct (imagesGenerate I' _ _) as [m | url]; [reflexivity |].
  now destruct (truthyString url).
Qed.

Lemma image_cache_keeps_requests_apart_witness :
  fst (generateImage downImaging "mountain lake at dawn"
         (Some size_1792x1024)
         (snd (generateImage demoImaging "mountain lake at dawn" None ∅)))
  = fst (generateImage downImaging "mountain lake at dawn"
           (Some size_1792x1024) ∅).
Proof.
  apply image_cache_keeps_requests_apart. right. discriminate.
Defined.

(** ** The generate route *)

(** X16: the generate route, for a caller who names a session of the
    store.  A prompt that is empty, or blank once trimmed, is answered 400
    and nothing changes.  Any other prompt is answered 200, whether the
    request succeeds or not; the session of the answer is the session as the
    store holds it when the request ends, and the answer carries an error
    exactly when it reports a failure. *)
Theorem generate_route_reports_stored_session (trim : string -> string)
    (E : Env) (R : Reasoning) (prompt : string) (sessionId : option string)
    (gen : nat -> GenOutcome) (sched : list nat) (w : World)
    (s0 : SessionState.t) :
  names w sessionId s0 ->
  let out := generateRoute trim E R (GenerateBody (Some prompt) sessionId)
               gen sched w in
  if String.eqb prompt "" || (String.length (trim prompt) =? 0)
  then out = (errorResponse 400 "Prompt is required", w)
  else
    GenerateResponse.status (fst out) = 200
    /\ snd out = snd (runAgent E R (trim prompt) sessionId gen sched w)
    /\ (exists s',
          getSession (snd out) (SessionState.id s0) = Some s'
          /\ GenerateResponse.session (fst out)
             = Serialized (serializeSession s'))
    /\ (GenerateResponse.success (fst out) = false
        <-> is_Some (GenerateResponse.error (fst out))).
Proof.
  intros Hn out. subst out. unfold generateRoute, truthyString.
  destruct (String.eqb prompt ""); [reflexivity |]. cbn [orb].
  destruct (String.length (trim prompt) =? 0); [reflexivity |].
  unfold bind, ret.
  assert (Hrun : let res := fst (runAgent E R (trim prompt) sessionId gen
                                   sched w) in
                 let w' := snd (runAgent E R (trim prompt) sessionId gen
                                  sched w) in
                 (exists s',
                    getSession w' (SessionState.id s0) = Some s'
                    /\ AgentResult.session res = serializeSession s')
                 /\ (AgentResult.success res = false
                     <-> is_Some (AgentResult.error res))).
  { cbn zeta.
    destruct (promptLogged_named E (trim prompt) sessionId w s0 Hn)
      as (Hid1 & s2 & stamp & Hs2 & _).
    destruct (decisionOf E R (trim prompt) sessionId w) as [m | d] eqn:Hd.
    - rewrite runAgent_steps. cbn zeta. rewrite Hd. cbn [fst snd].
      cbn [AgentResult.session AgentResult.success AgentResult.error].
      destruct Hn as (sid & -> & Hne & Hs & Hid). subst sid.
      apply String.eqb_neq in Hne. unfold truthyString. rewrite Hne, Hs2.
      split; [now exists s2 |]. split; eauto.
    - rewrite <- Hid1 in Hs2.
      destruct (runAgent_returned E R (trim prompt) sessionId gen sched w d
                  s2 Hd Hs2) as (s4 & _ & _ & _ & Hres & _).
      rewrite Hid1 in Hres.
      destruct Hres as [(Hs4 & Hfail & _ & Herr & Hsession)
                       | (_ & s5 & ? & ? & Hs5 & Hok & _)].
      + split; [now exists s4 |]. split; eauto.
      + rewrite Hok. cbn [succeeded AgentResult.session AgentResult.success
                          AgentResult.error].
        split; [now exists s5 |]. split; [discriminate |].
        intros [? Hsome]. discriminate Hsome. }
  cbn zeta in Hrun. destruct Hrun as [(s' & Hs' & Hsession) Herr].
  destruct (runAgent E R (trim prompt) sessionId gen sched w) as [res w'].
  cbn [fst snd] in *.
  cbn [GenerateResponse.status GenerateResponse.session
       GenerateResponse.success GenerateResponse.error].
  split; [reflexivity |]. split; [reflexivity |].
  split; [| exact Herr]. exists s'. split; [exact Hs' |]. now rewrite Hsession.
Qed.

Lemma generate_route_reports_stored_session_witness :
  let out := generateRoute (fun s => s) demoEnv darkerReasoning
               (GenerateBody (Some "make the header darker")
                  (Some (SessionState.id pageSession)))
               allSucceed [1; 0] pageWorld in
  GenerateResponse.status (fst out) = 200
  /\ exists s',
       getSession (snd out) (SessionState.id pageSession) = Some s'
       /\ GenerateResponse.session (fst out)
          = Serialized (serializeSession s').
Proof.
  assert (Hn : names pageWorld (Some (SessionState.id pageSession))
                 pageSession).
  { exists (SessionState.id pageSession).
    split; [reflexivity |]. split; [discriminate |].
    split; reflexivity. }
  pose proof (generate_route_reports_stored_session (fun s => s) demoEnv
                darkerReasoning "make the header darker"
                (Some (SessionState.id pageSession)) allSucceed [1; 0]
                pageWorld pageSession Hn) as Hroute.
  cbn zeta in Hroute.
  change (String.eqb "make the header darker" ""
          || (String.length "make the header darker" =? 0))
    with false in Hroute.
  destruct Hroute as (H1 & _ & H2 & _).
  split; [exact H1 | exact H2].
Defined.

(** ** What the screen shows after a regeneration *)

Lemma omap_get_held (m : list (string * Component.t)) cs :
  Forall (fun c => JsMap.get (Component.id c) m = Some c) cs ->
  omap (fun id => JsMap.get id m) (map Component.id cs) = cs.
Proof.
  induction 1 as [| c cs Hc _ IH]; [reflexivity |].
  cbn. rewrite Hc. now f_equal.
Qed.

(** X17: what the screen shows after a regeneration of which at least one
    generation succeeds, identifiers never repeating: the units of the
    screen are those generated, in the order of the specifications, each
    with the name of its specification and the generated description and
    body, and the page served is their bodies, one blank line between two
    of them. *)
Theorem regenerated_screen_shows_generated (E : Env) (w : World)
    (sid : string) (session : SessionState.t)
    (specs : list NewComponentSpec) (layout : option LayoutSpec)
    (gen : nat -> GenOutcome) (sched : list nat) :
  getSession w sid = Some session ->
  (forall i j, uuidv4 E i = uuidv4 E j -> i = j) ->
  generated specs gen <> [] ->
  let w' := snd (executeRegenerate E sid specs layout gen sched w) in
  map unitContent (getScreenComponents w' sid) = generated specs gen
  /\ getRenderedScreen w' sid
     = Js.join (nl +:+ nl) (map snd (generated specs gen)).
Proof.
  intros Hs Hinj Hgen w'. subst w'.
  assert (Hsid : is_Some (getSession w sid)) by eauto.
  pose proof (regenerate_created_held E sid specs gen sched w Hinj Hsid)
    as Hheld.
  destruct (settleAll_settledAs E (regenerateCalls sid specs gen) sched w)
    as [Hkept HF].
  destruct (regenerate_created sid w _ specs gen _ Hsid HF) as [Hcontent Hst].
  rewrite executeRegenerate_steps. cbn zeta.
  destruct (settleAll E (regenerateCalls sid specs gen) sched w)
    as [results w1]. cbn [fst snd] in *.
  set (created := omap createdComponent results) in *.
  destruct (Hkept sid Hsid) as [s1 Hs1].
  destruct (stored_allExist w1 sid s1 created Hs1 Hst) as [Hall Hhas].
  destruct (List.length created =? 0) eqn:Hlen.
  { apply Nat.eqb_eq, length_zero_iff_nil in Hlen.
    rewrite Hlen in Hcontent. cbn in Hcontent. congruence. }
  rewrite (composeScreen_known E w1 sid s1 _ _ _ Hs1 Hall). cbn [snd].
  assert (Hunits : getScreenComponents
                     {| sessions :=
                          <[sid := SessionState.setLastActivityAt
                                     (SessionState.setScreen s1
                                        (Some {| Screen.componentIds :=
                                                   map Component.id created;
                                                 Screen.layout :=
                                                   match layout with
                                                   | Some l => type l
                                                   | None => stack
                                                   end;
                                                 Screen.layoutConfig :=
                                                   regenerateLayoutConfig
                                                     layout created |}))
                                     (clock E (datesRead w1))]> (sessions w1);
                        datesRead := S (datesRead w1);
                        uuidsDrawn := uuidsDrawn w1 |} sid
                   = created).
  { unfold getScreenComponents. cbn [sessions]. rewrite lookup_insert_eq.
    cbn. apply omap_get_held.
    eapply Forall_impl; [exact Hheld |].
    intros c (s & Hs' & Hget). cbn beta in Hs'.
    rewrite Hs1 in Hs'. now injection Hs' as <-. }
  split.
  - cbn [option_map]. rewrite <- Hcontent. f_equal. exact Hunits.
  - unfold getRenderedScreen. cbn [option_map]. rewrite Hunits, Hlen.
    f_equal. rewrite <- Hcontent, map_map. reflexivity.
Qed.

Lemma regenerated_screen_shows_generated_witness :
  getRenderedScreen
    (snd (executeRegenerate demoEnv (SessionState.id pageSession)
            [heroSpec; pricingSpec] None allSucceed [1; 0] pageWorld))
    (SessionState.id pageSession)
  = "<section>0</section>" +:+ nl +:+ nl +:+ "<section>1</section>".
Proof.
  refine (proj2 (regenerated_screen_shows_generated demoEnv pageWorld
                   (SessionState.id pageSession) pageSession
                   [heroSpec; pricingSpec] None allSucceed [1; 0]
                   eq_refl _ _)).
  - exact demoEnv_uuid_inj.
  - discriminate.
Defined.

(** ** New units of an incremental update *)

(** X18: an incremental update that gives no order puts its new units after
    the composition it finds.  In a well-formed store, when at least one of
    the generations for the new units succeeds, the units created are those
    generated, in the order of the specifications, the failed ones left out;
    they are in the mapping; and the ordered list of the composition is the
    one the session had, followed by their identifiers. *)
Theorem update_appends_new_units (E : Env) (sid : string)
    (d : AgentDecision) (gen : nat -> GenOutcome) (sched : list nat)
    (w : World) (s : SessionState.t) :
  storeOk w ->
  getSession w sid = Some s ->
  absentOrEmpty (screenOrder d) = true ->
  let specs := orNil (newComponents d) in
  let outcome := fun j => gen (List.length (updateOps w sid d gen) + j) in
  let w' := snd (executeUpdate E sid d gen sched w) in
  generated specs outcome <> [] ->
  exists s' news,
    getSession w' sid = Some s'
    /\ map unitContent news = generated specs outcome
    /\ Forall (fun c => JsMap.has (Component.id c)
                          (SessionState.components s') = true) news
    /\ composedIds s' = composedIds s ++ map Component.id news.
Proof.
  intros Hw Hs Horder specs outcome w' Hgen. subst w'.
  assert (Hsid : is_Some (getSession w sid)) by eauto.
  rewrite executeUpdate_steps, Hs. cbn zeta.
  destruct (settleAll_settledAs E (updateOps w sid d gen
                                   ++ createOps w sid d gen) sched w)
    as [_ HF].
  destruct (settleAll_sessionHas E (updateOps w sid d gen
                                    ++ createOps w sid d gen) sched w sid
              (fun s1 => SessionState.screen s1 = SessionState.screen s
                         /\ forall id,
                              JsMap.has id (SessionState.components s) = true
                              -> JsMap.has id (SessionState.components s1)
                                 = true))
    as (s1 & Hs1 & Hscreen & Hhas).
  { intros i p _ s1 c now [H1 H2] _. split; [exact H1 |].
    intros id Hid. cbn. apply JsMap_has_set. now apply H2. }
  { exists s. split; [exact Hs |]. now split. }
  destruct (settleAll E _ sched w) as [results w1]. cbn [fst snd] in *.
  rewrite Hs1.
  apply Forall2_app_inv_l in HF as (r1 & r2 & HF1 & HF2 & ->).
  assert (Hnews : updateCreated w sid d gen (r1 ++ r2)
                  = omap createdComponent r2).
  { unfold updateCreated. f_equal.
    rewrite (Forall2_length _ _ _ HF1). apply drop_app_length. }
  rewrite Hnews.
  change (createOps w sid d gen) with (regenerateCalls sid specs outcome)
    in HF2.
  destruct (regenerate_created sid w w1 specs outcome r2 Hsid HF2)
    as [Hcontent Hstored].
  set (news := omap createdComponent r2) in *.
  destruct (stored_allExist w1 sid s1 news Hs1 Hstored) as [Hall Hin].
  assert (Hids : updateComposition w1 sid d s1 news
                 = Some (composedIds s ++ map Component.id news)).
  { unfold updateComposition, composedIds. rewrite Horder, Hscreen.
    cbn [negb].
    destruct news as [| c news'];
      [cbn in Hcontent; congruence |].
    now destruct (SessionState.screen s). }
  rewrite Hids.
  assert (Hexist : allExist (SessionState.components s1)
                     (composedIds s ++ map Component.id news) = true).
  { unfold allExist. rewrite forallb_app. apply andb_true_iff.
    split; [| exact Hall].
    pose proof (storeOk_lookup w sid s Hw Hs) as Hok.
    apply sessionOk_parts in Hok as (_ & _ & _ & Hsc).
    unfold composedIds. unfold screenOk in Hsc.
    destruct (SessionState.screen s) as [sc |]; [| reflexivity].
    apply andb_true_iff in Hsc as [Hsc _].
    apply forallb_forall. intros id Hid. apply Hhas.
    unfold allExist in Hsc. rewrite forallb_forall in Hsc. now apply Hsc. }
  rewrite (composeScreen_known E w1 sid s1 _ _ _ Hs1 Hexist). cbn [snd].
  eexists. exists news. split; [session_here |].
  split; [exact Hcontent |]. split; [exact Hin |]. reflexivity.
Qed.

Lemma update_appends_new_units_witness :
  exists s' news,
    getSession (snd (executeUpdate demoEnv (SessionState.id pageSession)
                       darkerDecision allSucceed [1; 0] pageWorld))
      (SessionState.id pageSession) = Some s'
    /\ map unitContent news
       = [("Hero", "Headline and call to action", "<section>1</section>")]
    /\ Forall (fun c => JsMap.has (Component.id c)
                          (SessionState.components s') = true) news
    /\ composedIds s'
       = [Component.id headerUnit; Component.id footerUnit]
         ++ map Component.id news.
Proof.
  apply (update_appends_new_units demoEnv (SessionState.id pageSession)
           darkerDecision allSucceed [1; 0] pageWorld pageSession).
  - apply map_Forall_singleton. reflexivity.
  - reflexivity.
  - reflexivity.
  - discriminate.
Defined.

(** ** Frame names *)

Lemma join_head_nonempty sep c r rest :
  Js.join sep (String c r :: rest) <> "".
Proof. destruct rest; discriminate. Qed.

(** X19: every design frame gets a name: whatever the prompt and the
    decision, generateFrameName does not return the empty string. *)
Theorem frame_name_is_never_empty (prompt : string)
    (decision : option AgentDecision) :
  generateFrameName prompt decision <> "".
Proof.
  unfold generateFrameName.
  destruct (List.find _ framePatterns) as [pattern |] eqn:Hfind.
  - apply find_some in Hfind as [Hin _]. unfold framePatterns in Hin.
    cbn [In] in Hin.
    repeat (destruct Hin as [<- | Hin]; [discriminate |]).
    destruct Hin.
  - cbn zeta.
    assert (Hwords :
      let words :=
        firstn 2
          (List.filter
             (fun w => negb (Js.arrIncludes frameStopWords (Js.toLowerCase w))
                       && (2 <? String.length w))
             (splitSpaces prompt)) in
      (if List.length words =? 0 then "New Design"
       else Js.join " " (map capitalize words)) <> "").
    { cbn zeta.
      destruct (List.filter _ (splitSpaces prompt)) as [| w ws] eqn:Hf;
        [discriminate |].
      assert (Hw : In w (List.filter
                           (fun w => negb (Js.arrIncludes frameStopWords
                                             (Js.toLowerCase w))
                                     && (2 <? String.length w))
                           (splitSpaces prompt)))
        by (rewrite Hf; now left).
      apply filter_In in Hw as [_ Hw].
      apply andb_true_iff in Hw as [_ Hlen].
      destruct w as [| c r]; [discriminate Hlen |].
      cbn [firstn take List.length Nat.eqb map capitalize].
      apply join_head_nonempty. }
    destruct decision as [d |]; [| exact Hwords].
    destruct (regenerateSpecs d) as [[| first rest] |]; try exact Hwords.
    destruct (Js.includes _ "hero"); [discriminate |].
    destruct (Js.includes _ "sidebar"); [discriminate |].
    destruct (Js.includes _ "gallery"); [discriminate | exact Hwords].
Qed.

(** ** One request, one session *)

Lemma storeOk_names w sessionId :
  storeOk w -> (exists s0, names w sessionId s0) \/ namesNone w sessionId.
Proof.
  intros Hw. destruct sessionId as [sid |]; [| now right].
  destruct (String.eqb_spec sid "") as [-> | Hne]; [right; now left |].
  destruct (getSession w sid) as [s |] eqn:Hs; [| right; now right].
  left. exists s, sid. split; [reflexivity |]. split; [exact Hne |].
  split; [exact Hs |].
  now apply (storeOk_lookup w sid s Hw) in Hs as [Hid _]%sessionOk_parts.
Qed.

(** X20: a request works on one session and leaves the others alone.  In a
    well-formed store, whatever the request does, every session other than
    the one it works on, the one the caller names or the one created for
    the call, is after the request what it was before. *)
Theorem request_is_confined (E : Env) (R : Reasoning) (prompt : string)
    (sessionId : option string) (gen : nat -> GenOutcome) (sched : list nat)
    (w : World) :
  storeOk w ->
  othersUnchanged (SessionState.id (sessionOf E sessionId w)) w
    (snd (runAgent E R prompt sessionId gen sched w)).
Proof.
  intros Hw.
  destruct (promptLogged_session E prompt sessionId w
              (storeOk_names w sessionId Hw))
    as (s2 & stamp & Hs2 & _ & _ & _ & Hoth).
  destruct (decisionOf E R prompt sessionId w) as [m | d] eqn:Hd.
  - rewrite runAgent_steps. cbn zeta. rewrite Hd. exact Hoth.
  - destruct (runAgent_returned E R prompt sessionId gen sched w d s2 Hd Hs2)
      as (s4 & _ & _ & _ & _ & Hoth').
    eapply othersUnchanged_trans; [exact Hoth | exact Hoth'].
Qed.

Lemma request_is_confined_witness :
  othersUnchanged (SessionState.id pageSession) pageWorld
    (snd (runAgent demoEnv scratchReasoning "start from scratch"
            (Some (SessionState.id pageSession)) twoOfFiveFail [] pageWorld)).
Proof.
  apply (request_is_confined demoEnv scratchReasoning "start from scratch"
           (Some (SessionState.id pageSession)) twoOfFiveFail [] pageWorld).
  apply map_Forall_singleton. reflexivity.
Defined.

(** ** A change of layout *)

(** X21: a decision that only changes the layout keeps the content of the
    page.  In a well-formed store, an incremental update with a layout that
    names no role, and with no update, no new unit and no order, leaves the
    unit mapping as it was and recomposes the screen with the same ordered
    list and the same role bindings under the new layout type. *)
Theorem layout_change_keeps_composition (E : Env) (sid : string)
    (d : AgentDecision) (gen : nat -> GenOutcome) (sched : list nat)
    (w : World) (s : SessionState.t) (sc : Screen.t) (l : LayoutSpec) :
  storeOk w ->
  getSession w sid = Some s ->
  SessionState.screen s = Some sc ->
  absentOrEmpty (updates d) = true ->
  absentOrEmpty (newComponents d) = true ->
  absentOrEmpty (screenOrder d) = true ->
  layout d = Some l ->
  sidebarComponent l = None ->
  headerComponent l = None ->
  footerComponent l = None ->
  exists s' sc',
    getSession (snd (executeUpdate E sid d gen sched w)) sid = Some s'
    /\ SessionState.components s' = SessionState.components s
    /\ SessionState.screen s' = Some sc'
    /\ Screen.componentIds sc' = Screen.componentIds sc
    /\ Screen.layout sc' = type l
    /\ boundRoles sc' = boundRoles sc.
Proof.
  intros Hw Hs Hsc Hup Hnew Horder Hlayout Hside Hhead Hfoot.
  assert (Hops : updateOps w sid d gen = []).
  { unfold updateOps, updateTargets. now destruct (updates d) as [[| ? ?] |]. }
  assert (Hcreate : createOps w sid d gen = []).
  { unfold createOps. now destruct (newComponents d) as [[| ? ?] |]. }
  rewrite executeUpdate_steps, Hs. cbn zeta.
  rewrite Hops, Hcreate. cbn [app]. rewrite settleAll_nil. cbn [fst snd].
  rewrite Hs.
  assert (Hids : updateComposition w sid d s (updateCreated w sid d gen [])
                 = Some (Screen.componentIds sc)).
  { unfold updateComposition, updateCreated.
    rewrite Horder, Hops, Hsc, Hlayout. reflexivity. }
  rewrite Hids.
  pose proof (storeOk_lookup w sid s Hw Hs) as Hok.
  apply sessionOk_parts in Hok as (_ & _ & _ & Hscreen).
  unfold screenOk in Hscreen. rewrite Hsc in Hscreen.
  apply andb_true_iff in Hscreen as [Hall _].
  rewrite (composeScreen_known E w sid s _ _ _ Hs Hall). cbn [snd].
  eexists. eexists. split; [session_here |].
  cbn [SessionState.components SessionState.screen
       SessionState.setLastActivityAt SessionState.setScreen].
  split; [reflexivity |]. split; [reflexivity |].
  cbn [Screen.componentIds Screen.layout].
  split; [reflexivity |]. split.
  - unfold updateLayoutType. now rewrite Hlayout.
  - unfold boundRoles, updateLayoutConfig, updateBinding, currentConfig.
    cbn [Screen.layoutConfig].
    rewrite Hlayout, Hside, Hhead, Hfoot, Hsc. cbn [truthyString].
    now destruct (Screen.layoutConfig sc).
Qed.

Lemma layout_change_keeps_composition_witness :
  exists s' sc',
    getSession (snd (executeUpdate demoEnv (SessionState.id pageSession)
                       gridDecision allFail [] pageWorld))
      (SessionState.id pageSession) = Some s'
    /\ SessionState.components s' = SessionState.components pageSession
    /\ SessionState.screen s' = Some sc'
    /\ Screen.componentIds sc'
       = [Component.id headerUnit; Component.id footerUnit]
    /\ Screen.layout sc' = grid_3
    /\ boundRoles sc' = (None, None, None).
Proof.
  apply (layout_change_keeps_composition demoEnv
           (SessionState.id pageSession) gridDecision allFail [] pageWorld
           pageSession
           {| Screen.componentIds :=
                [Component.id headerUnit; Component.id footerUnit];
              Screen.layout := grid_2;
              Screen.layoutConfig := None |}
           {| type := grid_3; sidebarComponent := None;
              headerComponent := None; footerComponent := None |}).
  - apply map_Forall_singleton. reflexivity.
  - reflexivity.
  - reflexivity.
  - reflexivity.
  - reflexivity.
  - reflexivity.
  - reflexivity.
  - reflexivity.
  - reflexivity.
  - reflexivity.
Defined.
